(** * TextArea: settings persistence and theme application

    A shallow embedding of [src/TextArea.py] (class [TextAreaApp]): the
    attributes of the application object, the Qt widgets it drives, and the
    [QSettings] store it reads at start-up and rewrites on every save.

    Python exceptions are results ([Raise]); the call stack that bounds the
    recursion of [apply_theme] is an explicit depth. *)

From Stdlib Require Import ZArith String Ascii List Bool Lia.
From Stdlib Require Import Decimal DecimalString DecimalZ.
From stdpp Require Import base option gmap strings.

Local Open Scope Z_scope.
Local Open Scope string_scope.

(** ** Python results *)

Inductive PyExc :=
| ValueError | TypeError | AttributeError | OverflowError | RecursionError.

Inductive result (A : Type) :=
| Ok (a : A)
| Raise (e : PyExc).
Arguments Ok {A} a.
Arguments Raise {A} e.

Global Instance result_ret : MRet result := fun A a => Ok a.

Global Instance result_bind : MBind result := fun A B k r =>
  match r with
  | Ok a => k a
  | Raise e => Raise e
  end.

(** [self.attr] for an attribute that may not exist. *)
Definition attr {A} (o : option A) : result A :=
  match o with
  | Some a => Ok a
  | None => Raise AttributeError
  end.

(** ** Values held by attributes and by the store *)

Record Rect := { rx : Z; ry : Z; rw : Z; rh : Z }.

(** A [QByteArray].  The blobs of [saveGeometry] and [saveState] are opaque
    to the program; they are kept by what they restore.  [RawBytes] is any
    other content. *)
Inductive QByteArray :=
| GeometryBlob (r : Rect)
| StateBlob (layout : N)
| RawBytes (b : list Byte.byte).

Inductive Value :=
| VNone
| VBool (b : bool)
| VInt (z : Z)
| VStr (s : string)
| VBytes (q : QByteArray).

(** [v == lit] for a string literal [lit]. *)
Definition py_eq_str (v : Value) (lit : string) : bool :=
  match v with
  | VStr s => String.eqb s lit
  | _ => false
  end.

(** Truth value of [if v:]. *)
Definition truthy (v : Value) : bool :=
  match v with
  | VNone => false
  | VBool b => b
  | VInt z => negb (Z.eqb z 0)
  | VStr s => negb (String.eqb s "")
  | VBytes (RawBytes b) => negb (Nat.eqb (List.length b) 0)
  | VBytes _ => true
  end.

(** ** [int(...)] and [str(int)] *)

Definition is_space (c : ascii) : bool :=
  let n := nat_of_ascii c in
  (Nat.eqb n 32 || (Nat.leb 9 n && Nat.leb n 13))%bool.

Fixpoint skip_space (s : string) : string :=
  match s with
  | String c r => if is_space c then skip_space r else s
  | EmptyString => s
  end.

Fixpoint all_space (s : string) : bool :=
  match s with
  | String c r => (is_space c && all_space r)%bool
  | EmptyString => true
  end.

(** Decimal digits, a single underscore allowed between two digits, then
    optional trailing white space.  [prev] tells whether the character just
    read was a digit. *)
Fixpoint py_digits (prev : bool) (s : string) : option uint :=
  match s with
  | EmptyString => if prev then Some Nil else None
  | String c r =>
      if is_space c then (if (prev && all_space r)%bool then Some Nil else None)
      else if Ascii.eqb c "_" then (if prev then py_digits false r else None)
      else uint_of_char c (py_digits true r)
  end.


(** [int(s)] for a string: white space, optional sign, digits (ASCII).  For
    a text of ASCII characters this is the whole of [int(s)], up to the
    length from which Python 3.11 and later refuse a number (more than 4300
    digits); Python reads the decimal digits and the white space of other
    scripts as well, and those are not modelled: on such a text nothing is
    said here. *)
Definition int_of_string (s : string) : option Z :=
  match skip_space s with
  | String c r =>
      if Ascii.eqb c "-" then option_map (fun d => Z.of_int (Neg d)) (py_digits false r)
      else if Ascii.eqb c "+" then option_map (fun d => Z.of_int (Pos d)) (py_digits false r)
      else option_map (fun d => Z.of_int (Pos d)) (py_digits false (String c r))
  | EmptyString => None
  end.

(** [str(z)]: the decimal text QSettings writes for an integer. *)
Definition str_of_int (z : Z) : string := NilZero.string_of_int (Z.to_int z).


Definition py_int (v : Value) : result Z :=
  match v with
  | VInt z => Ok z
  | VBool b => Ok (if b then 1 else 0)
  | VStr s =>
      match int_of_string s with
      | Some z => Ok z
      | None => Raise ValueError
      end
  | VBytes (RawBytes b) =>
      match int_of_string (string_of_list_byte b) with
      | Some z => Ok z
      | None => Raise ValueError
      end
  | VBytes _ => Raise ValueError
  | VNone => Raise TypeError
  end.

(** ** Style sheets

    The texts passed to [setStyleSheet], character for character. *)

(** [apply_theme], lines 213-286. *)
Definition dark_window_style : string :=
"
                QMainWindow {
                    background-color: #1e1e1e;
                }
                QToolBar {
                    background-color: #252525;
                    border: none;
                    padding: 5px;
                }
                QTextEdit, QPlainTextEdit {
                    background-color: #1e1e1e;
                    color: white;
                    selection-background-color: #0078d7;
                    selection-color: white;
                    border: none;
                }
                QPushButton {
                    background-color: #333;
                    color: white;
                    border: none;
                    padding: 5px 10px;
                    min-width: 60px;
                }
                QPushButton:hover {
                    background-color: #444;
                }
                QPushButton:checked {
                    background-color: #0078d7;
                }
                QDialog {
                    background-color: #252525;
                }
                QLabel {
                    color: white;
                }
                QGroupBox {
                    color: white;
                    border: 1px solid #444;
                    margin-top: 10px;
                    padding-top: 15px;
                }
                QComboBox, QSpinBox, QFontComboBox {
                    background-color: #333;
                    color: white;
                    border: 1px solid #555;
                    padding: 3px;
                }
                QTabWidget::pane {
                    border: none;
                }
                QTabBar::tab {
                    background: #252525;
                    color: white;
                    padding: 8px;
                    border: none;
                }
                QTabBar::tab:selected {
                    background: #333;
                }
                QRadioButton {
                    color: white;
                    padding: 5px;
                }
                QDockWidget {
                    background: #252525;
                }
                QGroupBox#debug_group {
                    color: white;
                    border: 1px solid #444;
                }
                QCheckBox {
                    color: white;
                }     
            ".

(** [apply_theme], lines 301-375. *)
Definition light_window_style : string :=
"
                QMainWindow {
                    background-color: #ffffff;
                }
                QToolBar {
                    background-color: #f0f0f0;
                    border: none;
                    padding: 5px;
                }
                QTextEdit, QPlainTextEdit {
                    background-color: #ffffff;
                    color: black;
                    selection-background-color: #0078d7;
                    selection-color: white;
                    border: none;
                }
                QPushButton {
                    background-color: #e0e0e0;
                    color: black;
                    border: none;
                    padding: 5px 10px;
                    min-width: 60px;
                }
                QPushButton:hover {
                    background-color: #d0d0d0;
                }
                QPushButton:checked {
                    background-color: #0078d7;
                    color: white;
                }
                QDialog {
                    background-color: #f0f0f0;
                }
                QLabel {
                    color: black;
                }
                QGroupBox {
                    color: black;
                    border: 1px solid #ccc;
                    margin-top: 10px;
                    padding-top: 15px;
                }
                QComboBox, QSpinBox, QFontComboBox {
                    background-color: #ffffff;
                    color: black;
                    border: 1px solid #ccc;
                    padding: 3px;
                }
                QTabWidget::pane {
                    border: none;
                }
                QTabBar::tab {
                    background: #f0f0f0;
                    color: black;
                    padding: 8px;
                    border: none;
                }
                QTabBar::tab:selected {
                    background: #ffffff;
                }
                QRadioButton {
                    color: black;
                    padding: 5px;
                }
                QDockWidget {
                    background: #f0f0f0;
                }
                QGroupBox#debug_group {
                    color: black;
                    border: 1px solid #ccc;
                }
                QCheckBox {
                    color: black;
                }
            ".

(** lines 76-84, 97-105, 290-298 and 666-674 (the same text). *)
Definition dark_console_style : string :=
"
                    QPlainTextEdit {
                        background-color: #1e1e1e;
                        color: white;
                        selection-background-color: #0078d7;
                        selection-color: white;
                        border: none;
                    }
                ".

(** lines 86-94, 379-387 and 676-684 (the same text). *)
Definition light_console_style : string :=
"
                    QPlainTextEdit {
                        background-color: #ffffff;
                        color: black;
                        selection-background-color: #0078d7;
                        selection-color: white;
                        border: none;
                    }
                ".

(** ** The settings store

    [QSettings("TextArea", "Settings")].  What [setValue] hands over is kept
    the way the backend stores it: a boolean as the text true or false, an
    integer as decimal text in an INI file and as a number in the Windows
    registry, texts and byte arrays as they are.  The store is read only at
    start-up, so [value] always sees the stored form. *)

Inductive Format := IniFormat | RegistryFormat.

Record QSettings := { format : Format; entries : gmap string Value }.

Definition to_storage (f : Format) (v : Value) : Value :=
  match v with
  | VBool b => VStr (if b then "true" else "false")
  | VInt z =>
      match f with
      | IniFormat => VStr (str_of_int z)
      | RegistryFormat => VInt z
      end
  | _ => v
  end.

Definition setValue (key : string) (v : Value) (st : QSettings) : QSettings :=
  {| format := format st;
     entries := <[key := to_storage (format st) v]> (entries st) |}.

(** [settings.value(key, dflt)]; [settings.value(key)] is [value st key VNone]. *)
Definition value (st : QSettings) (key : string) (dflt : Value) : Value :=
  default dflt (entries st !! key).

(** ** Widgets and the application object *)

Module QFont.
Inductive Weight :=
| Thin | ExtraLight | Light | Normal | Medium | DemiBold | Bold | ExtraBold | Black.

Definition int (w : Weight) : Z :=
  match w with
  | Thin => 100 | ExtraLight => 200 | Light => 300 | Normal => 400
  | Medium => 500 | DemiBold => 600 | Bold => 700 | ExtraBold => 800
  | Black => 900
  end.
End QFont.

Record Font := { family : string; point_size : Z; weight : Z }.

Record TextEdit := { plain_text : string; text_font : option Font }.

(** A line of the debug console: the text of the f-string and the values it
    interpolates.  The time stamp in front of it is left out. *)
Inductive LogLine := Log (text : string) (args : list Value).

Record Console := { console_style : string; console_lines : list LogLine }.

(** The attributes of [TextAreaApp] and the state of its window.  An
    attribute that may not exist yet ([hasattr]) or may be [None] is an
    option; [debug_dock] holds the dock's visibility. *)
Record App := mkApp {
  font_name : Value;
  font_size : Z;
  font_weight : option Z;
  theme_mode : Value;
  text_content : Value;
  show_debug : bool;
  always_on_top : bool;
  settings_dialog_geometry : option Value;
  debug_console : option Console;
  debug_dock : option bool;
  text_area : option TextEdit;
  style_sheet : string;
  geometry : Rect;
  layout : N;
  stays_on_top : bool;
  shown : bool
}.

Definition with_font_name v s :=
  mkApp v (font_size s) (font_weight s) (theme_mode s) (text_content s) (show_debug s)
    (always_on_top s) (settings_dialog_geometry s) (debug_console s) (debug_dock s)
    (text_area s) (style_sheet s) (geometry s) (layout s) (stays_on_top s) (shown s).
Definition with_font_size v s :=
  mkApp (font_name s) v (font_weight s) (theme_mode s) (text_content s) (show_debug s)
    (always_on_top s) (settings_dialog_geometry s) (debug_console s) (debug_dock s)
    (text_area s) (style_sheet s) (geometry s) (layout s) (stays_on_top s) (shown s).
Definition with_font_weight v s :=
  mkApp (font_name s) (font_size s) v (theme_mode s) (text_content s) (show_debug s)
    (always_on_top s) (settings_dialog_geometry s) (debug_console s) (debug_dock s)
    (text_area s) (style_sheet s) (geometry s) (layout s) (stays_on_top s) (shown s).
Definition with_theme_mode v s :=
  mkApp (font_name s) (font_size s) (font_weight s) v (text_content s) (show_debug s)
    (always_on_top s) (settings_dialog_geometry s) (debug_console s) (debug_dock s)
    (text_area s) (style_sheet s) (geometry s) (layout s) (stays_on_top s) (shown s).
Definition with_text_content v s :=
  mkApp (font_name s) (font_size s) (font_weight s) (theme_mode s) v (show_debug s)
    (always_on_top s) (settings_dialog_geometry s) (debug_console s) (debug_dock s)
    (text_area s) (style_sheet s) (geometry s) (layout s) (stays_on_top s) (shown s).
Definition with_show_debug v s :=
  mkApp (font_name s) (font_size s) (font_weight s) (theme_mode s) (text_content s) v
    (always_on_top s) (settings_dialog_geometry s) (debug_console s) (debug_dock s)
    (text_area s) (style_sheet s) (geometry s) (layout s) (stays_on_top s) (shown s).
Definition with_always_on_top v s :=
  mkApp (font_name s) (font_size s) (font_weight s) (theme_mode s) (text_content s)
    (show_debug s) v (settings_dialog_geometry s) (debug_console s) (debug_dock s)
    (text_area s) (style_sheet s) (geometry s) (layout s) (stays_on_top s) (shown s).
Definition with_settings_dialog_geometry v s :=
  mkApp (font_name s) (font_size s) (font_weight s) (theme_mode s) (text_content s)
    (show_debug s) (always_on_top s) v (debug_console s) (debug_dock s) (text_area s)
    (style_sheet s) (geometry s) (layout s) (stays_on_top s) (shown s).
Definition with_debug_console v s :=
  mkApp (font_name s) (font_size s) (font_weight s) (theme_mode s) (text_content s)
    (show_debug s) (always_on_top s) (settings_dialog_geometry s) v (debug_dock s)
    (text_area s) (style_sheet s) (geometry s) (layout s) (stays_on_top s) (shown s).
Definition with_debug_dock v s :=
  mkApp (font_name s) (font_size s) (font_weight s) (theme_mode s) (text_content s)
    (show_debug s) (always_on_top s) (settings_dialog_geometry s) (debug_console s) v
    (text_area s) (style_sheet s) (geometry s) (layout s) (stays_on_top s) (shown s).
Definition with_text_area v s :=
  mkApp (font_name s) (font_size s) (font_weight s) (theme_mode s) (text_content s)
    (show_debug s) (always_on_top s) (settings_dialog_geometry s) (debug_console s)
    (debug_dock s) v (style_sheet s) (geometry s) (layout s) (stays_on_top s) (shown s).
Definition with_style_sheet v s :=
  mkApp (font_name s) (font_size s) (font_weight s) (theme_mode s) (text_content s)
    (show_debug s) (always_on_top s) (settings_dialog_geometry s) (debug_console s)
    (debug_dock s) (text_area s) v (geometry s) (layout s) (stays_on_top s) (shown s).
Definition with_geometry v s :=
  mkApp (font_name s) (font_size s) (font_weight s) (theme_mode s) (text_content s)
    (show_debug s) (always_on_top s) (settings_dialog_geometry s) (debug_console s)
    (debug_dock s) (text_area s) (style_sheet s) v (layout s) (stays_on_top s) (shown s).
Definition with_layout v s :=
  mkApp (font_name s) (font_size s) (font_weight s) (theme_mode s) (text_content s)
    (show_debug s) (always_on_top s) (settings_dialog_geometry s) (debug_console s)
    (debug_dock s) (text_area s) (style_sheet s) (geometry s) v (stays_on_top s) (shown
    s).
Definition with_stays_on_top v s :=
  mkApp (font_name s) (font_size s) (font_weight s) (theme_mode s) (text_content s)
    (show_debug s) (always_on_top s) (settings_dialog_geometry s) (debug_console s)
    (debug_dock s) (text_area s) (style_sheet s) (geometry s) (layout s) v (shown s).
Definition with_shown v s :=
  mkApp (font_name s) (font_size s) (font_weight s) (theme_mode s) (text_content s)
    (show_debug s) (always_on_top s) (settings_dialog_geometry s) (debug_console s)
    (debug_dock s) (text_area s) (style_sheet s) (geometry s) (layout s) (stays_on_top
    s) v.

(** [self.debug_console.setStyleSheet(sheet)] under [if self.debug_console:]. *)
Definition style_console (sheet : string) (s : App) : App :=
  with_debug_console
    (c ← debug_console s;
     Some {| console_style := sheet; console_lines := console_lines c |}) s.

(** Lines 124-134: a line is appended only when [show_debug] is set and a
    console exists.  [show_debug] exists whenever the method is called. *)
Definition log_debug (message : LogLine) (s : App) : App :=
  with_debug_console
    (if show_debug s then
       c ← debug_console s;
       Some {| console_style := console_style c;
               console_lines := console_lines c ++ [message] |}
     else debug_console s) s.

(** Lines 68-116: a new console replaces the one there was. *)
Definition _init_debug_console (s : App) : App :=
  let s := with_debug_console (Some {| console_style := ""; console_lines := [] |}) s in
  let s :=
    if py_eq_str (theme_mode s) "Dark" then style_console dark_console_style s
    else if py_eq_str (theme_mode s) "Light" then style_console light_console_style s
    else
      let s := log_debug
                 (Log "Unknown Theme '{}' Set, Defaulting To Dark Theme - Console"
                      [theme_mode s]) s in
      style_console dark_console_style s in
  with_debug_dock (Some (show_debug s)) s.

(** Lines 118-122; accepting the event hides the dock. *)
Definition dock_closed (s : App) : App :=
  match debug_dock s with
  | Some _ => with_debug_dock (Some false) s
  | None => s
  end.

(** Lines 159-186: only the text area is kept of the widgets built here. *)
Definition setup_ui (s : App) : App :=
  with_text_area (Some {| plain_text := ""; text_font := None |}) s.

(** Lines 188-205. *)
Definition set_always_on_top (enable : bool) (s : App) : App :=
  let s := with_always_on_top enable s in
  let s :=
    if enable then log_debug (Log "Always On Top: Enabled" []) (with_stays_on_top true s)
    else log_debug (Log "Always On Top: Disabled" []) (with_stays_on_top false s) in
  with_shown true s.

(** Lines 207-392.  [depth] is the room left on the call stack; the number
    returned with the state counts the passes through the last branch, where
    line 391 puts Dark in place of the unknown theme. *)
Fixpoint apply_theme (depth : nat) (theme : option Value) (s : App) : result (App * nat) :=
  match depth with
  | O => Raise RecursionError
  | S depth' =>
      let s :=
        match theme with
        | None | Some VNone => s
        | Some t => log_debug (Log "Theme Changed To: {}" [t]) (with_theme_mode t s)
        end in
      if py_eq_str (theme_mode s) "Dark" then
        Ok (style_console dark_console_style (with_style_sheet dark_window_style s), O)
      else if py_eq_str (theme_mode s) "Light" then
        Ok (style_console light_console_style (with_style_sheet light_window_style s), O)
      else
        let s := log_debug
                   (Log "Unknown Theme '{}' set, Defaulting To Dark Theme"
                        [theme_mode s]) s in
        let s := with_theme_mode (VStr "Dark") s in
        '(s', k) ← apply_theme depth' None s;
        Ok (s', S k)
  end.

(** The depth at which CPython gives up ([sys.getrecursionlimit()]): the
    room a call has when nothing else is on the stack. *)
Definition recursion_limit : nat := 1000.

(** A Python integer handed to a Qt parameter of C type [int]. *)
Definition c_int (z : Z) : result Z :=
  if ((-2147483648 <=? z) && (z <=? 2147483647))%Z then Ok z else Raise OverflowError.

(** Lines 394-399.  The font is recorded as it is asked for.  [QFont]
    itself takes a default size for a point size that is not positive and
    bounds a weight to 1..1000: the font recorded is the font of the widget
    for a positive size and a weight within these bounds. *)
Definition apply_font (s : App) : result App :=
  match font_name s with
  | VStr fam =>
      size ← c_int (font_size s);
      w ← from_option c_int (Ok (QFont.int QFont.Normal)) (font_weight s);
      let font := {| family := fam; point_size := size; weight := w |} in
      ta ← attr (text_area s);
      let s := with_text_area
                 (Some {| plain_text := plain_text ta; text_font := Some font |}) s in
      Ok (log_debug
            (Log "Font-Family: {}, Font-Size: {}, Font-Weight: {}"
                 [font_name s; VInt (font_size s);
                  from_option VInt (VStr "Normal") (font_weight s)]) s)
  | _ => Raise TypeError
  end.

(** ** Saving and loading *)

(** Lines 692-704.  The two attribute reads that can fail are made first;
    both succeed once [__init__] has returned. *)
Definition save_settings_to_file (s : App) (st : QSettings) : result QSettings :=
  w ← attr (font_weight s);
  ta ← attr (text_area s);
  let st := setValue "font_name" (font_name s) st in
  let st := setValue "font_size" (VInt (font_size s)) st in
  let st := setValue "font_weight" (VInt w) st in
  let st := setValue "theme_mode" (theme_mode s) st in
  let st := setValue "text_content" (VStr (plain_text ta)) st in
  let st := setValue "window_geometry" (VBytes (GeometryBlob (geometry s))) st in
  let st := setValue "window_state" (VBytes (StateBlob (layout s))) st in
  let st := setValue "show_debug" (VBool (show_debug s)) st in
  let st := setValue "always_on_top" (VBool (always_on_top s)) st in
  Ok (match settings_dialog_geometry s with
      | Some g => setValue "settings_dialog_geometry" g st
      | None => st
      end).

(** [restoreGeometry(blob)]: only a byte array is accepted as argument, and
    only a geometry blob changes the window. *)
Definition restoreGeometry (v : Value) (current : Rect) : result Rect :=
  match v with
  | VBytes (GeometryBlob r) => Ok r
  | VBytes _ => Ok current
  | _ => Raise TypeError
  end.

(** [restoreState(blob)]: the state handed over is kept as the state of the
    window.  What the window then shows of it depends on the docks and tool
    bars that exist at the call, which is not modelled. *)
Definition restoreState (v : Value) (current : N) : result N :=
  match v with
  | VBytes (StateBlob l) => Ok l
  | VBytes _ => Ok current
  | _ => Raise TypeError
  end.

(** Lines 719-723 of [load_settings]. *)
Definition log_loaded (s : App) : App :=
  let s := log_debug (Log "Loaded settings - Debug: {}" [VBool (show_debug s)]) s in
  let s := log_debug (Log "Loaded settings - Always On Top: {}" [VBool (always_on_top s)]) s in
  let s := log_debug (Log "Loaded settings - Theme: {}" [theme_mode s]) s in
  let s := log_debug (Log "Loaded settings - Font-Family: {}, Font-Size: {}"
                          [font_name s; VInt (font_size s)]) s in
  log_debug (Log "Loaded settings - Font-Weight: {}"
                 [from_option VInt VNone (font_weight s)]) s.

(** Lines 725-737 of [load_settings]. *)
Definition load_window (st : QSettings) (s : App) : result App :=
  let g := value st "window_geometry" VNone in
  s ← (if truthy g then
         r ← restoreGeometry g (geometry s);
         Ok (log_debug (Log "Restored window geometry" []) (with_geometry r s))
       else
         Ok (log_debug (Log "Using default window geometry" [])
                       (with_geometry {| rx := 100; ry := 100; rw := 800; rh := 600 |} s)));
  let state := value st "window_state" VNone in
  if truthy state then
    l ← restoreState state (layout s);
    Ok (log_debug (Log "Restored window state" []) (with_layout l s))
  else Ok s.

(** Lines 706-737. *)
Definition load_settings (s : App) (st : QSettings) : result App :=
  let s := with_font_name (value st "font_name" (VStr "Arial")) s in
  size ← py_int (value st "font_size" (VInt 16));
  let s := with_font_size size s in
  let s := with_theme_mode (value st "theme_mode" (VStr "Dark")) s in
  let s := with_text_content (value st "text_content" (VStr "")) s in
  let s := with_show_debug (py_eq_str (value st "show_debug" (VStr "false")) "true") s in
  w ← py_int (value st "font_weight" (VInt (QFont.int QFont.Normal)));
  let s := with_font_weight (Some w) s in
  let s := with_settings_dialog_geometry
             (Some (value st "settings_dialog_geometry" VNone)) s in
  let s := with_always_on_top
             (py_eq_str (value st "always_on_top" (VStr "false")) "true") s in
  load_window st (log_loaded s).

(** The object as lines 28-40 leave it: the defaults, no console, no text
    area yet, [font_weight] and [settings_dialog_geometry] not yet set. *)
Definition initial_app : App :=
  {| font_name := VStr "Arial"; font_size := 16; font_weight := None;
     theme_mode := VStr "Dark"; text_content := VStr "";
     show_debug := false; always_on_top := false;
     settings_dialog_geometry := None;
     debug_console := None; debug_dock := None; text_area := None;
     style_sheet := "";
     geometry := {| rx := 0; ry := 0; rw := 640; rh := 480 |};
     layout := 0%N; stays_on_top := false; shown := false |}.

(** [self.text_area.setPlainText(self.text_content)], line 63. *)
Definition setPlainText (v : Value) (s : App) : result App :=
  ta ← attr (text_area s);
  match v with
  | VStr t => Ok (with_text_area (Some {| plain_text := t; text_font := text_font ta |}) s)
  | _ => Raise TypeError
  end.

(** Lines 50-53 of [__init__]. *)
Definition start_debug_console (s : App) : App :=
  if show_debug s then
    let s := _init_debug_console s in
    let s := log_debug (Log "Application started" []) s in
    log_debug (Log "Current Theme: {}" [theme_mode s]) s
  else s.

(** Lines 26-66, in a fresh process that finds the store [st], with room for
    [depth] nested calls.  The window icon (line 47) is not part of the
    state, and its log lines go nowhere: no console exists before line 51. *)
Definition __init__ (depth : nat) (st : QSettings) : result App :=
  s ← load_settings initial_app st;
  let s := log_debug (Log "Application initialized" []) s in
  let s := start_debug_console s in
  '(s, _) ← apply_theme depth None s;
  let s := setup_ui s in
  s ← apply_font s;
  s ← setPlainText (text_content s) s;
  Ok (set_always_on_top (always_on_top s) s).

(** Lines 739-743. *)
Definition closeEvent (s : App) (st : QSettings) : result (App * QSettings) :=
  ta ← attr (text_area s);
  let s := with_text_content (VStr (plain_text ta)) s in
  st ← save_settings_to_file s st;
  Ok (s, st).

(** Lines 118-122. *)
Definition handle_debug_console_close (s : App) (st : QSettings)
  : result (App * QSettings) :=
  let s := with_show_debug false s in
  st ← save_settings_to_file s st;
  Ok (dock_closed s, st).

(** ** The settings dialog *)

Definition clamp (lo hi v : Z) : Z := Z.max lo (Z.min hi v).

(** The entries of [weight_combo], lines 507-515. *)
Definition weight_items : list QFont.Weight :=
  [QFont.Normal; QFont.Thin; QFont.ExtraLight; QFont.Light; QFont.Medium;
   QFont.DemiBold; QFont.Bold; QFont.ExtraBold; QFont.Black].

(** [findData]: the index of the first entry carrying [z], counted from [i]. *)
Fixpoint findData (z : Z) (items : list QFont.Weight) (i : nat) : option nat :=
  match items with
  | [] => None
  | w :: rest => if Z.eqb (QFont.int w) z then Some i else findData z rest (S i)
  end.

(** [currentData()] of the weight combo box. *)
Definition currentData (i : nat) : Z :=
  QFont.int (nth i weight_items QFont.Normal).

(** The dialog's controls: its working copy of the configuration. *)
Record Dialog := {
  dialog_geometry : Rect;
  checked_id : Z;
  aot_checkbox : bool;
  font_combo : string;
  size_spin : Z;
  weight_combo : nat;
  debug_checkbox : bool
}.

(** Lines 401-570, up to [exec()].  [placed] is where the dialog appears
    when no stored geometry is restored.  The preview pane is left out.  The
    font combo box is given the family as it is: a [QFontComboBox] shows the
    family the font resolves to, which is that family when it is installed. *)
Definition open_settings (placed : Rect) (s : App) : result (Dialog * App) :=
  r ← match settings_dialog_geometry s with
      | Some g => if truthy g then restoreGeometry g placed else Ok placed
      | None => Ok placed
      end;
  let '(id, s) :=
    if py_eq_str (theme_mode s) "Dark" then (1, s)
    else if py_eq_str (theme_mode s) "Light" then (2, s)
    else (1, log_debug (Log "Unknown Theme '{}' set, Defaulting To Dark Theme"
                            [theme_mode s]) s) in
  fam ← match font_name s with VStr f => Ok f | _ => Raise TypeError end;
  size ← c_int (font_size s);
  w ← attr (font_weight s);
  Ok ({| dialog_geometry := r;
         checked_id := id;
         aot_checkbox := always_on_top s;
         font_combo := fam;
         size_spin := clamp 8 72 size;
         weight_combo := default O (findData w weight_items O);
         debug_checkbox := show_debug s |}, s).

(** What the user can do to the controls while the dialog is open. *)
Inductive Edit :=
| ClickDark
| ClickLight
| CheckAlwaysOnTop (b : bool)
| PickFont (f : string)
| SpinTo (z : Z)
| PickWeight (i : nat)
| CheckDebug (b : bool)
| MoveDialog (r : Rect).

Definition edit (d : Dialog) (e : Edit) : Dialog :=
  let '(Build_Dialog g id aot fam size w dbg) := d in
  match e with
  | ClickDark => Build_Dialog g 1 aot fam size w dbg
  | ClickLight => Build_Dialog g 2 aot fam size w dbg
  | CheckAlwaysOnTop b => Build_Dialog g id b fam size w dbg
  | PickFont f => Build_Dialog g id aot f size w dbg
  | SpinTo z => Build_Dialog g id aot fam (clamp 8 72 z) w dbg
  | PickWeight i =>
      Build_Dialog g id aot fam size (if Nat.ltb i (length weight_items) then i else w) dbg
  | CheckDebug b => Build_Dialog g id aot fam size w b
  | MoveDialog r => Build_Dialog r id aot fam size w dbg
  end.

(** Lines 572-577: the dialog's [closeEvent].  The [close()] it ends with
    finds the dialog already closing. *)
Definition close_event (d : Dialog) (s : App) (st : QSettings)
  : result (App * QSettings) :=
  let s := with_settings_dialog_geometry
             (Some (VBytes (GeometryBlob (dialog_geometry d)))) s in
  st ← save_settings_to_file s st;
  Ok (s, st).

(** Lines 600-614 of [save_settings]: the theme of the checked button. *)
Definition select_theme (d : Dialog) (s : App) : App :=
  let s :=
    if Z.eqb (checked_id d) 1 then with_theme_mode (VStr "Dark") s
    else if Z.eqb (checked_id d) 2 then with_theme_mode (VStr "Light") s
    else with_theme_mode (VStr "Dark") s in
  let s :=
    if negb (py_eq_str (theme_mode s) "Dark" || py_eq_str (theme_mode s) "Light") then
      with_theme_mode (VStr "Dark")
        (log_debug (Log "Invalid Theme Selected: {}, Defaulting To Dark" [theme_mode s]) s)
    else s in
  log_debug (Log "Theme Changed To: {}" [theme_mode s]) s.

(** Lines 616-629 of [save_settings]: the font of the three controls. *)
Definition select_font (d : Dialog) (s : App) : App :=
  let old_font := font_name s in
  let old_size := font_size s in
  let old_weight := default (QFont.int QFont.Normal) (font_weight s) in
  let s := with_font_name (VStr (font_combo d)) s in
  let s := with_font_size (size_spin d) s in
  let s := with_font_weight (Some (currentData (weight_combo d))) s in
  let s :=
    if negb (py_eq_str old_font (font_combo d)) then
      log_debug (Log "Font-Family Changed From {} To {}" [old_font; font_name s]) s
    else s in
  let s :=
    if negb (Z.eqb old_size (font_size s)) then
      log_debug (Log "Font-Size Changed From {} To {}" [VInt old_size; VInt (font_size s)]) s
    else s in
  if negb (Z.eqb old_weight (currentData (weight_combo d))) then
    log_debug (Log "Font-Weight Changed From {} To {}"
                   [VInt old_weight; VInt (currentData (weight_combo d))]) s
  else s.

(** Lines 631-637 of [save_settings]. *)
Definition select_always_on_top (d : Dialog) (s : App) : App :=
  let new_aot_setting := aot_checkbox d in
  if negb (Bool.eqb new_aot_setting (always_on_top s)) then
    let s := set_always_on_top new_aot_setting s in
    log_debug (Log "Always On Top setting changed to: {}" [VBool (always_on_top s)]) s
  else s.

(** Lines 639-648 of [save_settings]; [changed] is [debug_setting_changed]. *)
Definition select_debug (d : Dialog) (changed : bool) (s : App) : App :=
  let s := with_show_debug (debug_checkbox d) s in
  if changed then
    log_debug (Log "Debug console setting changed to: {}" [VBool (show_debug s)]) s
  else s.

(** Lines 654-684 of [save_settings]: the console shown or hidden, then
    styled once more. *)
Definition refresh_debug_console (changed : bool) (s : App) : App :=
  let s :=
    if changed then
      if show_debug s then
        log_debug (Log "Debug console enabled" []) (_init_debug_console s)
      else
        match debug_dock s with
        | Some _ => log_debug (Log "Debug console hidden" []) (with_debug_dock (Some false) s)
        | None => s
        end
    else s in
  if py_eq_str (theme_mode s) "Dark" then style_console dark_console_style s
  else style_console light_console_style s.

(** Lines 596-690; [dialog.close()] on line 690 runs [close_event]. *)
Definition save_settings (depth : nat) (d : Dialog) (s : App) (st : QSettings)
  : result (App * QSettings) :=
  let s := with_settings_dialog_geometry
             (Some (VBytes (GeometryBlob (dialog_geometry d)))) s in
  let s := select_theme d s in
  let s := select_font d s in
  let s := select_always_on_top d s in
  let debug_setting_changed := negb (Bool.eqb (debug_checkbox d) (show_debug s)) in
  let s := select_debug d debug_setting_changed s in
  '(s, _) ← apply_theme depth None s;
  s ← apply_font s;
  let s := refresh_debug_console debug_setting_changed s in
  st ← save_settings_to_file s st;
  let s := log_debug (Log "Settings Saved." []) s in
  close_event d s st.

(** The Save button: both slots connected to [clicked] (lines 566 and 585)
    run, in the order of connection. *)
Definition click_save (depth : nat) (d : Dialog) (s : App) (st : QSettings)
  : result (App * QSettings) :=
  '(s, st) ← save_settings depth d s st;
  let s := with_settings_dialog_geometry
             (Some (VBytes (GeometryBlob (dialog_geometry d)))) s in
  save_settings depth d s st.

(** ** Sessions *)

(** What can happen to a running program: the events that run a handler of
    the program.  [Relaunch] closes the main window and starts the program
    again; [KillAndRelaunch] starts it again without the close event having
    run.  What Qt does with no handler of the program running, as showing or
    hiding a dock from the popup menu of the main window, is not among
    them. *)
Inductive Event :=
| EditText (t : string)
| MoveWindow (r : Rect)
| SettingsSave (placed : Rect) (edits : list Edit)
| SettingsClose (placed : Rect) (edits : list Edit)
| CloseDebugConsole
| Relaunch
| KillAndRelaunch.

Definition handle (depth : nat) (e : Event) (s : App) (st : QSettings)
  : result (App * QSettings) :=
  match e with
  | EditText t =>
      ta ← attr (text_area s);
      Ok (with_text_area (Some {| plain_text := t; text_font := text_font ta |}) s, st)
  | MoveWindow r => Ok (with_geometry r s, st)
  | SettingsSave placed edits =>
      '(d, s) ← open_settings placed s;
      click_save depth (foldl edit d edits) s st
  | SettingsClose placed edits =>
      '(d, s) ← open_settings placed s;
      close_event (foldl edit d edits) s st
  | CloseDebugConsole =>
      match debug_dock s with
      | Some true => handle_debug_console_close s st
      | _ => Ok (s, st)
      end
  | Relaunch =>
      '(_, st) ← closeEvent s st;
      s ← __init__ depth st;
      Ok (s, st)
  | KillAndRelaunch =>
      s ← __init__ depth st;
      Ok (s, st)
  end.

Fixpoint run (depth : nat) (events : list Event) (s : App) (st : QSettings)
  : result (App * QSettings) :=
  match events with
  | [] => Ok (s, st)
  | e :: rest => '(s, st) ← handle depth e s st; run depth rest s st
  end.

(** A first launch on the store [st], then the events. *)
Definition session (depth : nat) (st : QSettings) (events : list Event)
  : result (App * QSettings) :=
  s ← __init__ depth st;
  run depth events s st.

(** * Properties *)

(** ** The integer codec *)

Example int_of_string_accepts :
  int_of_string "  -1_000 " = Some (-1000) /\ int_of_string "+07" = Some 7.
Proof. split; reflexivity. Qed.

Example int_of_string_rejects :
  int_of_string "abc" = None /\ int_of_string "1__0" = None /\
  int_of_string "1_" = None /\ int_of_string "" = None /\
  int_of_string "-" = None /\ int_of_string "1 2" = None.
Proof. repeat split; reflexivity. Qed.

Lemma py_digits_string_of_uint (d : uint) :
  py_digits true (NilEmpty.string_of_uint d) = Some d.
Proof.
  induction d as [|d IH|d IH|d IH|d IH|d IH|d IH|d IH|d IH|d IH|d IH];
    simpl; try rewrite IH; reflexivity.
Qed.

Lemma py_digits_leading (d : uint) :
  d <> Nil -> py_digits false (NilEmpty.string_of_uint d) = Some d.
Proof.
  destruct d; [congruence | ..]; intros _; simpl;
    rewrite py_digits_string_of_uint; reflexivity.
Qed.

(** A printed natural number starts with a digit: nothing is skipped and no
    sign is seen. *)
Lemma int_of_string_unsigned (d : uint) :
  d <> Nil -> int_of_string (NilEmpty.string_of_uint d) = Some (Z.of_uint d).
Proof.
  destruct d; [congruence | ..]; intros _; unfold int_of_string; simpl;
    rewrite py_digits_string_of_uint; reflexivity.
Qed.

Lemma int_of_string_str_of_int (z : Z) : int_of_string (str_of_int z) = Some z.
Proof.
  destruct z as [|p|p]; [reflexivity | ..]; unfold str_of_int; cbn [Z.to_int].
  - pose proof (DecimalPos.Unsigned.to_uint_nonnil p) as Hn.
    cbn [NilZero.string_of_int]. unfold NilZero.string_of_uint.
    replace (match Pos.to_uint p with Nil => "0" | _ => NilEmpty.string_of_uint (Pos.to_uint p) end)
      with (NilEmpty.string_of_uint (Pos.to_uint p))
      by (destruct (Pos.to_uint p); congruence).
    rewrite int_of_string_unsigned by assumption.
    f_equal. exact (DecimalZ.of_to (Z.pos p)).
  - pose proof (DecimalPos.Unsigned.to_uint_nonnil p) as Hn.
    cbn [NilZero.string_of_int]. unfold NilZero.string_of_uint.
    replace (match Pos.to_uint p with Nil => "0" | _ => NilEmpty.string_of_uint (Pos.to_uint p) end)
      with (NilEmpty.string_of_uint (Pos.to_uint p))
      by (destruct (Pos.to_uint p); congruence).
    unfold int_of_string. cbn [skip_space is_space].
    change (is_space "-") with false. cbn iota.
    change (Ascii.eqb "-" "-") with true. cbn iota.
    rewrite py_digits_leading by assumption. cbn [option_map].
    f_equal. exact (DecimalZ.of_to (Z.neg p)).
Qed.

(** What [setValue] stores for an integer, [int(...)] reads back. *)
Lemma py_int_to_storage (f : Format) (z : Z) : py_int (to_storage f (VInt z)) = Ok z.
Proof.
  destruct f; cbn [to_storage py_int]; [|reflexivity].
  rewrite int_of_string_str_of_int. reflexivity.
Qed.

(** ** Results and field updates *)

Lemma bind_Ok {A B} (r : result A) (k : A -> result B) (b : B) :
  r ≫= k = Ok b -> exists a, r = Ok a /\ k a = Ok b.
Proof. destruct r; cbn; [eauto | discriminate]. Qed.

Lemma mbind_Ok {A B} (a : A) (k : A -> result B) : Ok a ≫= k = k a.
Proof. reflexivity. Qed.

(** Run a bind whose first part has returned. *)
Ltac ok_step := rewrite mbind_Ok; cbv beta iota.

Lemma py_eq_str_true (v : Value) (lit : string) :
  py_eq_str v lit = true -> v = VStr lit.
Proof.
  destruct v; cbn; try discriminate.
  intros H. apply String.eqb_eq in H. congruence.
Qed.

Lemma c_int_Ok (z r : Z) : c_int z = Ok r -> r = z /\ -2147483648 <= z <= 2147483647.
Proof.
  unfold c_int.
  destruct (Z.leb_spec (-2147483648) z), (Z.leb_spec z 2147483647); cbn;
    intros [=]; lia.
Qed.

Lemma c_int_fits (z : Z) : -2147483648 <= z <= 2147483647 -> c_int z = Ok z.
Proof.
  intros [H1 H2]. unfold c_int.
  apply Z.leb_le in H1, H2. rewrite H1, H2. reflexivity.
Qed.

(** ** Applying a theme *)

Arguments apply_theme : simpl never.

(** The theme a call works with: its argument, or the current theme. *)
Definition requested (theme : option Value) (s : App) : Value :=
  match theme with
  | None | Some VNone => theme_mode s
  | Some t => t
  end.

Definition is_valid_theme (v : Value) : bool :=
  py_eq_str v "Dark" || py_eq_str v "Light".

Lemma apply_theme_dark (n : nat) (theme : option Value) (s : App) :
  py_eq_str (requested theme s) "Dark" = true ->
  exists c,
    apply_theme (S n) theme s
    = Ok (with_debug_console c
            (with_style_sheet dark_window_style (with_theme_mode (VStr "Dark") s)), O)
    /\ console_style <$> c = (fun _ => dark_console_style) <$> debug_console s.
Proof.
  intros H. apply py_eq_str_true in H.
  destruct s as [? ? ? ? ? dbg ? ? con ? ? ? ? ? ? ?].
  destruct theme as [[]|]; cbn in H; simplify_eq; unfold apply_theme; cbn;
    (eexists; split; [reflexivity|]); cbn;
    destruct dbg, con; reflexivity.
Qed.

Lemma apply_theme_light (n : nat) (theme : option Value) (s : App) :
  py_eq_str (requested theme s) "Light" = true ->
  exists c,
    apply_theme (S n) theme s
    = Ok (with_debug_console c
            (with_style_sheet light_window_style (with_theme_mode (VStr "Light") s)), O)
    /\ console_style <$> c = (fun _ => light_console_style) <$> debug_console s.
Proof.
  intros H. apply py_eq_str_true in H.
  destruct s as [? ? ? ? ? dbg ? ? con ? ? ? ? ? ? ?].
  destruct theme as [[]|]; cbn in H; simplify_eq; unfold apply_theme; cbn;
    (eexists; split; [reflexivity|]); cbn;
    destruct dbg, con; reflexivity.
Qed.

(** One pass through the last branch, then the Dark branch. *)
Lemma apply_theme_fallback (n : nat) (theme : option Value) (s : App) :
  is_valid_theme (requested theme s) = false ->
  exists c,
    apply_theme (S (S n)) theme s
    = Ok (with_debug_console c
            (with_style_sheet dark_window_style (with_theme_mode (VStr "Dark") s)), 1%nat)
    /\ console_style <$> c = (fun _ => dark_console_style) <$> debug_console s.
Proof.
  unfold is_valid_theme. intros H. apply orb_false_elim in H as [HD HL].
  set (s1 := match theme with
             | None | Some VNone => s
             | Some t => log_debug (Log "Theme Changed To: {}" [t]) (with_theme_mode t s)
             end).
  assert (E1 : theme_mode s1 = requested theme s)
    by (subst s1; destruct theme as [[]|]; reflexivity).
  set (s2 := with_theme_mode (VStr "Dark")
               (log_debug (Log "Unknown Theme '{}' set, Defaulting To Dark Theme"
                               [theme_mode s1]) s1)).
  assert (E : apply_theme (S (S n)) theme s
              = '(s', k) ← apply_theme (S n) None s2; Ok (s', S k)).
  { change (apply_theme (S (S n)) theme s)
      with (if py_eq_str (theme_mode s1) "Dark"
            then Ok (style_console dark_console_style
                       (with_style_sheet dark_window_style s1), O)
            else if py_eq_str (theme_mode s1) "Light"
            then Ok (style_console light_console_style
                       (with_style_sheet light_window_style s1), O)
            else '(s', k) ← apply_theme (S n) None s2; Ok (s', S k)).
    rewrite E1, HD, HL. reflexivity. }
  destruct (apply_theme_dark n None s2 eq_refl) as (c & Hc & Hs).
  rewrite E, Hc. cbn. eexists. split.
  - f_equal. f_equal. subst s2 s1.
    destruct s, theme as [[]|]; reflexivity.
  - rewrite Hs. subst s2 s1.
    destruct s as [? ? ? ? ? dbg ? ? con ? ? ? ? ? ? ?].
    destruct theme as [[]|]; cbn; destruct dbg, con; reflexivity.
Qed.

(** Whatever the theme, two frames are enough, and the call ends in one of
    the two known themes. *)
Definition settled (v : Value) : Value :=
  if py_eq_str v "Light" then VStr "Light" else VStr "Dark".

Definition window_style_of (v : Value) : string :=
  if py_eq_str v "Light" then light_window_style else dark_window_style.

Definition console_style_of (v : Value) : string :=
  if py_eq_str v "Light" then light_console_style else dark_console_style.

Lemma apply_theme_settles (n : nat) (theme : option Value) (s : App) :
  exists c k,
    apply_theme (S (S n)) theme s
    = Ok (with_debug_console c
            (with_style_sheet (window_style_of (requested theme s))
               (with_theme_mode (settled (requested theme s)) s)), k)
    /\ console_style <$> c
       = (fun _ => console_style_of (requested theme s)) <$> debug_console s.
Proof.
  unfold settled, window_style_of, console_style_of.
  destruct (py_eq_str (requested theme s) "Light") eqn:HL.
  - destruct (apply_theme_light (S n) theme s HL) as (c & H1 & H2). eauto.
  - destruct (py_eq_str (requested theme s) "Dark") eqn:HD.
    + destruct (apply_theme_dark (S n) theme s HD) as (c & H1 & H2). eauto.
    + destruct (apply_theme_fallback n theme s) as (c & H1 & H2); [|eauto].
      unfold is_valid_theme. rewrite HD, HL. reflexivity.
Qed.


(** ** Reading the steps of a successful run *)

Lemma attr_Ok {A} (o : option A) (a : A) : attr o = Ok a -> o = Some a.
Proof. destruct o; cbn; congruence. Qed.

Ltac inv_step :=
  match goal with
  | H : Raise _ = Ok _ |- _ => discriminate H
  | H : Ok _ = Ok _ |- _ => injection H as H; try subst
  | H : attr _ = Ok _ |- _ => apply attr_Ok in H
  | H : mbind _ _ = Ok _ |- _ =>
      let a := fresh "a" in
      let E := fresh "E" in
      apply bind_Ok in H as (a & E & H);
      try match type of a with (_ * _)%type => destruct a as [? ?] end;
      cbv beta iota in H
  | H : (if ?b then _ else _) = Ok _ |- _ =>
      let E := fresh "E" in destruct b eqn:E; cbv beta iota in H
  end.

Lemma restoreGeometry_Ok (v : Value) (cur r : Rect) :
  restoreGeometry v cur = Ok r -> exists q, v = VBytes q.
Proof. destruct v; cbn; try discriminate; eauto. Qed.

Lemma restoreState_Ok (v : Value) (cur l : N) :
  restoreState v cur = Ok l -> exists q, v = VBytes q.
Proof. destruct v; cbn; try discriminate; eauto. Qed.

(** A value that [load_settings] can take for a geometry or a state: one
    that counts as false, or a byte array. *)
Definition blob_or_false (v : Value) : Prop :=
  truthy v = true -> exists q, v = VBytes q.

Ltac case_ifs :=
  repeat match goal with
    | |- context [if ?b then _ else _] => destruct b
    end.

(** *** Which fields a step can touch

    Logging and restyling touch the console only; each block of a method
    touches the fields it assigns, and the console by what it logs. *)

Lemma with_debug_console_eta (s : App) : s = with_debug_console (debug_console s) s.
Proof. destruct s; reflexivity. Qed.

Lemma log_debug_frame (message : LogLine) (s : App) :
  exists c, log_debug message s = with_debug_console c s.
Proof. unfold log_debug. eauto. Qed.

Lemma style_console_frame (sheet : string) (s : App) :
  exists c, style_console sheet s = with_debug_console c s.
Proof. unfold style_console. eauto. Qed.

Lemma _init_debug_console_frame (s : App) :
  exists c, _init_debug_console s
            = with_debug_dock (Some (show_debug s)) (with_debug_console c s).
Proof.
  unfold _init_debug_console, log_debug, style_console.
  destruct s; cbn. case_ifs; eauto.
Qed.

Lemma set_always_on_top_frame (enable : bool) (s : App) :
  exists c, set_always_on_top enable s
            = with_shown true (with_debug_console c
                (with_stays_on_top enable (with_always_on_top enable s))).
Proof.
  unfold set_always_on_top, log_debug. destruct s, enable; cbn; eauto.
Qed.

Arguments log_debug : simpl never.
Arguments style_console : simpl never.
Arguments _init_debug_console : simpl never.
Arguments set_always_on_top : simpl never.

(** [frame_with lem]: name what [lem] says exists and rewrite with its
    equation. *)
Ltac frame_with lem :=
  let E := fresh "E" in
  pose proof lem as E;
  repeat match type of E with
         | ex _ => let c := fresh "c" in destruct E as [c E]
         end;
  rewrite E in *; clear E.

Ltac no_calls t :=
  lazymatch t with
  | context [log_debug _ _] => fail
  | context [style_console _ _] => fail
  | context [_init_debug_console _] => fail
  | context [set_always_on_top _ _] => fail
  | _ => idtac
  end.

(** Replace the calls, innermost first, by the field updates they are. *)
Ltac frame_one t :=
  match t with
  | context [log_debug ?m ?s] =>
      no_calls m; no_calls s; frame_with (log_debug_frame m s)
  | context [style_console ?m ?s] =>
      no_calls s; frame_with (style_console_frame m s)
  | context [_init_debug_console ?s] =>
      no_calls s; frame_with (_init_debug_console_frame s)
  | context [set_always_on_top ?b ?s] =>
      no_calls b; no_calls s; frame_with (set_always_on_top_frame b s)
  end.

Ltac frame_logs :=
  repeat match goal with
    | H : ?T |- _ => frame_one T
    | |- ?G => frame_one G
    end.

(** Field reads through field updates. *)
Ltac fields :=
  lazy beta iota delta
    [font_name font_size font_weight theme_mode text_content show_debug
     always_on_top settings_dialog_geometry debug_console debug_dock text_area
     style_sheet geometry layout stays_on_top shown
     with_font_name with_font_size with_font_weight with_theme_mode
     with_text_content with_show_debug with_always_on_top
     with_settings_dialog_geometry with_debug_console with_debug_dock
     with_text_area with_style_sheet with_geometry with_layout
     with_stays_on_top with_shown setup_ui initial_app] in *.

Ltac fields_goal :=
  lazy beta iota delta
    [font_name font_size font_weight theme_mode text_content show_debug
     always_on_top settings_dialog_geometry debug_console debug_dock text_area
     style_sheet geometry layout stays_on_top shown
     with_font_name with_font_size with_font_weight with_theme_mode
     with_text_content with_show_debug with_always_on_top
     with_settings_dialog_geometry with_debug_console with_debug_dock
     with_text_area with_style_sheet with_geometry with_layout
     with_stays_on_top with_shown setup_ui initial_app].

(** The object on the left is the one on the right for some values of the
    fields updated there: read the fields on both sides. *)
Ltac same_object s := destruct s; repeat eexists; fields_goal; reflexivity.

Lemma log_loaded_frame (s : App) :
  exists c, log_loaded s = with_debug_console c s.
Proof.
  unfold log_loaded. cbv zeta. frame_logs.
  same_object s.
Qed.

Lemma start_debug_console_frame (s : App) :
  exists c dk, start_debug_console s = with_debug_dock dk (with_debug_console c s).
Proof.
  unfold start_debug_console. destruct (show_debug s); cbv zeta.
  - frame_logs. same_object s.
  - same_object s.
Qed.

Lemma select_theme_frame (d : Dialog) (s : App) :
  exists v c, select_theme d s = with_theme_mode v (with_debug_console c s).
Proof.
  unfold select_theme. cbv zeta. frame_logs.
  case_ifs; same_object s.
Qed.

Lemma select_font_frame (d : Dialog) (s : App) :
  exists c,
    select_font d s
    = with_debug_console c
        (with_font_weight (Some (currentData (weight_combo d)))
           (with_font_size (size_spin d) (with_font_name (VStr (font_combo d)) s))).
Proof.
  unfold select_font. cbv zeta. frame_logs.
  case_ifs; same_object s.
Qed.

Lemma select_always_on_top_frame (d : Dialog) (s : App) :
  exists c t sh,
    select_always_on_top d s
    = with_shown sh (with_debug_console c
        (with_stays_on_top t (with_always_on_top (aot_checkbox d) s))).
Proof.
  unfold select_always_on_top. cbv zeta.
  destruct (eqb (aot_checkbox d) (always_on_top s)) eqn:E; cbn [negb].
  - apply eqb_prop in E. rewrite E. same_object s.
  - frame_logs. same_object s.
Qed.

Lemma select_debug_frame (d : Dialog) (changed : bool) (s : App) :
  exists c,
    select_debug d changed s
    = with_debug_console c (with_show_debug (debug_checkbox d) s).
Proof.
  unfold select_debug. cbv zeta. frame_logs.
  destruct changed; same_object s.
Qed.

Lemma refresh_debug_console_frame (changed : bool) (s : App) :
  exists c dk,
    refresh_debug_console changed s = with_debug_dock dk (with_debug_console c s).
Proof.
  unfold refresh_debug_console. cbv zeta. frame_logs.
  destruct changed, (show_debug s), (debug_dock s); fields_goal;
    case_ifs; same_object s.
Qed.

Arguments log_loaded : simpl never.
Arguments start_debug_console : simpl never.
Arguments select_theme : simpl never.
Arguments select_font : simpl never.
Arguments select_always_on_top : simpl never.
Arguments select_debug : simpl never.
Arguments refresh_debug_console : simpl never.

Ltac no_blocks t :=
  no_calls t;
  lazymatch t with
  | context [log_loaded _] => fail
  | context [start_debug_console _] => fail
  | context [select_theme _ _] => fail
  | context [select_font _ _] => fail
  | context [select_always_on_top _ _] => fail
  | context [select_debug _ _ _] => fail
  | context [refresh_debug_console _ _] => fail
  | _ => idtac
  end.

Ltac frame_block t :=
  match t with
  | context [log_debug ?m ?s] =>
      no_blocks m; no_blocks s; frame_with (log_debug_frame m s)
  | context [set_always_on_top ?b ?s] =>
      no_blocks b; no_blocks s; frame_with (set_always_on_top_frame b s)
  | context [log_loaded ?s] => no_blocks s; frame_with (log_loaded_frame s)
  | context [start_debug_console ?s] =>
      no_blocks s; frame_with (start_debug_console_frame s)
  | context [select_theme ?d ?s] => no_blocks s; frame_with (select_theme_frame d s)
  | context [select_font ?d ?s] => no_blocks s; frame_with (select_font_frame d s)
  | context [select_always_on_top ?d ?s] =>
      no_blocks s; frame_with (select_always_on_top_frame d s)
  | context [select_debug ?d ?b ?s] =>
      no_blocks s; frame_with (select_debug_frame d b s)
  | context [refresh_debug_console ?b ?s] =>
      no_blocks s; frame_with (refresh_debug_console_frame b s)
  end.

(** Replace every call and block, innermost first, by its field updates. *)
Ltac frame_all :=
  repeat match goal with
    | H : ?T |- _ => frame_block T
    | |- ?G => frame_block G
    end.

Lemma load_window_Ok (st : QSettings) (s s' : App) :
  load_window st s = Ok s' ->
  blob_or_false (value st "window_geometry" VNone) /\
  blob_or_false (value st "window_state" VNone) /\
  (truthy (value st "window_geometry" VNone) = false ->
   geometry s' = {| rx := 100; ry := 100; rw := 800; rh := 600 |}) /\
  exists g l c, s' = with_debug_console c (with_layout l (with_geometry g s)).
Proof.
  unfold load_window. cbv zeta. intros H.
  repeat (inv_step; frame_all).
  all: repeat match goal with
         | H : restoreGeometry _ _ = Ok _ |- _ =>
             pose proof (restoreGeometry_Ok _ _ _ H); clear H
         | H : restoreState _ _ = Ok _ |- _ =>
             pose proof (restoreState_Ok _ _ _ H); clear H
         end.
  all: unfold blob_or_false.
  all: (split; [first [assumption | congruence]|]).
  all: (split; [first [assumption | congruence]|]).
  all: split; [intros; first [discriminate | reflexivity] | same_object s].
Qed.

(** What [load_settings] makes of a store: apart from the fields read, only
    the console can differ, by the lines logged. *)
Lemma load_settings_Ok (s0 s : App) (st : QSettings) :
  load_settings s0 st = Ok s ->
  exists size w g l c,
    py_int (value st "font_size" (VInt 16)) = Ok size /\
    py_int (value st "font_weight" (VInt (QFont.int QFont.Normal))) = Ok w /\
    blob_or_false (value st "window_geometry" VNone) /\
    blob_or_false (value st "window_state" VNone) /\
    (truthy (value st "window_geometry" VNone) = false ->
     g = {| rx := 100; ry := 100; rw := 800; rh := 600 |}) /\
    s = with_debug_console c (with_layout l (with_geometry g
          (with_always_on_top (py_eq_str (value st "always_on_top" (VStr "false")) "true")
          (with_settings_dialog_geometry (Some (value st "settings_dialog_geometry" VNone))
          (with_font_weight (Some w)
          (with_show_debug (py_eq_str (value st "show_debug" (VStr "false")) "true")
          (with_text_content (value st "text_content" (VStr ""))
          (with_theme_mode (value st "theme_mode" (VStr "Dark"))
          (with_font_size size
          (with_font_name (value st "font_name" (VStr "Arial")) s0)))))))))).
Proof.
  intros H. cbv beta delta [load_settings] in H. cbv zeta in H.
  inv_step. inv_step.
  apply load_window_Ok in H as (Hg & Hl & Hd & g & l & c & ->).
  frame_all.
  exists a, a0, g, l, c. repeat (split; [assumption|]).
  same_object s0.
Qed.

Definition fits_c_int (z : Z) : Prop := -2147483648 <= z <= 2147483647.

Lemma apply_font_Ok (s s' : App) :
  apply_font s = Ok s' ->
  exists fam ta c,
    font_name s = VStr fam /\
    fits_c_int (font_size s) /\
    (forall w, font_weight s = Some w -> fits_c_int w) /\
    text_area s = Some ta /\
    s' = with_debug_console c
           (with_text_area
              (Some {| plain_text := plain_text ta;
                       text_font := Some {| family := fam; point_size := font_size s;
                                            weight := default (QFont.int QFont.Normal)
                                                        (font_weight s) |} |}) s).
Proof.
  unfold apply_font. intros H.
  destruct (font_name s) as [| | |fam|] eqn:Ef; try discriminate.
  repeat (inv_step; frame_all).
  apply c_int_Ok in E as [-> Hs].
  exists fam, a1, c.
  assert (Hw : forall w, font_weight s = Some w -> a0 = w /\ fits_c_int w).
  { intros w Hw. rewrite Hw in E0. cbn in E0. apply c_int_Ok in E0. exact E0. }
  split; [reflexivity|]. split; [exact Hs|].
  split; [intros w Hw'; apply (Hw w Hw')|]. split; [assumption|].
  do 6 f_equal. destruct (font_weight s) as [w|]; cbn in *.
  - apply (Hw w eq_refl).
  - congruence.
Qed.

Lemma apply_font_total (s : App) (fam : string) (ta : TextEdit) :
  font_name s = VStr fam ->
  fits_c_int (font_size s) ->
  (forall w, font_weight s = Some w -> fits_c_int w) ->
  text_area s = Some ta ->
  exists s', apply_font s = Ok s'.
Proof.
  intros Hf Hs Hw Hta. unfold apply_font. rewrite Hf, Hta.
  rewrite (c_int_fits _ Hs). cbn [mbind result_bind].
  destruct (font_weight s) as [w|]; cbn [from_option mbind result_bind attr].
  - rewrite (c_int_fits w (Hw w eq_refl)). cbn [mbind result_bind]. eauto.
  - eauto.
Qed.

Lemma setPlainText_Ok (v : Value) (s s' : App) :
  setPlainText v s = Ok s' ->
  exists t ta,
    v = VStr t /\ text_area s = Some ta /\
    s' = with_text_area (Some {| plain_text := t; text_font := text_font ta |}) s.
Proof.
  unfold setPlainText. intros H. inv_step.
  destruct v as [| | |t|]; try discriminate. inv_step.
  apply attr_Ok in E. exists t, a. auto.
Qed.

Lemma setPlainText_total (v : Value) (s : App) (t : string) :
  v = VStr t -> text_area s <> None -> exists s', setPlainText v s = Ok s'.
Proof.
  intros -> Hta. unfold setPlainText. destruct (text_area s); [|congruence].
  cbn [attr mbind result_bind]. eauto.
Qed.

(** ** Start-up *)

(** What a store must hold for [__init__] to succeed on it: [f], [size],
    [w] and [t] are the font family, the font size, the font weight and the
    text it yields. *)
Record loadable (st : QSettings) (f : string) (size w : Z) (t : string) : Prop := {
  ld_font : value st "font_name" (VStr "Arial") = VStr f;
  ld_size : py_int (value st "font_size" (VInt 16)) = Ok size;
  ld_size_fits : fits_c_int size;
  ld_weight : py_int (value st "font_weight" (VInt (QFont.int QFont.Normal))) = Ok w;
  ld_weight_fits : fits_c_int w;
  ld_text : value st "text_content" (VStr "") = VStr t;
  ld_geometry : blob_or_false (value st "window_geometry" VNone);
  ld_state : blob_or_false (value st "window_state" VNone)
}.

(** The object [__init__] returns on such a store. *)
Record started (st : QSettings) (f : string) (size w : Z) (t : string) (s : App)
  : Prop := {
  st_font_name : font_name s = VStr f;
  st_font_size : font_size s = size;
  st_font_weight : font_weight s = Some w;
  st_theme_mode : theme_mode s = settled (value st "theme_mode" (VStr "Dark"));
  st_style_sheet : style_sheet s = window_style_of (value st "theme_mode" (VStr "Dark"));
  st_text_content : text_content s = VStr t;
  st_text_area :
    text_area s
    = Some {| plain_text := t;
              text_font := Some {| family := f; point_size := size; weight := w |} |};
  st_show_debug : show_debug s = py_eq_str (value st "show_debug" (VStr "false")) "true";
  st_always_on_top :
    always_on_top s = py_eq_str (value st "always_on_top" (VStr "false")) "true";
  st_stays_on_top : stays_on_top s = always_on_top s;
  st_shown : shown s = true;
  st_dialog_geometry :
    settings_dialog_geometry s = Some (value st "settings_dialog_geometry" VNone);
  st_geometry :
    truthy (value st "window_geometry" VNone) = false ->
    geometry s = {| rx := 100; ry := 100; rw := 800; rh := 600 |}
}.

Lemma init_Ok (n : nat) (st : QSettings) (s : App) :
  __init__ (S (S n)) st = Ok s ->
  exists f size w t, loadable st f size w t /\ started st f size w t s.
Proof.
  intros H. cbv beta delta [__init__] in H. inv_step.
  apply load_settings_Ok in E as (size & w & g & l & c & Hsize & Hw & Hg & Hl & Hdg & ->).
  cbv zeta in H. frame_all. inv_step.
  match type of E with
  | apply_theme _ None ?x = _ =>
      destruct (apply_theme_settles n None x) as (c' & k & Heq & _);
      rewrite Heq in E; clear Heq
  end.
  inv_step. inv_step.
  apply apply_font_Ok in E as (fam & ta & cf & Hf & Hfs & Hfw & Hta & ->).
  inv_step.
  apply setPlainText_Ok in E as (t & ta' & Ht & Hta' & ->).
  inv_step. frame_all. unfold requested in *. fields.
  simplify_eq; cbn [text_font default].
  exists fam, size, w, t.
  split; [constructor | constructor; cbn]; auto.
  all: try (apply Hfw; reflexivity).
  all: rewrite Ht; reflexivity.
Qed.

Lemma blob_restoreGeometry (v : Value) (cur : Rect) :
  blob_or_false v -> truthy v = true -> exists r, restoreGeometry v cur = Ok r.
Proof. intros H Ht. destruct (H Ht) as [[] ->]; cbn; eauto. Qed.

Lemma blob_restoreState (v : Value) (cur : N) :
  blob_or_false v -> truthy v = true -> exists l, restoreState v cur = Ok l.
Proof. intros H Ht. destruct (H Ht) as [[] ->]; cbn; eauto. Qed.

Lemma load_window_total (st : QSettings) (s : App) :
  blob_or_false (value st "window_geometry" VNone) ->
  blob_or_false (value st "window_state" VNone) ->
  exists s', load_window st s = Ok s'.
Proof.
  intros Hg Hl. unfold load_window. cbv zeta.
  destruct (truthy (value st "window_geometry" VNone)) eqn:Eg;
    [destruct (blob_restoreGeometry _ (geometry s) Hg Eg) as [r ->]|];
    rewrite !mbind_Ok;
    (destruct (truthy (value st "window_state" VNone)) eqn:El;
     [match goal with
      | |- context [restoreState ?v ?cur] =>
          destruct (blob_restoreState v cur Hl El) as [l ->]
      end; rewrite !mbind_Ok|]); eauto.
Qed.

Lemma load_settings_total (s0 : App) (st : QSettings) (size w : Z) :
  py_int (value st "font_size" (VInt 16)) = Ok size ->
  py_int (value st "font_weight" (VInt (QFont.int QFont.Normal))) = Ok w ->
  blob_or_false (value st "window_geometry" VNone) ->
  blob_or_false (value st "window_state" VNone) ->
  exists s, load_settings s0 st = Ok s.
Proof.
  intros Hsize Hw Hg Hl. unfold load_settings.
  rewrite Hsize, mbind_Ok, Hw, mbind_Ok.
  apply load_window_total; assumption.
Qed.

Lemma init_total (n : nat) (st : QSettings) (f : string) (size w : Z) (t : string) :
  loadable st f size w t ->
  exists s, __init__ (S (S n)) st = Ok s /\ started st f size w t s.
Proof.
  intros L.
  assert (exists s, __init__ (S (S n)) st = Ok s) as [s Hs].
  { destruct L as [Hf Hsize Hsf Hw Hwf Ht Hg Hl].
    destruct (load_settings_total initial_app st size w Hsize Hw Hg Hl) as [sL HL].
    cbv beta delta [__init__]. rewrite HL. ok_step.
    apply load_settings_Ok in HL as (size' & w' & g & l & c & Hsize' & Hw' & _ & _ & _ & ->).
    assert (size' = size) by congruence. assert (w' = w) by congruence. subst.
    cbv zeta. frame_all.
    match goal with
    | |- context [apply_theme _ None ?x] =>
        destruct (apply_theme_settles n None x) as (c' & k & Heq & _);
        rewrite Heq; clear Heq
    end.
    ok_step.
    match goal with
    | |- context [apply_font ?x] =>
        destruct (apply_font_total x f {| plain_text := ""; text_font := None |})
          as [sF HF];
        [ fields_goal; exact Hf | fields_goal; exact Hsf
        | fields_goal; intros w0 Hw0; injection Hw0 as <-; exact Hwf
        | fields_goal; reflexivity | ]
    end.
    rewrite HF; ok_step.
    apply apply_font_Ok in HF as (fam & ta & cf & _ & _ & _ & Hta & ->).
    match goal with
    | |- context [setPlainText ?v ?x] =>
        destruct (setPlainText_total v x t) as [sP HP];
        [ fields_goal; exact Ht | fields_goal; discriminate | ]
    end.
    rewrite HP; ok_step; eexists; reflexivity. }
  exists s. split; [exact Hs|].
  destruct (init_Ok n st s Hs) as (f' & size' & w' & t' & L' & S').
  destruct L, L'.
  assert (f' = f) by congruence. assert (size' = size) by congruence.
  assert (w' = w) by congruence. assert (t' = t) by congruence.
  subst. exact S'.
Qed.

(** ** What a save writes *)

(** The store [st'] that [save_settings_to_file] makes of [st] for the object
    [s], whose font weight is [w] and whose text area is [ta]. *)
Record saved (s : App) (w : Z) (ta : TextEdit) (st st' : QSettings) : Prop := {
  sv_format : format st' = format st;
  sv_font_name :
    entries st' !! "font_name" = Some (to_storage (format st) (font_name s));
  sv_font_size :
    entries st' !! "font_size" = Some (to_storage (format st) (VInt (font_size s)));
  sv_font_weight :
    entries st' !! "font_weight" = Some (to_storage (format st) (VInt w));
  sv_theme_mode :
    entries st' !! "theme_mode" = Some (to_storage (format st) (theme_mode s));
  sv_text_content : entries st' !! "text_content" = Some (VStr (plain_text ta));
  sv_window_geometry :
    entries st' !! "window_geometry" = Some (VBytes (GeometryBlob (geometry s)));
  sv_window_state :
    entries st' !! "window_state" = Some (VBytes (StateBlob (layout s)));
  sv_show_debug :
    entries st' !! "show_debug" = Some (VStr (if show_debug s then "true" else "false"));
  sv_always_on_top :
    entries st' !! "always_on_top"
    = Some (VStr (if always_on_top s then "true" else "false"));
  sv_dialog_geometry :
    entries st' !! "settings_dialog_geometry"
    = match settings_dialog_geometry s with
      | Some g => Some (to_storage (format st) g)
      | None => entries st !! "settings_dialog_geometry"
      end
}.

Lemma lookup_setValue (k k' : string) (v : Value) (st : QSettings) :
  entries (setValue k v st) !! k'
  = if String.eqb k k' then Some (to_storage (format st) v) else entries st !! k'.
Proof.
  unfold setValue; cbn [entries].
  destruct (String.eqb_spec k k') as [->|Hne].
  - apply lookup_insert_eq.
  - apply lookup_insert_ne, Hne.
Qed.

Lemma format_setValue (k : string) (v : Value) (st : QSettings) :
  format (setValue k v st) = format st.
Proof. reflexivity. Qed.

Lemma save_settings_to_file_saved (s : App) (st : QSettings) (w : Z) (ta : TextEdit) :
  font_weight s = Some w -> text_area s = Some ta ->
  exists st', save_settings_to_file s st = Ok st' /\ saved s w ta st st'.
Proof.
  intros Hw Hta. unfold save_settings_to_file. rewrite Hw, Hta.
  cbn [attr]. rewrite !mbind_Ok. cbv zeta.
  eexists. split; [reflexivity|].
  destruct (settings_dialog_geometry s) as [g|] eqn:Hg; constructor;
    try rewrite Hg;
    rewrite ?lookup_setValue, ?format_setValue; cbn [String.eqb Ascii.eqb Bool.eqb to_storage];
    try reflexivity;
    destruct (show_debug s), (always_on_top s); reflexivity.
Qed.

Lemma save_settings_to_file_Ok (s : App) (st st' : QSettings) :
  save_settings_to_file s st = Ok st' ->
  exists w ta, font_weight s = Some w /\ text_area s = Some ta /\ saved s w ta st st'.
Proof.
  intros H.
  destruct (font_weight s) as [w|] eqn:Hw;
    [|unfold save_settings_to_file in H; rewrite Hw in H; discriminate].
  destruct (text_area s) as [ta|] eqn:Hta;
    [|unfold save_settings_to_file in H; rewrite Hw, Hta in H; discriminate].
  destruct (save_settings_to_file_saved s st w ta Hw Hta) as (st2 & E & Hs).
  exists w, ta. rewrite H in E. injection E as <-. auto.
Qed.

(** ** The state of a running program *)

(** What holds of the object once [__init__] has returned, and after every
    event handled since. *)
Record running (s : App) : Prop := {
  run_font_name : exists f, font_name s = VStr f;
  run_font_size : fits_c_int (font_size s);
  run_font_weight : exists w, font_weight s = Some w /\ fits_c_int w;
  run_theme_mode : theme_mode s = VStr "Dark" \/ theme_mode s = VStr "Light";
  run_text_area : text_area s <> None
}.

Lemma settled_valid (v : Value) : settled v = VStr "Dark" \/ settled v = VStr "Light".
Proof. unfold settled. destruct (py_eq_str v "Light"); auto. Qed.

Lemma started_running (st : QSettings) (f : string) (size w : Z) (t : string) (s : App) :
  loadable st f size w t -> started st f size w t s -> running s.
Proof.
  intros L S. constructor.
  - exists f. apply S.
  - rewrite (st_font_size _ _ _ _ _ _ S). apply L.
  - exists w. split; [apply S | apply L].
  - rewrite (st_theme_mode _ _ _ _ _ _ S). apply settled_valid.
  - rewrite (st_text_area _ _ _ _ _ _ S). discriminate.
Qed.

Lemma init_running (n : nat) (st : QSettings) (s : App) :
  __init__ (S (S n)) st = Ok s -> running s.
Proof.
  intros H. destruct (init_Ok n st s H) as (f & size & w & t & L & S).
  exact (started_running st f size w t s L S).
Qed.

(** ** The dialog's controls *)

Lemma clamp_range (lo hi v : Z) : lo <= hi -> lo <= clamp lo hi v <= hi.
Proof. unfold clamp. lia. Qed.

Lemma currentData_range (i : nat) : 100 <= currentData i <= 900.
Proof.
  unfold currentData, weight_items.
  do 10 (destruct i as [|i]; [cbn; lia|]). cbn. destruct i; cbn; lia.
Qed.

(** The size spinner stays within its range whatever the user does. *)
Lemma edit_size_spin (d : Dialog) (e : Edit) :
  8 <= size_spin d <= 72 -> 8 <= size_spin (edit d e) <= 72.
Proof.
  destruct d, e; cbn; try tauto. intros _. apply clamp_range. lia.
Qed.

Lemma foldl_edit_size_spin (edits : list Edit) (d : Dialog) :
  8 <= size_spin d <= 72 -> 8 <= size_spin (foldl edit d edits) <= 72.
Proof.
  revert d. induction edits as [|e edits IH]; intros d H; cbn; [exact H|].
  apply IH, edit_size_spin, H.
Qed.

Lemma open_settings_Ok (placed : Rect) (s s' : App) (d : Dialog) :
  open_settings placed s = Ok (d, s') ->
  8 <= size_spin d <= 72 /\ exists c, s' = with_debug_console c s.
Proof.
  unfold open_settings. intros H.
  assert (Hc : (exists c, s' = with_debug_console c s) <->
               s' = with_debug_console (debug_console s') s).
  { split; [intros [c ->]; destruct s; reflexivity | eauto]. }
  rewrite Hc. clear Hc. inv_step.
  destruct (py_eq_str (theme_mode s) "Dark");
    [|destruct (py_eq_str (theme_mode s) "Light")];
    repeat (inv_step; frame_all); cbn [size_spin];
    (split; [apply clamp_range; lia|]);
    first [reflexivity | apply with_debug_console_eta].
Qed.

(** The dialog opens on a running program unless the stored dialog geometry
    is neither empty nor a byte array. *)
Lemma open_settings_total (placed : Rect) (s : App) :
  running s ->
  (forall g, settings_dialog_geometry s = Some g -> blob_or_false g) ->
  exists d s', open_settings placed s = Ok (d, s').
Proof.
  intros [[f Hf] Hs [w [Hw Hwf]] _ _] Hg. unfold open_settings.
  assert (exists r, match settings_dialog_geometry s with
                    | Some g => if truthy g then restoreGeometry g placed else Ok placed
                    | None => Ok placed
                    end = Ok r) as [r ->].
  { destruct (settings_dialog_geometry s) as [g|]; [|eauto].
    destruct (truthy g) eqn:Et; [|eauto].
    apply blob_restoreGeometry; auto. }
  rewrite mbind_Ok.
  destruct (py_eq_str (theme_mode s) "Dark");
    [|destruct (py_eq_str (theme_mode s) "Light")]; frame_all;
    cbn [font_name font_size font_weight with_debug_console];
    rewrite Hf, mbind_Ok, (c_int_fits _ Hs), mbind_Ok, Hw; cbn [attr];
    rewrite mbind_Ok; eauto.
Qed.

(** ** Closing and saving the dialog *)

Lemma close_event_Ok (d : Dialog) (s s' : App) (st st' : QSettings) :
  close_event d s st = Ok (s', st') ->
  s' = with_settings_dialog_geometry
         (Some (VBytes (GeometryBlob (dialog_geometry d)))) s /\
  save_settings_to_file s' st = Ok st'.
Proof.
  unfold close_event. cbv zeta. intros H. inv_step. inv_step. auto.
Qed.

(** What the Save action leaves: the controls' values in the object, and a
    store written from that object. *)
Record dialog_saved (d : Dialog) (s s' : App) (st' : QSettings) : Prop := {
  ds_store : exists st1, save_settings_to_file s' st1 = Ok st';
  ds_text_area :
    exists ta font,
      text_area s = Some ta /\
      text_area s' = Some {| plain_text := plain_text ta; text_font := Some font |};
  ds_font_name : font_name s' = VStr (font_combo d);
  ds_font_size : font_size s' = size_spin d;
  ds_font_size_fits : fits_c_int (size_spin d);
  ds_font_weight : font_weight s' = Some (currentData (weight_combo d));
  ds_theme_mode : theme_mode s' = VStr "Dark" \/ theme_mode s' = VStr "Light";
  ds_show_debug : show_debug s' = debug_checkbox d;
  ds_always_on_top : always_on_top s' = aot_checkbox d;
  ds_text_content : text_content s' = text_content s;
  ds_geometry : geometry s' = geometry s;
  ds_layout : layout s' = layout s;
  ds_dialog_geometry :
    settings_dialog_geometry s' = Some (VBytes (GeometryBlob (dialog_geometry d)))
}.

Lemma save_settings_Ok (n : nat) (d : Dialog) (s s' : App) (st st' : QSettings) :
  save_settings (S (S n)) d s st = Ok (s', st') -> dialog_saved d s s' st'.
Proof.
  intros H. cbv beta delta [save_settings] in H. cbv zeta in H.
  frame_all. inv_step.
  match type of E with
  | apply_theme _ None ?x = _ =>
      destruct (apply_theme_settles n None x) as (c' & k & Heq & _);
      rewrite Heq in E; clear Heq
  end.
  inv_step. inv_step.
  apply apply_font_Ok in E as (fam & ta & cf & Hf & Hfs & Hfw & Hta & ->).
  frame_all. inv_step.
  apply close_event_Ok in H as [-> H].
  unfold requested in *. fields.
  constructor; fields_goal; try reflexivity; try assumption.
  - exists a. exact H.
  - eexists ta, _. split; [exact Hta | reflexivity].
  - apply settled_valid.
Qed.

(** ** The shape of a step *)

(** [s'] has the theme and the font of [s], and a text area if [s] has. *)
Record kept (s s' : App) : Prop := {
  kp_font_name : font_name s' = font_name s;
  kp_font_size : font_size s' = font_size s;
  kp_font_weight : font_weight s' = font_weight s;
  kp_theme_mode : theme_mode s' = theme_mode s;
  kp_text_area : text_area s <> None -> text_area s' <> None
}.

Lemma kept_refl (s : App) : kept s s.
Proof. constructor; auto. Qed.

Lemma kept_running (s s' : App) : kept s s' -> running s -> running s'.
Proof.
  intros [Hn Hs Hw Ht Ha] [R1 R2 R3 R4 R5]. constructor.
  - rewrite Hn. exact R1.
  - rewrite Hs. exact R2.
  - rewrite Hw. exact R3.
  - rewrite Ht. exact R4.
  - auto.
Qed.

(** What an event can do: nothing to the settings; a save of unchanged
    settings; a save from the dialog; a new start. *)
Inductive step_shape (n : nat) (s : App) (st : QSettings) (s' : App) (st' : QSettings)
  : Prop :=
| shape_quiet : kept s s' -> st' = st -> step_shape n s st s' st'
| shape_saved (s1 : App) (st1 : QSettings) :
    kept s s1 -> save_settings_to_file s1 st1 = Ok st' -> kept s s' ->
    step_shape n s st s' st'
| shape_dialog (d : Dialog) (s0 : App) :
    8 <= size_spin d <= 72 -> dialog_saved d s0 s' st' -> step_shape n s st s' st'
| shape_start (s1 : App) :
    st' = st \/ (kept s s1 /\ save_settings_to_file s1 st = Ok st') ->
    __init__ (S (S n)) st' = Ok s' -> step_shape n s st s' st'.

Ltac kept_fields := constructor; fields_goal; first [reflexivity | discriminate | tauto].

Lemma handle_shape (n : nat) (e : Event) (s s' : App) (st st' : QSettings) :
  handle (S (S n)) e s st = Ok (s', st') -> step_shape n s st s' st'.
Proof.
  destruct e as [t|r|placed edits|placed edits| | |]; cbn [handle]; intros H.
  - inv_step. inv_step. apply shape_quiet; [kept_fields | reflexivity].
  - inv_step. apply shape_quiet; [kept_fields | reflexivity].
  - inv_step. apply open_settings_Ok in E as [Hd [c ->]].
    unfold click_save in H. inv_step.
    apply save_settings_Ok in H.
    eapply shape_dialog; [|exact H]. apply foldl_edit_size_spin, Hd.
  - inv_step. apply open_settings_Ok in E as [Hd [c ->]].
    apply close_event_Ok in H as [-> H].
    eapply shape_saved; [|exact H|]; kept_fields.
  - destruct (debug_dock s) as [[|]|] eqn:Ed.
    + unfold handle_debug_console_close in H. cbv zeta in H. inv_step. inv_step.
      eapply shape_saved; [|exact E|].
      * kept_fields.
      * unfold dock_closed. cbn [debug_dock with_show_debug]. rewrite Ed. kept_fields.
    + inv_step. apply shape_quiet; [apply kept_refl | reflexivity].
    + inv_step. apply shape_quiet; [apply kept_refl | reflexivity].
  - apply bind_Ok in H as ([s1 st1] & Hc & H). cbv beta iota in H.
    apply bind_Ok in H as (s2 & Hi & H). injection H as <- <-.
    unfold closeEvent in Hc. apply bind_Ok in Hc as (ta & Hta & Hc).
    cbv beta zeta in Hc. apply bind_Ok in Hc as (st2 & Hsv & Hc).
    injection Hc as <- <-.
    eapply shape_start; [|exact Hi]. right. split; [|exact Hsv]. kept_fields.
  - apply bind_Ok in H as (s2 & Hi & H). injection H as <- <-.
    eapply (shape_start _ _ _ _ _ s); [|exact Hi]. left. reflexivity.
Qed.

Lemma dialog_saved_running (d : Dialog) (s s' : App) (st' : QSettings) :
  dialog_saved d s s' st' -> running s'.
Proof.
  intros D. constructor.
  - eexists. apply D.
  - rewrite (ds_font_size _ _ _ _ D). apply D.
  - eexists. split; [apply D|].
    pose proof (currentData_range (weight_combo d)). unfold fits_c_int. lia.
  - apply D.
  - destruct (ds_text_area _ _ _ _ D) as (ta & font & _ & ->). discriminate.
Qed.

Lemma step_shape_running (n : nat) (s s' : App) (st st' : QSettings) :
  step_shape n s st s' st' -> running s -> running s'.
Proof.
  intros [K _|s1 st1 _ _ K|d s0 _ D|s1 _ I] R.
  - exact (kept_running _ _ K R).
  - exact (kept_running _ _ K R).
  - exact (dialog_saved_running _ _ _ _ D).
  - exact (init_running _ _ _ I).
Qed.

(** An invariant of the object and the store holds at the end of a run of
    events when every event keeps it. *)
Lemma run_invariant (I : App -> QSettings -> Prop) (depth : nat) :
  (forall e s st s' st', I s st -> handle depth e s st = Ok (s', st') -> I s' st') ->
  forall events s st s' st',
    I s st -> run depth events s st = Ok (s', st') -> I s' st'.
Proof.
  intros Hstep. induction events as [|e events IH]; intros s st s' st' HI H; cbn [run] in H.
  - inv_step. exact HI.
  - inv_step. eapply IH; [|exact H]. eapply Hstep; [exact HI | exact E].
Qed.

Lemma session_running (n : nat) (st : QSettings) (events : list Event)
      (s' : App) (st' : QSettings) :
  session (S (S n)) st events = Ok (s', st') -> running s'.
Proof.
  unfold session. intros H. inv_step.
  refine (run_invariant (fun s _ => running s) (S (S n)) _ events _ _ _ _
            (init_running _ _ _ E) H).
  intros e s0 st0 s1 st1 R Hh.
  exact (step_shape_running n _ _ _ _ (handle_shape _ _ _ _ _ _ Hh) R).
Qed.

(** ** The font size on the way through the store *)

(** The store holds no font size, or one that [int(...)] reads as a number
    of the spinner's range. *)
Definition stored_size_ok (st : QSettings) : Prop :=
  match entries st !! "font_size" with
  | None => True
  | Some v => exists z, py_int v = Ok z /\ 8 <= z <= 72
  end.

Lemma stored_size_ok_value (st : QSettings) (z : Z) :
  stored_size_ok st -> py_int (value st "font_size" (VInt 16)) = Ok z -> 8 <= z <= 72.
Proof.
  unfold stored_size_ok, value.
  destruct (entries st !! "font_size") as [v|]; cbn [default py_int].
  - intros (z' & Hz & Hr) H. unfold id in H. assert (z = z') by congruence.
    subst. exact Hr.
  - intros _ [= <-]. lia.
Qed.

Lemma saved_size_ok (s : App) (st st' : QSettings) :
  save_settings_to_file s st = Ok st' -> 8 <= font_size s <= 72 -> stored_size_ok st'.
Proof.
  intros H Hr. apply save_settings_to_file_Ok in H as (w & ta & _ & _ & Sv).
  unfold stored_size_ok. rewrite (sv_font_size _ _ _ _ _ Sv).
  exists (font_size s). split; [apply py_int_to_storage | exact Hr].
Qed.

Lemma init_size (n : nat) (st : QSettings) (s : App) :
  __init__ (S (S n)) st = Ok s -> stored_size_ok st -> 8 <= font_size s <= 72.
Proof.
  intros H Hst. destruct (init_Ok n st s H) as (f & size & w & t & L & S).
  rewrite (st_font_size _ _ _ _ _ _ S).
  exact (stored_size_ok_value st size Hst (ld_size _ _ _ _ _ L)).
Qed.

Lemma step_shape_size (n : nat) (s s' : App) (st st' : QSettings) :
  step_shape n s st s' st' ->
  8 <= font_size s <= 72 /\ stored_size_ok st ->
  8 <= font_size s' <= 72 /\ stored_size_ok st'.
Proof.
  intros [K ->|s1 st1 K1 Sv K|d s0 Hd D|s1 Hst I] [Hr Hs].
  - rewrite (kp_font_size _ _ K). auto.
  - rewrite (kp_font_size _ _ K). split; [exact Hr|].
    apply (saved_size_ok _ _ _ Sv). rewrite (kp_font_size _ _ K1). exact Hr.
  - rewrite (ds_font_size _ _ _ _ D). split; [exact Hd|].
    destruct (ds_store _ _ _ _ D) as [st1 Sv].
    apply (saved_size_ok _ _ _ Sv). rewrite (ds_font_size _ _ _ _ D). exact Hd.
  - assert (Hs' : stored_size_ok st').
    { destruct Hst as [->|[K Sv]]; [exact Hs|].
      apply (saved_size_ok _ _ _ Sv). rewrite (kp_font_size _ _ K). exact Hr. }
    split; [exact (init_size _ _ _ I Hs') | exact Hs'].
Qed.

(** * The claims *)

(** ** C2: an unknown theme ends in Dark after one substitution *)

(** C2.  For every theme that is neither Dark nor Light, whether passed as
    the argument or found in [theme_mode], [apply_theme] returns as soon as
    the stack has room for two frames: it passes once through the correcting
    branch, leaves [theme_mode] at Dark, and has put the Dark style sheets on
    the window and on the console when there is one. *)
Theorem apply_theme_unknown_ends_dark (n : nat) (theme : option Value) (s : App) :
  is_valid_theme (requested theme s) = false ->
  exists s',
    apply_theme (S (S n)) theme s = Ok (s', 1%nat) /\
    theme_mode s' = VStr "Dark" /\
    style_sheet s' = dark_window_style /\
    console_style <$> debug_console s' = (fun _ => dark_console_style) <$> debug_console s.
Proof.
  intros H. destruct (apply_theme_fallback n theme s H) as (c & E & Hc).
  eexists. split; [exact E|]. repeat split. exact Hc.
Qed.

Lemma apply_theme_unknown_ends_dark_witness :
  is_valid_theme (requested (Some (VStr "Purple")) initial_app) = false /\
  exists s',
    apply_theme 2 (Some (VStr "Purple")) initial_app = Ok (s', 1%nat) /\
    theme_mode s' = VStr "Dark" /\
    style_sheet s' = dark_window_style /\
    console_style <$> debug_console s'
    = (fun _ => dark_console_style) <$> debug_console initial_app.
Proof.
  split; [reflexivity|].
  apply (apply_theme_unknown_ends_dark 0 (Some (VStr "Purple")) initial_app).
  reflexivity.
Defined.

(** The correction takes a frame of its own: with room for one frame only,
    the nested call is refused. *)
Lemma apply_theme_unknown_one_frame (theme : option Value) (s : App) :
  is_valid_theme (requested theme s) = false ->
  apply_theme 1 theme s = Raise RecursionError.
Proof.
  unfold is_valid_theme. intros H. apply orb_false_elim in H as [HD HL].
  unfold apply_theme.
  assert (E : theme_mode
                match theme with
                | None | Some VNone => s
                | Some t => log_debug (Log "Theme Changed To: {}" [t]) (with_theme_mode t s)
                end = requested theme s) by (destruct theme as [[]|]; reflexivity).
  rewrite E, HD, HL. reflexivity.
Qed.

(** ** C8: applying a theme twice *)

(** C8.  For Dark and for Light, a second [apply_theme] with the same theme
    returns without correction and leaves the style sheet of the window, the
    style sheet of the console and [theme_mode] as the first call left
    them. *)
Theorem apply_theme_idempotent (n : nat) (v : Value) (s : App) :
  is_valid_theme v = true ->
  exists s1 s2,
    apply_theme (S n) (Some v) s = Ok (s1, O) /\
    apply_theme (S n) (Some v) s1 = Ok (s2, O) /\
    style_sheet s2 = style_sheet s1 /\
    console_style <$> debug_console s2 = console_style <$> debug_console s1 /\
    theme_mode s2 = theme_mode s1.
Proof.
  unfold is_valid_theme. intros H. apply orb_true_iff in H as [H|H];
    apply py_eq_str_true in H; subst v.
  - destruct (apply_theme_dark n (Some (VStr "Dark")) s eq_refl) as (c1 & E1 & H1).
    eexists. rewrite E1.
    match goal with
    | |- context [apply_theme _ _ ?x] =>
        destruct (apply_theme_dark n (Some (VStr "Dark")) x eq_refl) as (c2 & E2 & H2)
    end.
    eexists. split; [reflexivity|]. split; [exact E2|].
    cbn in *. repeat split.
    rewrite H2. destruct c1 as [x|], (debug_console s); cbn in *; congruence.
  - destruct (apply_theme_light n (Some (VStr "Light")) s eq_refl) as (c1 & E1 & H1).
    eexists. rewrite E1.
    match goal with
    | |- context [apply_theme _ _ ?x] =>
        destruct (apply_theme_light n (Some (VStr "Light")) x eq_refl) as (c2 & E2 & H2)
    end.
    eexists. split; [reflexivity|]. split; [exact E2|].
    cbn in *. repeat split.
    rewrite H2. destruct c1 as [x|], (debug_console s); cbn in *; congruence.
Qed.

Lemma apply_theme_idempotent_witness :
  is_valid_theme (VStr "Light") = true /\
  exists s1 s2,
    apply_theme 1 (Some (VStr "Light")) initial_app = Ok (s1, O) /\
    apply_theme 1 (Some (VStr "Light")) s1 = Ok (s2, O) /\
    style_sheet s2 = style_sheet s1 /\
    console_style <$> debug_console s2 = console_style <$> debug_console s1 /\
    theme_mode s2 = theme_mode s1.
Proof.
  split; [reflexivity|].
  apply (apply_theme_idempotent 0 (VStr "Light") initial_app). reflexivity.
Defined.

(** ** C9: the first start *)

(** C9.  On an empty store of either format, [__init__] returns, with the
    window at (100,100) and 800 by 600, the Dark theme and its style sheet,
    Arial at size 16 and weight Normal on the text area, no debug console,
    and the window not kept on top. *)
Theorem fresh_start_defaults (n : nat) (fmt : Format) :
  exists s,
    __init__ (S n) {| format := fmt; entries := ∅ |} = Ok s /\
    geometry s = {| rx := 100; ry := 100; rw := 800; rh := 600 |} /\
    theme_mode s = VStr "Dark" /\
    style_sheet s = dark_window_style /\
    font_name s = VStr "Arial" /\
    font_size s = 16 /\
    font_weight s = Some (QFont.int QFont.Normal) /\
    text_area s
    = Some {| plain_text := "";
              text_font := Some {| family := "Arial"; point_size := 16;
                                   weight := QFont.int QFont.Normal |} |} /\
    show_debug s = false /\ debug_console s = None /\ debug_dock s = None /\
    always_on_top s = false /\ stays_on_top s = false /\ shown s = true.
Proof.
  destruct fmt; eexists; (split; [vm_compute; reflexivity|]);
    repeat split; reflexivity.
Qed.

(** ** C10: every save writes the text of the editor *)

(** C10.  Whenever [save_settings_to_file] runs on an object whose text area
    exists, it stores the text of the text area under text_content; so do the
    close of the settings dialog, the close of the debug console and the
    close of the main window, which all call it. *)
Theorem every_save_writes_live_text (s : App) (st : QSettings) (w : Z) (ta : TextEdit) :
  font_weight s = Some w -> text_area s = Some ta ->
  (exists st',
     save_settings_to_file s st = Ok st' /\
     entries st' !! "text_content" = Some (VStr (plain_text ta))) /\
  (forall d, exists s' st',
     close_event d s st = Ok (s', st') /\
     entries st' !! "text_content" = Some (VStr (plain_text ta))) /\
  (exists s' st',
     handle_debug_console_close s st = Ok (s', st') /\
     entries st' !! "text_content" = Some (VStr (plain_text ta))) /\
  (exists s' st',
     closeEvent s st = Ok (s', st') /\
     entries st' !! "text_content" = Some (VStr (plain_text ta))).
Proof.
  intros Hw Hta. repeat split.
  - destruct (save_settings_to_file_saved s st w ta Hw Hta) as (st' & E & Sv).
    exists st'. split; [exact E | apply Sv].
  - intros d. unfold close_event. cbv zeta.
    destruct (save_settings_to_file_saved
                (with_settings_dialog_geometry
                   (Some (VBytes (GeometryBlob (dialog_geometry d)))) s) st w ta Hw Hta)
      as (st' & E & Sv).
    rewrite E, mbind_Ok. eexists _, st'. split; [reflexivity | apply Sv].
  - unfold handle_debug_console_close. cbv zeta.
    destruct (save_settings_to_file_saved (with_show_debug false s) st w ta Hw Hta)
      as (st' & E & Sv).
    rewrite E, mbind_Ok. eexists _, st'. split; [reflexivity | apply Sv].
  - unfold closeEvent. rewrite Hta. cbn [attr]. rewrite mbind_Ok. cbv zeta.
    destruct (save_settings_to_file_saved
                (with_text_content (VStr (plain_text ta)) s) st w ta Hw Hta)
      as (st' & E & Sv).
    rewrite E, mbind_Ok. eexists _, st'. split; [reflexivity | apply Sv].
Qed.

(** A running program with a draft in the editor, for the examples below. *)
Definition drafting : App :=
  {| font_name := VStr "Arial"; font_size := 16; font_weight := Some 400;
     theme_mode := VStr "Dark"; text_content := VStr "";
     show_debug := false; always_on_top := true;
     settings_dialog_geometry := Some VNone;
     debug_console := None; debug_dock := None;
     text_area := Some {| plain_text := "draft"; text_font := None |};
     style_sheet := dark_window_style;
     geometry := {| rx := 100; ry := 100; rw := 800; rh := 600 |};
     layout := 0%N; stays_on_top := true; shown := true |}.

Definition empty_store (fmt : Format) : QSettings := {| format := fmt; entries := ∅ |}.

Lemma every_save_writes_live_text_witness :
  font_weight drafting = Some 400 /\
  text_area drafting = Some {| plain_text := "draft"; text_font := None |} /\
  exists st',
    save_settings_to_file drafting (empty_store IniFormat) = Ok st' /\
    entries st' !! "text_content" = Some (VStr "draft").
Proof.
  split; [reflexivity|]. split; [reflexivity|].
  apply (every_save_writes_live_text drafting (empty_store IniFormat) 400
           {| plain_text := "draft"; text_font := None |}); reflexivity.
Defined.

(** ** C6: booleans in the store *)

Lemma py_eq_str_bool_text (b : bool) :
  py_eq_str (VStr (if b then "true" else "false")) "true" = b.
Proof. destruct b; reflexivity. Qed.

(** A boolean kept as such would not be read back: only the text is. *)
Example py_eq_str_native_bool : py_eq_str (VBool true) "true" = false.
Proof. reflexivity. Qed.

(** C6.  A save leaves show_debug and always_on_top in the store as the text
    true or false, in either format, and [load_settings] sets each flag by
    comparing what it finds with the text true, which gives the saved flags
    back. *)
Theorem booleans_stored_as_text (s : App) (st : QSettings) (w : Z) (ta : TextEdit) :
  font_weight s = Some w -> text_area s = Some ta ->
  exists st',
    save_settings_to_file s st = Ok st' /\
    entries st' !! "show_debug" = Some (VStr (if show_debug s then "true" else "false")) /\
    entries st' !! "always_on_top"
    = Some (VStr (if always_on_top s then "true" else "false")) /\
    (forall s0 st0 s1,
       load_settings s0 st0 = Ok s1 ->
       show_debug s1 = py_eq_str (value st0 "show_debug" (VStr "false")) "true" /\
       always_on_top s1 = py_eq_str (value st0 "always_on_top" (VStr "false")) "true") /\
    (forall s0 s1,
       load_settings s0 st' = Ok s1 ->
       show_debug s1 = show_debug s /\ always_on_top s1 = always_on_top s).
Proof.
  intros Hw Hta.
  destruct (save_settings_to_file_saved s st w ta Hw Hta) as (st' & E & Sv).
  assert (Hload : forall s0 st0 s1,
             load_settings s0 st0 = Ok s1 ->
             show_debug s1 = py_eq_str (value st0 "show_debug" (VStr "false")) "true" /\
             always_on_top s1 = py_eq_str (value st0 "always_on_top" (VStr "false")) "true").
  { intros s0 st0 s1 H.
    apply load_settings_Ok in H as (size & w' & g & l & c & _ & _ & _ & _ & _ & ->).
    split; reflexivity. }
  exists st'. split; [exact E|]. split; [apply Sv|]. split; [apply Sv|].
  split; [exact Hload|].
  intros s0 s1 H. destruct (Hload s0 st' s1 H) as [-> ->].
  unfold value. rewrite (sv_show_debug _ _ _ _ _ Sv), (sv_always_on_top _ _ _ _ _ Sv).
  cbn [default from_option id]. rewrite !py_eq_str_bool_text. auto.
Qed.

Lemma booleans_stored_as_text_witness :
  font_weight drafting = Some 400 /\
  text_area drafting = Some {| plain_text := "draft"; text_font := None |} /\
  exists st',
    save_settings_to_file drafting (empty_store RegistryFormat) = Ok st' /\
    entries st' !! "show_debug" = Some (VStr "false") /\
    entries st' !! "always_on_top" = Some (VStr "true").
Proof.
  split; [reflexivity|]. split; [reflexivity|].
  destruct (booleans_stored_as_text drafting (empty_store RegistryFormat) 400
              {| plain_text := "draft"; text_font := None |} eq_refl eq_refl)
    as (st' & E & H1 & H2 & _).
  exists st'. auto.
Defined.

(** ** C1: a save read back by a new process *)

(** The store a running program saves can be loaded, and yields its font,
    its sizes and the text of its editor. *)
Lemma saved_loadable (s : App) (w : Z) (ta : TextEdit) (st st' : QSettings) (f : string) :
  saved s w ta st st' ->
  font_name s = VStr f -> fits_c_int (font_size s) -> fits_c_int w ->
  loadable st' f (font_size s) w (plain_text ta).
Proof.
  intros Sv Hf Hs Hw. constructor; unfold value.
  - rewrite (sv_font_name _ _ _ _ _ Sv), Hf. reflexivity.
  - rewrite (sv_font_size _ _ _ _ _ Sv). apply py_int_to_storage.
  - exact Hs.
  - rewrite (sv_font_weight _ _ _ _ _ Sv). apply py_int_to_storage.
  - exact Hw.
  - rewrite (sv_text_content _ _ _ _ _ Sv). reflexivity.
  - rewrite (sv_window_geometry _ _ _ _ _ Sv). intros _. eexists. reflexivity.
  - rewrite (sv_window_state _ _ _ _ _ Sv). intros _. eexists. reflexivity.
Qed.

Lemma settled_stored (fmt : Format) (v : Value) :
  v = VStr "Dark" \/ v = VStr "Light" -> settled (to_storage fmt v) = v.
Proof. intros [-> | ->]; reflexivity. Qed.

(** C1.  What a running program saves, a new process reads back: after
    [save_settings_to_file], both [load_settings] and the whole of
    [__init__] succeed on the store and give the same font family, font
    size, font weight, theme, debug flag and always-on-top flag, with the
    saved text of the editor as text content. *)
Theorem save_then_load_round_trip (n : nat) (s : App) (st : QSettings) (ta : TextEdit) :
  running s -> text_area s = Some ta ->
  exists st',
    save_settings_to_file s st = Ok st' /\
    (forall s0, exists sL,
       load_settings s0 st' = Ok sL /\
       font_name sL = font_name s /\ font_size sL = font_size s /\
       font_weight sL = font_weight s /\ theme_mode sL = theme_mode s /\
       text_content sL = VStr (plain_text ta) /\
       show_debug sL = show_debug s /\ always_on_top sL = always_on_top s) /\
    (exists s',
       __init__ (S (S n)) st' = Ok s' /\
       font_name s' = font_name s /\ font_size s' = font_size s /\
       font_weight s' = font_weight s /\ theme_mode s' = theme_mode s /\
       text_content s' = VStr (plain_text ta) /\
       plain_text <$> text_area s' = Some (plain_text ta) /\
       show_debug s' = show_debug s /\ always_on_top s' = always_on_top s).
Proof.
  intros [[f Hf] Hs [w [Hw Hwf]] Ht _] Hta.
  destruct (save_settings_to_file_saved s st w ta Hw Hta) as (st' & E & Sv).
  pose proof (saved_loadable s w ta st st' f Sv Hf Hs Hwf) as L.
  assert (Hth : value st' "theme_mode" (VStr "Dark") = theme_mode s).
  { unfold value. rewrite (sv_theme_mode _ _ _ _ _ Sv). cbn [default from_option id].
    destruct Ht as [-> | ->]; reflexivity. }
  assert (Hdbg : py_eq_str (value st' "show_debug" (VStr "false")) "true" = show_debug s).
  { unfold value. rewrite (sv_show_debug _ _ _ _ _ Sv). apply py_eq_str_bool_text. }
  assert (Haot : py_eq_str (value st' "always_on_top" (VStr "false")) "true"
                 = always_on_top s).
  { unfold value. rewrite (sv_always_on_top _ _ _ _ _ Sv). apply py_eq_str_bool_text. }
  exists st'. split; [exact E|]. split.
  - intros s0.
    destruct (load_settings_total s0 st' (font_size s) w
                (ld_size _ _ _ _ _ L) (ld_weight _ _ _ _ _ L)
                (ld_geometry _ _ _ _ _ L) (ld_state _ _ _ _ _ L)) as [sL HL].
    exists sL. split; [exact HL|].
    apply load_settings_Ok in HL
      as (size' & w' & g & l & c & Hsize' & Hw' & _ & _ & _ & ->).
    rewrite (ld_size _ _ _ _ _ L) in Hsize'. rewrite (ld_weight _ _ _ _ _ L) in Hw'.
    injection Hsize' as <-. injection Hw' as <-.
    cbn [font_name font_size font_weight theme_mode text_content show_debug
         always_on_top with_debug_console with_layout with_geometry with_always_on_top
         with_settings_dialog_geometry with_font_weight with_show_debug
         with_text_content with_theme_mode with_font_size with_font_name].
    rewrite (ld_font _ _ _ _ _ L), (ld_text _ _ _ _ _ L), Hth, Hdbg, Haot.
    repeat split; congruence.
  - destruct (init_total n st' f (font_size s) w (plain_text ta) L) as (s' & I & S).
    exists s'. split; [exact I|].
    rewrite (st_font_name _ _ _ _ _ _ S), (st_font_size _ _ _ _ _ _ S),
      (st_font_weight _ _ _ _ _ _ S), (st_theme_mode _ _ _ _ _ _ S),
      (st_text_content _ _ _ _ _ _ S), (st_text_area _ _ _ _ _ _ S),
      (st_show_debug _ _ _ _ _ _ S), (st_always_on_top _ _ _ _ _ _ S),
      Hth, Hdbg, Haot.
    repeat split; try congruence.
    destruct Ht as [-> | ->]; reflexivity.
Qed.

Lemma drafting_running : running drafting.
Proof.
  constructor; cbn.
  - eexists. reflexivity.
  - unfold fits_c_int. lia.
  - eexists. split; [reflexivity|]. unfold fits_c_int. lia.
  - left. reflexivity.
  - discriminate.
Qed.

Lemma save_then_load_round_trip_witness :
  running drafting /\
  text_area drafting = Some {| plain_text := "draft"; text_font := None |} /\
  exists st',
    save_settings_to_file drafting (empty_store IniFormat) = Ok st' /\
    exists s',
      __init__ 2 st' = Ok s' /\
      font_name s' = VStr "Arial" /\ font_size s' = 16 /\ font_weight s' = Some 400 /\
      theme_mode s' = VStr "Dark" /\ text_content s' = VStr "draft" /\
      show_debug s' = false /\ always_on_top s' = true.
Proof.
  split; [exact drafting_running|]. split; [reflexivity|].
  destruct (save_then_load_round_trip 0 drafting (empty_store IniFormat)
              {| plain_text := "draft"; text_font := None |}
              drafting_running eq_refl)
    as (st' & E & _ & s' & I & H1 & H2 & H3 & H4 & H5 & _ & H6 & H7).
  exists st'. split; [exact E|]. exists s'. cbn in *. repeat split; assumption.
Defined.

(** ** C4: loading a store that is not well formed *)











(** ** C5: the font size *)

(** A font size of 200 found in the store becomes the font size of the
    program and of the font set on the text area: nothing on the way from
    the store to [apply_font] brings it into the spinner's range. *)
Lemma stored_size_reaches_apply_font :
  exists s,
    __init__ recursion_limit
      {| format := IniFormat; entries := {["font_size" := VStr "200"]} |} = Ok s /\
    font_size s = 200 /\
    text_area s
    = Some {| plain_text := "";
              text_font := Some {| family := "Arial"; point_size := 200;
                                   weight := 400 |} |} /\
    ~ (8 <= font_size s <= 72).
Proof.
  eexists. split; [vm_compute; reflexivity|]. cbn. repeat split. lia.
Qed.

(** C5, as the code has it.  The spinner brings 7 to 8 and 73 to 72, and a
    save from the dialog leaves a font size within 8 and 72 whatever it was;
    when the store the program starts from has no font size or one within 8
    and 72, the font size stays within 8 and 72 through every event, and so
    does the one in the store. *)
Theorem font_size_in_range (n : nat) (st : QSettings) (events : list Event)
        (s' : App) (st' : QSettings) :
  stored_size_ok st ->
  session (S (S n)) st events = Ok (s', st') ->
  (8 <= font_size s' <= 72 /\ stored_size_ok st') /\
  (forall d, size_spin (edit d (SpinTo 7)) = 8 /\ size_spin (edit d (SpinTo 73)) = 72) /\
  (forall placed edits s0 st0 s1 st1,
     handle (S (S n)) (SettingsSave placed edits) s0 st0 = Ok (s1, st1) ->
     8 <= font_size s1 <= 72).
Proof.
  intros Hst H. split; [|split].
  - unfold session in H. apply bind_Ok in H as (s0 & I & H).
    refine (run_invariant
              (fun s st => 8 <= font_size s <= 72 /\ stored_size_ok st)
              (S (S n)) _ events _ _ _ _ _ H).
    + intros e s1 st1 s2 st2 HI Hh.
      exact (step_shape_size n _ _ _ _ (handle_shape _ _ _ _ _ _ Hh) HI).
    + split; [exact (init_size _ _ _ I Hst) | exact Hst].
  - intros []. split; reflexivity.
  - intros placed edits s0 st0 s1 st1 Hh. cbn [handle] in Hh.
    apply bind_Ok in Hh as ([d0 s2] & Ho & Hh). cbv beta iota in Hh.
    apply open_settings_Ok in Ho as [Hd _].
    unfold click_save in Hh. apply bind_Ok in Hh as ([s3 st3] & _ & Hh).
    cbv beta iota in Hh. apply save_settings_Ok in Hh.
    rewrite (ds_font_size _ _ _ _ Hh). apply foldl_edit_size_spin, Hd.
Qed.

Lemma font_size_in_range_witness :
  stored_size_ok (empty_store IniFormat) /\
  exists s' st',
    session 2 (empty_store IniFormat)
      [SettingsSave {| rx := 0; ry := 0; rw := 500; rh := 400 |} [SpinTo 73]; Relaunch]
    = Ok (s', st') /\
    8 <= font_size s' <= 72 /\ stored_size_ok st'.
Proof.
  split; [exact I|].
  destruct (session 2 (empty_store IniFormat)
              [SettingsSave {| rx := 0; ry := 0; rw := 500; rh := 400 |} [SpinTo 73];
               Relaunch]) as [[s' st']|e] eqn:E; [|vm_compute in E; discriminate E].
  exists s', st'. split; [reflexivity|].
  apply (font_size_in_range 0 (empty_store IniFormat) _ s' st' I E).
Defined.

(** ** C3: the theme after a load and after a save *)

(** A store with an unknown theme and the debug console switched on. *)
Definition purple_store : QSettings :=
  {| format := IniFormat;
     entries := <["theme_mode" := VStr "Purple"]> {["show_debug" := VStr "true"]} |}.

(** [load_settings] itself takes the theme as it finds it; it is the call of
    [apply_theme] in [__init__] that settles it. *)
Example load_settings_keeps_unknown_theme :
  exists s, load_settings initial_app purple_store = Ok s /\ theme_mode s = VStr "Purple".
Proof. eexists. split; [vm_compute; reflexivity | reflexivity]. Qed.

Lemma settled_unknown (v : Value) :
  is_valid_theme v = false ->
  settled v = VStr "Dark" /\ window_style_of v = dark_window_style.
Proof.
  unfold is_valid_theme, settled, window_style_of. intros H.
  apply orb_false_elim in H as [_ ->]. auto.
Qed.

(** C3.  At the end of a start of the program and of any events after it,
    [theme_mode] is Dark or Light, and so is the theme any save then writes;
    a start on a store whose theme is neither ends with Dark and the Dark
    style sheet. *)
Theorem theme_valid_after_load_and_save (n : nat) (st : QSettings) (events : list Event)
        (s' : App) (st' : QSettings) :
  session (S (S n)) st events = Ok (s', st') ->
  (theme_mode s' = VStr "Dark" \/ theme_mode s' = VStr "Light") /\
  (forall st0, exists st1,
     save_settings_to_file s' st0 = Ok st1 /\
     entries st1 !! "theme_mode" = Some (theme_mode s')) /\
  (forall s,
     __init__ (S (S n)) st = Ok s ->
     is_valid_theme (value st "theme_mode" (VStr "Dark")) = false ->
     theme_mode s = VStr "Dark" /\ style_sheet s = dark_window_style).
Proof.
  intros H. pose proof (session_running n st events s' st' H) as R.
  split; [apply R|]. split.
  - intros st0. destruct R as [_ _ [w [Hw _]] Ht Hta].
    destruct (text_area s') as [ta|] eqn:Eta; [|congruence].
    destruct (save_settings_to_file_saved s' st0 w ta Hw Eta) as (st1 & E & Sv).
    exists st1. split; [exact E|]. rewrite (sv_theme_mode _ _ _ _ _ Sv).
    destruct Ht as [-> | ->]; reflexivity.
  - intros s I Hv. destruct (init_Ok n st s I) as (f & size & w & t & _ & S).
    rewrite (st_theme_mode _ _ _ _ _ _ S), (st_style_sheet _ _ _ _ _ _ S).
    apply settled_unknown, Hv.
Qed.

Lemma theme_valid_after_load_and_save_witness :
  exists s' st',
    session 2 purple_store
      [EditText "draft";
       SettingsClose {| rx := 0; ry := 0; rw := 500; rh := 400 |} [ClickLight];
       CloseDebugConsole; Relaunch] = Ok (s', st') /\
    (theme_mode s' = VStr "Dark" \/ theme_mode s' = VStr "Light") /\
    entries st' !! "theme_mode" = Some (VStr "Dark").
Proof.
  destruct (session 2 purple_store
              [EditText "draft";
               SettingsClose {| rx := 0; ry := 0; rw := 500; rh := 400 |} [ClickLight];
               CloseDebugConsole; Relaunch]) as [[s' st']|e] eqn:E.
  - exists s', st'. split; [reflexivity|].
    split; [apply (theme_valid_after_load_and_save 0 purple_store _ s' st' E)|].
    vm_compute in E. injection E as _ <-. vm_compute. reflexivity.
  - vm_compute in E. discriminate E.
Defined.

(** ** C7: closing the dialog without saving *)




(** * Further properties *)

(** ** The console through a call

    A call that logs keeps the style of the console and a call that styles
    sets it; neither makes a console nor removes one.  The lemmas below say
    so for each method and each block of a method, next to the fields it
    assigns. *)

Lemma log_debug_style (message : LogLine) (s : App) :
  exists c, log_debug message s = with_debug_console c s /\
            console_style <$> c = console_style <$> debug_console s.
Proof.
  unfold log_debug. eexists. split; [reflexivity|].
  destruct (show_debug s), (debug_console s); reflexivity.
Qed.

Lemma style_console_style (sheet : string) (s : App) :
  exists c, style_console sheet s = with_debug_console c s /\
            console_style <$> c = (fun _ => sheet) <$> debug_console s.
Proof.
  unfold style_console. eexists. split; [reflexivity|].
  destruct (debug_console s); reflexivity.
Qed.

Ltac style_with lem :=
  let E := fresh "E" in
  let L := fresh "L" in
  pose proof lem as E;
  repeat match type of E with
         | ex _ => let c := fresh "c" in destruct E as [c E]
         end;
  destruct E as [E L];
  rewrite E in *; clear E.

Ltac style_call t :=
  match t with
  | context [log_debug ?m ?s] =>
      no_calls m; no_calls s; style_with (log_debug_style m s)
  | context [style_console ?m ?s] =>
      no_calls s; style_with (style_console_style m s)
  end.

Ltac style_calls :=
  repeat match goal with
    | |- ?G => style_call G
    end.

(** Settle what is known of the consoles named so far. *)
Ltac looks :=
  repeat match goal with
    | c : option Console |- _ =>
        destruct c; cbn [fmap option_fmap option_map] in *; simplify_eq
    end.

Lemma console_style_of_Dark (v : Value) :
  py_eq_str v "Dark" = true -> console_style_of v = dark_console_style.
Proof. intros H. apply py_eq_str_true in H as ->. reflexivity. Qed.

Lemma _init_debug_console_style (s : App) :
  exists c, _init_debug_console s
            = with_debug_dock (Some (show_debug s)) (with_debug_console (Some c) s) /\
            console_style c = console_style_of (theme_mode s).
Proof.
  destruct s as [fn fs fw tm tc sd aot sdg dc dd ta ss g l sot sh].
  unfold _init_debug_console. cbv zeta. style_calls. fields.
  unfold console_style_of.
  destruct (py_eq_str tm "Dark") eqn:ED.
  - apply py_eq_str_true in ED as ->. cbn [py_eq_str String.eqb Ascii.eqb Bool.eqb].
    looks; eexists; (split; [reflexivity | congruence]).
  - destruct (py_eq_str tm "Light"); looks; eexists; (split; [reflexivity | congruence]).
Qed.

Ltac open_app s := destruct s as [fn fs fw tm tc sd aot sdg dc dd ta ss g l sot sh].

Lemma set_always_on_top_style (enable : bool) (s : App) :
  exists c, set_always_on_top enable s
            = with_shown true (with_debug_console c
                (with_stays_on_top enable (with_always_on_top enable s))) /\
            console_style <$> c = console_style <$> debug_console s.
Proof.
  open_app s. unfold set_always_on_top. cbv zeta.
  destruct enable; style_calls; fields; eexists; (split; [reflexivity | congruence]).
Qed.

Lemma log_loaded_style (s : App) :
  exists c, log_loaded s = with_debug_console c s /\
            console_style <$> c = console_style <$> debug_console s.
Proof.
  open_app s. unfold log_loaded. cbv zeta. style_calls. fields.
  eexists; (split; [reflexivity | congruence]).
Qed.

Lemma start_debug_console_style (s : App) :
  exists c dk,
    start_debug_console s = with_debug_dock dk (with_debug_console c s) /\
    (show_debug s = true ->
     dk = Some true /\
     exists x, c = Some x /\ console_style x = console_style_of (theme_mode s)) /\
    (show_debug s = false -> dk = debug_dock s /\ c = debug_console s).
Proof.
  open_app s. unfold start_debug_console. cbn [show_debug].
  destruct sd; cbv zeta.
  - destruct (_init_debug_console_style
                (mkApp fn fs fw tm tc true aot sdg dc dd ta ss g l sot sh))
      as (c0 & -> & L0).
    style_calls. fields. eexists _, _.
    split; [reflexivity|]. split; [|discriminate].
    intros _. split; [reflexivity|].
    looks; eexists; (split; [reflexivity | congruence]).
  - exists dc, dd. split; [reflexivity|]. split; [discriminate|]. auto.
Qed.

Lemma select_theme_style (d : Dialog) (s : App) :
  exists c,
    select_theme d s
    = with_theme_mode (VStr (if Z.eqb (checked_id d) 2 then "Light" else "Dark"))
        (with_debug_console c s) /\
    console_style <$> c = console_style <$> debug_console s.
Proof.
  open_app s. unfold select_theme. cbv zeta.
  destruct (Z.eqb_spec (checked_id d) 1) as [E1|E1];
    [rewrite E1; cbn [Z.eqb Pos.eqb] | destruct (Z.eqb (checked_id d) 2)];
    fields; cbn [py_eq_str String.eqb Ascii.eqb Bool.eqb negb orb];
    style_calls; fields; eexists; (split; [reflexivity | congruence]).
Qed.

Lemma select_font_style (d : Dialog) (s : App) :
  exists c,
    select_font d s
    = with_debug_console c
        (with_font_weight (Some (currentData (weight_combo d)))
           (with_font_size (size_spin d) (with_font_name (VStr (font_combo d)) s))) /\
    console_style <$> c = console_style <$> debug_console s.
Proof.
  open_app s. unfold select_font. cbv zeta. fields.
  case_ifs; style_calls; fields; eexists; (split; [reflexivity | congruence]).
Qed.

Lemma select_always_on_top_style (d : Dialog) (s : App) :
  exists c t sh,
    select_always_on_top d s
    = with_shown sh (with_debug_console c
        (with_stays_on_top t (with_always_on_top (aot_checkbox d) s))) /\
    console_style <$> c = console_style <$> debug_console s /\
    (stays_on_top s = always_on_top s -> t = aot_checkbox d) /\
    (shown s = true -> sh = true).
Proof.
  open_app s. unfold select_always_on_top. cbv zeta. cbn [always_on_top].
  destruct (eqb (aot_checkbox d) aot) eqn:E; cbn [negb].
  - apply eqb_prop in E. rewrite E. exists dc, sot, sh.
    split; [reflexivity|]. split; [reflexivity|]. cbn. auto.
  - destruct (set_always_on_top_style (aot_checkbox d)
                (mkApp fn fs fw tm tc sd aot sdg dc dd ta ss g l sot sh))
      as (c0 & -> & L0).
    style_calls. fields. eexists _, _, _.
    split; [reflexivity|]. split; [congruence|]. auto.
Qed.

Lemma select_debug_style (d : Dialog) (changed : bool) (s : App) :
  exists c,
    select_debug d changed s
    = with_debug_console c (with_show_debug (debug_checkbox d) s) /\
    console_style <$> c = console_style <$> debug_console s.
Proof.
  open_app s. unfold select_debug. cbv zeta.
  destruct changed; style_calls; fields; eexists; (split; [reflexivity | congruence]).
Qed.

Lemma refresh_debug_console_style (changed : bool) (s : App) :
  exists c dk,
    refresh_debug_console changed s = with_debug_dock dk (with_debug_console c s) /\
    (forall x, c = Some x ->
               console_style x = if py_eq_str (theme_mode s) "Dark"
                                 then dark_console_style else light_console_style) /\
    (changed = true -> show_debug s = true -> c <> None /\ dk = Some true) /\
    (changed = true -> show_debug s = false ->
     dk = (fun _ => false) <$> debug_dock s /\ (c = None <-> debug_console s = None)) /\
    (changed = false -> dk = debug_dock s /\ (c = None <-> debug_console s = None)).
Proof.
  open_app s. unfold refresh_debug_console. cbv zeta. cbn [show_debug debug_dock].
  destruct changed, sd, dd as [v|];
    repeat match goal with
      | |- context [_init_debug_console ?x] => style_with (_init_debug_console_style x)
      end;
    style_calls; fields;
    destruct (py_eq_str tm "Dark"); style_calls; fields;
    eexists _, _; (split; [reflexivity|]);
    looks; repeat split; intros; simplify_eq; try congruence.
Qed.

Ltac style_block t :=
  match t with
  | context [log_debug ?m ?s] =>
      no_blocks m; no_blocks s; style_with (log_debug_style m s)
  | context [style_console ?m ?s] =>
      no_blocks s; style_with (style_console_style m s)
  | context [_init_debug_console ?s] =>
      no_blocks s; style_with (_init_debug_console_style s)
  | context [set_always_on_top ?b ?s] =>
      no_blocks b; no_blocks s; style_with (set_always_on_top_style b s)
  | context [log_loaded ?s] => no_blocks s; style_with (log_loaded_style s)
  | context [start_debug_console ?s] =>
      no_blocks s; style_with (start_debug_console_style s)
  | context [select_theme ?d ?s] => no_blocks s; style_with (select_theme_style d s)
  | context [select_font ?d ?s] => no_blocks s; style_with (select_font_style d s)
  | context [select_always_on_top ?d ?s] =>
      no_blocks s; style_with (select_always_on_top_style d s)
  | context [select_debug ?d ?b ?s] =>
      no_blocks s; style_with (select_debug_style d b s)
  | context [refresh_debug_console ?b ?s] =>
      no_blocks s; style_with (refresh_debug_console_style b s)
  end.

(** Replace every call and block, innermost first, by its field updates,
    keeping what is known of the console. *)
Ltac style_all :=
  repeat match goal with
    | H : ?T |- _ => style_block T
    | |- ?G => style_block G
    end.


Lemma apply_font_console (s s' : App) :
  apply_font s = Ok s' ->
  console_style <$> debug_console s' = console_style <$> debug_console s.
Proof.
  unfold apply_font. intros H.
  destruct (font_name s) as [| | |fam|] eqn:Ef; try discriminate.
  repeat inv_step. style_all. open_app s. fields. congruence.
Qed.

Lemma load_window_console (st : QSettings) (s s' : App) :
  load_window st s = Ok s' ->
  console_style <$> debug_console s' = console_style <$> debug_console s.
Proof.
  unfold load_window. cbv zeta. intros H.
  repeat inv_step; style_all; open_app s; fields; congruence.
Qed.

Lemma load_settings_console (s0 s : App) (st : QSettings) :
  load_settings s0 st = Ok s ->
  console_style <$> debug_console s = console_style <$> debug_console s0.
Proof.
  unfold load_settings. cbv zeta. intros H. inv_step. inv_step.
  apply load_window_console in H. style_all. open_app s0. fields. congruence.
Qed.

Lemma open_settings_console (placed : Rect) (s s' : App) (d : Dialog) :
  open_settings placed s = Ok (d, s') ->
  console_style <$> debug_console s' = console_style <$> debug_console s.
Proof.
  unfold open_settings. intros H. inv_step.
  destruct (py_eq_str (theme_mode s) "Dark");
    [|destruct (py_eq_str (theme_mode s) "Light")];
    repeat inv_step; try reflexivity.
  style_all. open_app s. fields. congruence.
Qed.

(** ** What Save leaves, field by field *)

Record dialog_applied (d : Dialog) (s s' : App) : Prop := {
  da_theme_mode :
    theme_mode s' = VStr (if Z.eqb (checked_id d) 2 then "Light" else "Dark");
  da_style_sheet : style_sheet s' = window_style_of (theme_mode s');
  da_text_area :
    exists ta,
      text_area s = Some ta /\
      text_area s'
      = Some {| plain_text := plain_text ta;
                text_font := Some {| family := font_combo d;
                                     point_size := size_spin d;
                                     weight := currentData (weight_combo d) |} |};
  da_stays_on_top : stays_on_top s = always_on_top s -> stays_on_top s' = aot_checkbox d;
  da_shown : shown s = true -> shown s' = true;
  da_console_style :
    forall c, debug_console s' = Some c ->
              console_style c = console_style_of (theme_mode s');
  da_dock :
    (show_debug s = true <-> debug_dock s = Some true) ->
    (debug_console s = None <-> debug_dock s = None) ->
    (debug_checkbox d = true <-> debug_dock s' = Some true) /\
    (debug_console s' = None <-> debug_dock s' = None)
}.

Lemma save_settings_applied (n : nat) (d : Dialog) (s s' : App) (st st' : QSettings) :
  save_settings (S (S n)) d s st = Ok (s', st') -> dialog_applied d s s'.
Proof.
  intros H. cbv beta delta [save_settings] in H. cbv zeta in H.
  style_all. inv_step.
  match type of E with
  | apply_theme _ None ?x = _ =>
      destruct (apply_theme_settles n None x) as (c' & k & Heq & Lt);
      rewrite Heq in E; clear Heq
  end.
  inv_step. inv_step.
  pose proof (apply_font_console _ _ E) as Lf.
  apply apply_font_Ok in E as (fam & ed & cf & Hf & Hfs & Hfw & Hta & ->).
  style_all. inv_step.
  apply close_event_Ok in H as [-> H].
  unfold requested in *. open_app s. fields.
  injection Hf as <-.
  destruct L1 as (L1 & Ls & Lh). destruct L3 as (Lc & Lon & Loff & Lsame).
  assert (Ht : settled (VStr (if Z.eqb (checked_id d) 2 then "Light" else "Dark"))
               = VStr (if Z.eqb (checked_id d) 2 then "Light" else "Dark")).
  { destruct (Z.eqb (checked_id d) 2); reflexivity. }
  rewrite Ht in *. clear H E.
  constructor; fields_goal.
  - reflexivity.
  - reflexivity.
  - exists ed. split; [assumption | reflexivity].
  - exact Ls.
  - exact Lh.
  - intros x ->. destruct c5 as [y|]; [|discriminate L4].
    injection L4 as ->. rewrite (Lc y eq_refl).
    destruct (Z.eqb (checked_id d) 2); reflexivity.
  - clear Lc Ls Lh Ht. intros Hv Hc.
    destruct (debug_checkbox d), sd; cbn [negb eqb] in *;
      destruct dd as [[|]|]; looks;
      intuition (try congruence; try discriminate).
Qed.

(** ** What holds of a running program, besides [running] *)

(** The window flag and the style sheets agree with the settings, the editor
    has the configured font, and the dock of the debug console is there with
    the console and visible when [show_debug] is set. *)
Record coherent (s : App) : Prop := {
  co_stays_on_top : stays_on_top s = always_on_top s;
  co_shown : shown s = true;
  co_style_sheet : style_sheet s = window_style_of (theme_mode s);
  co_console_style :
    forall c, debug_console s = Some c ->
              console_style c = console_style_of (theme_mode s);
  co_text_font :
    exists f w ta,
      font_name s = VStr f /\ font_weight s = Some w /\ text_area s = Some ta /\
      text_font ta = Some {| family := f; point_size := font_size s; weight := w |};
  co_dock_visible : show_debug s = true <-> debug_dock s = Some true;
  co_dock_console : debug_console s = None <-> debug_dock s = None
}.

Lemma window_style_of_settled (v : Value) :
  window_style_of (settled v) = window_style_of v.
Proof. unfold window_style_of, settled. destruct (py_eq_str v "Light"); reflexivity. Qed.

Lemma console_style_of_settled (v : Value) :
  console_style_of (settled v) = console_style_of v.
Proof. unfold console_style_of, settled. destruct (py_eq_str v "Light"); reflexivity. Qed.

(** The console [__init__] leaves: one only if [show_debug] was stored as
    true, styled for the theme, in a visible dock. *)
Lemma init_console (n : nat) (st : QSettings) (s : App) :
  __init__ (S (S n)) st = Ok s ->
  (forall c, debug_console s = Some c ->
             console_style c = console_style_of (theme_mode s)) /\
  (show_debug s = true -> debug_dock s = Some true /\ debug_console s <> None) /\
  (show_debug s = false -> debug_dock s = None /\ debug_console s = None).
Proof.
  intros H. cbv beta delta [__init__] in H. inv_step.
  pose proof (load_settings_console _ _ _ E) as L0.
  apply load_settings_Ok in E as (size & w & g & l & c & Hsize & Hw & Hg & Hl & Hdg & ->).
  cbv zeta in H. style_all. inv_step.
  match type of E with
  | apply_theme _ None ?x = _ =>
      destruct (apply_theme_settles n None x) as (c' & k & Heq & Lt);
      rewrite Heq in E; clear Heq
  end.
  inv_step. inv_step.
  pose proof (apply_font_console _ _ E) as Lf.
  apply apply_font_Ok in E as (fam & ed & cf & Hf & Hfs & Hfw & Hta & ->).
  inv_step.
  apply setPlainText_Ok in E as (t & ta' & Ht & Hta' & ->).
  inv_step. style_all. unfold requested in *. fields.
  rewrite console_style_of_settled. clear Hta Hta' Hfw Hf Ht.
  destruct L1 as [Lon Loff].
  destruct (py_eq_str (value st "show_debug" (VStr "false")) "true").
  - destruct (Lon eq_refl) as (-> & x & -> & Hx). clear Lon Loff.
    looks. repeat split; intros; simplify_eq; congruence.
  - destruct (Loff eq_refl) as (-> & ->). clear Lon Loff.
    looks. repeat split; intros; simplify_eq; congruence.
Qed.

Lemma init_coherent (n : nat) (st : QSettings) (s : App) :
  __init__ (S (S n)) st = Ok s -> coherent s.
Proof.
  intros H. destruct (init_console n st s H) as (Hc & Hon & Hoff).
  destruct (init_Ok n st s H) as (f & size & w & t & _ & St).
  constructor.
  - apply St.
  - apply St.
  - rewrite (st_style_sheet _ _ _ _ _ _ St), (st_theme_mode _ _ _ _ _ _ St).
    symmetry. apply window_style_of_settled.
  - exact Hc.
  - eexists f, w, _. split; [apply St|]. split; [apply St|]. split; [apply St|].
    rewrite (st_font_size _ _ _ _ _ _ St). reflexivity.
  - destruct (show_debug s); split; intros; try discriminate; try reflexivity.
    + apply Hon; reflexivity.
    + destruct (Hoff eq_refl) as [E _]. congruence.
  - destruct (show_debug s).
    + destruct (Hon eq_refl) as [-> E]. split; intros; [contradiction | discriminate].
    + destruct (Hoff eq_refl) as [-> ->]. tauto.
Qed.

Lemma save_settings_coherent (n : nat) (d : Dialog) (s s' : App) (st st' : QSettings) :
  save_settings (S (S n)) d s st = Ok (s', st') ->
  stays_on_top s = always_on_top s -> shown s = true ->
  (show_debug s = true <-> debug_dock s = Some true) ->
  (debug_console s = None <-> debug_dock s = None) ->
  coherent s'.
Proof.
  intros H Hf Hs Hv Hc.
  pose proof (save_settings_applied _ _ _ _ _ _ H) as A.
  apply save_settings_Ok in H as D.
  destruct (da_dock _ _ _ A Hv Hc) as [Hv' Hc'].
  constructor.
  - rewrite (da_stays_on_top _ _ _ A Hf). symmetry. apply D.
  - apply A, Hs.
  - apply A.
  - apply A.
  - destruct (da_text_area _ _ _ A) as (ta & _ & Hta).
    eexists _, _, _. split; [apply D|]. split; [apply D|]. split; [exact Hta|].
    cbn [text_font]. rewrite (ds_font_size _ _ _ _ D). reflexivity.
  - rewrite (ds_show_debug _ _ _ _ D). exact Hv'.
  - exact Hc'.
Qed.

Lemma handle_coherent (n : nat) (e : Event) (s s' : App) (st st' : QSettings) :
  handle (S (S n)) e s st = Ok (s', st') -> coherent s -> coherent s'.
Proof.
  destruct e as [t|r|placed edits|placed edits| | |]; cbn [handle]; intros H C.
  - inv_step. inv_step. destruct C as [C1 C2 C3 C4 (f & w & ed & Hf & Hw & Hta & Hfont) C6 C7].
    apply attr_Ok in E. assert (a = ed) by congruence. subst a.
    open_app s. fields. constructor; fields_goal; try assumption.
    exists f, w, {| plain_text := t; text_font := text_font ed |}. auto.
  - inv_step. destruct C. open_app s. fields. constructor; fields_goal; assumption.
  - inv_step. pose proof (open_settings_console _ _ _ _ E) as L.
    apply open_settings_Ok in E as [_ [c ->]].
    unfold click_save in H. inv_step.
    apply save_settings_coherent in E.
    + apply save_settings_coherent in H; destruct E; open_app a; assumption.
    + destruct C. open_app s. assumption.
    + destruct C. open_app s. assumption.
    + destruct C. open_app s. assumption.
    + destruct C as [_ _ _ _ _ _ C7]. open_app s. fields. looks; intuition congruence.
  - inv_step. pose proof (open_settings_console _ _ _ _ E) as L.
    apply open_settings_Ok in E as [_ [c ->]].
    apply close_event_Ok in H as [-> _].
    destruct C as [C1 C2 C3 C4 C5 C6 C7]. open_app s. fields.
    constructor; fields_goal; try assumption.
    + intros x ->. destruct dc as [y|]; [|discriminate L].
      injection L as ->. apply C4. reflexivity.
    + looks; intuition congruence.
  - destruct (debug_dock s) as [[|]|] eqn:Ed.
    + unfold handle_debug_console_close in H. cbv zeta in H. inv_step. inv_step.
      unfold dock_closed. cbn [debug_dock with_show_debug]. rewrite Ed.
      destruct C as [C1 C2 C3 C4 C5 C6 C7]. open_app s. fields.
      constructor; fields_goal; try assumption.
      * split; discriminate.
      * subst dd. split; [intros Hn; apply C7 in Hn; discriminate | discriminate].
    + inv_step. exact C.
    + inv_step. exact C.
  - apply bind_Ok in H as ([s1 st1] & Hc & H). cbv beta iota in H.
    apply bind_Ok in H as (s2 & Hi & H). injection H as <- <-.
    exact (init_coherent _ _ _ Hi).
  - apply bind_Ok in H as (s2 & Hi & H). injection H as <- <-.
    exact (init_coherent _ _ _ Hi).
Qed.

Lemma session_coherent (n : nat) (st : QSettings) (events : list Event)
      (s' : App) (st' : QSettings) :
  session (S (S n)) st events = Ok (s', st') -> coherent s'.
Proof.
  unfold session. intros H. inv_step.
  refine (run_invariant (fun s _ => coherent s) (S (S n)) _ events _ _ _ _
            (init_coherent _ _ _ E) H).
  intros e s0 st0 s1 st1 C Hh. exact (handle_coherent n _ _ _ _ _ Hh C).
Qed.

(** ** Invariants of a session *)

(** A store left by an earlier run with the Light theme, the debug console
    on and the window kept on top, and a run of events to go through. *)
Definition light_store : QSettings :=
  {| format := IniFormat;
     entries := <["theme_mode" := VStr "Light"]>
                  (<["show_debug" := VStr "true"]>
                     (<["always_on_top" := VStr "true"]>
                        {["font_size" := VStr "12"]})) |}.

Definition busy_day : list Event :=
  [EditText "notes";
   SettingsSave {| rx := 10; ry := 10; rw := 500; rh := 400 |}
     [ClickDark; CheckAlwaysOnTop false; PickFont "Courier"; SpinTo 100; PickWeight 6];
   CloseDebugConsole;
   MoveWindow {| rx := 5; ry := 5; rw := 640; rh := 480 |};
   SettingsClose {| rx := 10; ry := 10; rw := 500; rh := 400 |} [ClickLight];
   Relaunch;
   SettingsSave {| rx := 10; ry := 10; rw := 500; rh := 400 |} [CheckDebug true]].

(** X1.  The window flag follows the setting: at the end of a start of the
    program and of any events after it, the window stays on top exactly when
    [always_on_top] is set, and it is shown. *)
Theorem window_flag_follows_setting (n : nat) (st : QSettings) (events : list Event)
        (s' : App) (st' : QSettings) :
  session (S (S n)) st events = Ok (s', st') ->
  stays_on_top s' = always_on_top s' /\ shown s' = true.
Proof.
  intros H. destruct (session_coherent n st events s' st' H). auto.
Qed.

Lemma window_flag_follows_setting_witness :
  exists s' st',
    session 2 light_store busy_day = Ok (s', st') /\
    stays_on_top s' = always_on_top s' /\ shown s' = true.
Proof.
  destruct (session 2 light_store busy_day) as [[s' st']|e] eqn:E;
    [|vm_compute in E; discriminate E].
  exists s', st'. split; [reflexivity|].
  exact (window_flag_follows_setting 0 light_store busy_day s' st' E).
Defined.

(** X2.  The style sheets follow the theme: at the end of a start and of any
    events after it, the window carries the Dark sheet under the Dark theme
    and the Light sheet under the Light theme, and so does the debug console
    if there is one. *)
Theorem style_sheets_follow_theme (n : nat) (st : QSettings) (events : list Event)
        (s' : App) (st' : QSettings) :
  session (S (S n)) st events = Ok (s', st') ->
  (theme_mode s' = VStr "Dark" /\ style_sheet s' = dark_window_style /\
   forall c, debug_console s' = Some c -> console_style c = dark_console_style) \/
  (theme_mode s' = VStr "Light" /\ style_sheet s' = light_window_style /\
   forall c, debug_console s' = Some c -> console_style c = light_console_style).
Proof.
  intros H. destruct (session_coherent n st events s' st' H) as [_ _ Hs Hc _ _ _].
  destruct (run_theme_mode _ (session_running n st events s' st' H)) as [E|E];
    rewrite E in *; [left | right]; auto.
Qed.

Lemma style_sheets_follow_theme_witness :
  exists s' st',
    session 2 light_store busy_day = Ok (s', st') /\
    theme_mode s' = VStr "Dark" /\ style_sheet s' = dark_window_style /\
    console_style <$> debug_console s' = Some dark_console_style.
Proof.
  destruct (session 2 light_store busy_day) as [[s' st']|e] eqn:E;
    [|vm_compute in E; discriminate E].
  exists s', st'. split; [reflexivity|].
  destruct (style_sheets_follow_theme 0 light_store busy_day s' st' E)
    as [(Ht & Hs & Hc) | (Ht & _)].
  - split; [exact Ht|]. split; [exact Hs|].
    vm_compute in E. injection E as <- _. reflexivity.
  - vm_compute in E. injection E as <- _. discriminate Ht.
Defined.

(** X3.  The editor has the configured font: at the end of a start and of any
    events after it, the font of the text area is the family [font_name] at
    size [font_size] and weight [font_weight], when the size is positive and
    the weight is within 1 to 1000, the values a [QFont] keeps as they are
    given. *)
Theorem editor_font_follows_settings (n : nat) (st : QSettings) (events : list Event)
        (s' : App) (st' : QSettings) :
  session (S (S n)) st events = Ok (s', st') ->
  0 < font_size s' ->
  (forall w, font_weight s' = Some w -> 1 <= w <= 1000) ->
  exists f w ta,
    font_name s' = VStr f /\ font_weight s' = Some w /\ 1 <= w <= 1000 /\
    text_area s' = Some ta /\
    text_font ta = Some {| family := f; point_size := font_size s'; weight := w |}.
Proof.
  intros H _ Hw.
  destruct (session_coherent n st events s' st' H)
    as [_ _ _ _ (f & w & ed & Hf & Hfw & Hta & Hfont) _ _].
  exists f, w, ed. split; [exact Hf|]. split; [exact Hfw|].
  split; [exact (Hw w Hfw)|]. split; [exact Hta | exact Hfont].
Qed.

Lemma editor_font_follows_settings_witness :
  exists s' st',
    session 2 light_store busy_day = Ok (s', st') /\
    0 < font_size s' /\
    exists f w ta,
      font_name s' = VStr f /\ font_weight s' = Some w /\ 1 <= w <= 1000 /\
      text_area s' = Some ta /\
      text_font ta = Some {| family := f; point_size := font_size s'; weight := w |}.
Proof.
  destruct (session 2 light_store busy_day) as [[s' st']|e] eqn:E;
    [|vm_compute in E; discriminate E].
  exists s', st'. split; [reflexivity|].
  assert (Hs : font_size s' = 72 /\ font_weight s' = Some 700).
  { vm_compute in E. injection E as <- _. split; reflexivity. }
  destruct Hs as [Hs Hw].
  split; [rewrite Hs; lia|].
  apply (editor_font_follows_settings 0 light_store busy_day s' st' E).
  - rewrite Hs. lia.
  - intros w Hw'. rewrite Hw in Hw'. injection Hw' as <-. lia.
Defined.

(** The dock of the debug console is visible exactly when [show_debug] is
    set, and there is a console exactly when there is a dock. *)
Definition dock_in_step (s : App) : Prop :=
  (show_debug s = true <-> debug_dock s = Some true) /\
  (debug_console s = None <-> debug_dock s = None).

(** X4.  The handlers keep the dock of the debug console in step with the
    setting.  [__init__] leaves the dock visible exactly when [show_debug] is
    set, and a console exactly when there is a dock; a click on Save that
    finds them so leaves them so, with [show_debug] as the check box says;
    the close handler of the dock leaves [show_debug] cleared and the dock
    hidden. *)
Theorem debug_dock_follows_setting (n : nat) :
  (forall st s, __init__ (S (S n)) st = Ok s -> dock_in_step s) /\
  (forall d s st s' st',
     click_save (S (S n)) d s st = Ok (s', st') -> dock_in_step s ->
     dock_in_step s' /\ show_debug s' = debug_checkbox d) /\
  (forall s st s' st',
     handle_debug_console_close s st = Ok (s', st') ->
     (debug_console s = None <-> debug_dock s = None) ->
     dock_in_step s' /\ show_debug s' = false).
Proof.
  split; [|split].
  - intros st s H. destruct (init_coherent n st s H) as [_ _ _ _ _ Hv Hc].
    split; assumption.
  - intros d s st s' st' H [Hv Hc]. unfold click_save in H.
    apply bind_Ok in H as ([s1 st1] & E1 & H). cbv beta iota zeta in H.
    pose proof (save_settings_Ok _ _ _ _ _ _ E1) as D1.
    pose proof (save_settings_applied _ _ _ _ _ _ E1) as A1.
    pose proof (save_settings_Ok _ _ _ _ _ _ H) as D2.
    pose proof (save_settings_applied _ _ _ _ _ _ H) as A2.
    destruct (da_dock _ _ _ A1 Hv Hc) as [Hv1 Hc1].
    rewrite <- (ds_show_debug _ _ _ _ D1) in Hv1.
    assert (Hv1' : show_debug
                     (with_settings_dialog_geometry
                        (Some (VBytes (GeometryBlob (dialog_geometry d)))) s1) = true <->
                   debug_dock
                     (with_settings_dialog_geometry
                        (Some (VBytes (GeometryBlob (dialog_geometry d)))) s1)
                   = Some true)
      by (clear - Hv1; open_app s1; exact Hv1).
    assert (Hc1' : debug_console
                     (with_settings_dialog_geometry
                        (Some (VBytes (GeometryBlob (dialog_geometry d)))) s1) = None <->
                   debug_dock
                     (with_settings_dialog_geometry
                        (Some (VBytes (GeometryBlob (dialog_geometry d)))) s1) = None)
      by (clear - Hc1; open_app s1; exact Hc1).
    destruct (da_dock _ _ _ A2 Hv1' Hc1') as [Hv2 Hc2].
    rewrite <- (ds_show_debug _ _ _ _ D2) in Hv2.
    split; [split; assumption | apply D2].
  - intros s st s' st' H Hc. unfold handle_debug_console_close in H. cbv zeta in H.
    apply bind_Ok in H as (st2 & _ & H). injection H as <- <-.
    unfold dock_closed, dock_in_step. cbn [debug_dock with_show_debug].
    clear - Hc. open_app s. cbn [debug_console debug_dock] in Hc.
    destruct dd as [v|]; fields_goal.
    + split; [split; [split; discriminate|]|reflexivity].
      split; [intros E; apply Hc in E; discriminate E | discriminate].
    + split; [split; [split; discriminate | exact Hc] | reflexivity].
Qed.

Lemma drafting_in_step : dock_in_step drafting.
Proof. split; split; (reflexivity || discriminate). Qed.

Lemma debug_dock_follows_setting_witness :
  dock_in_step drafting /\
  (exists s, __init__ 2 light_store = Ok s /\ dock_in_step s) /\
  exists s' st',
    click_save 2
      {| dialog_geometry := {| rx := 40; ry := 40; rw := 500; rh := 400 |};
         checked_id := 2; aot_checkbox := false; font_combo := "Courier";
         size_spin := 24; weight_combo := 6; debug_checkbox := true |}
      drafting (empty_store IniFormat) = Ok (s', st') /\
    dock_in_step s' /\ show_debug s' = true.
Proof.
  destruct (debug_dock_follows_setting 0) as (Hi & Hs & _).
  split; [exact drafting_in_step|]. split.
  - destruct (__init__ 2 light_store) as [s|e] eqn:E; [|vm_compute in E; discriminate E].
    exists s. split; [reflexivity | exact (Hi light_store s E)].
  - destruct (click_save 2
                {| dialog_geometry := {| rx := 40; ry := 40; rw := 500; rh := 400 |};
                   checked_id := 2; aot_checkbox := false; font_combo := "Courier";
                   size_spin := 24; weight_combo := 6; debug_checkbox := true |}
                drafting (empty_store IniFormat)) as [[s' st']|e] eqn:E;
      [|vm_compute in E; discriminate E].
    exists s', st'. split; [reflexivity|].
    exact (Hs _ drafting _ s' st' E drafting_in_step).
Defined.

(** ** The store under a save *)

(** The keys [save_settings_to_file] writes. *)
Definition settings_keys : list string :=
  ["font_name"; "font_size"; "font_weight"; "theme_mode"; "text_content";
   "window_geometry"; "window_state"; "show_debug"; "always_on_top";
   "settings_dialog_geometry"].

Lemma save_settings_to_file_other (s : App) (st st' : QSettings) (key : string) :
  save_settings_to_file s st = Ok st' ->
  key ∉ settings_keys -> entries st' !! key = entries st !! key.
Proof.
  unfold save_settings_to_file, settings_keys. intros H Hk.
  rewrite !not_elem_of_cons in Hk.
  destruct Hk as (K1 & K2 & K3 & K4 & K5 & K6 & K7 & K8 & K9 & K10 & _).
  apply bind_Ok in H as (w & _ & H). apply bind_Ok in H as (ed & _ & H).
  cbv beta zeta in H. injection H as <-.
  assert (F : forall k : string, k <> key -> String.eqb k key = false).
  { intros k Hne. apply String.eqb_neq. exact Hne. }
  destruct (settings_dialog_geometry s);
    rewrite !lookup_setValue, !F by congruence; reflexivity.
Qed.


Definition foreign_store : QSettings :=
  {| format := RegistryFormat;
     entries := <["recent_file" := VStr "notes.txt"]> {["font_size" := VInt 30]} |}.


Lemma QSettings_eq (st1 st2 : QSettings) :
  format st1 = format st2 ->
  (forall key, entries st1 !! key = entries st2 !! key) -> st1 = st2.
Proof.
  destruct st1, st2. cbn. intros -> H. f_equal. apply map_eq. exact H.
Qed.

(** X6.  Saving is idempotent: a second save of the same object leaves the store
    the first one wrote. *)
Theorem save_settings_to_file_idempotent (s : App) (st st1 : QSettings) :
  save_settings_to_file s st = Ok st1 -> save_settings_to_file s st1 = Ok st1.
Proof.
  intros H. pose proof H as H0.
  apply save_settings_to_file_Ok in H as (w & ta & Hw & Hta & Sv).
  destruct (save_settings_to_file_saved s st1 w ta Hw Hta) as (st2 & H2 & Sv2).
  rewrite H2. f_equal. apply QSettings_eq; [apply Sv2|].
  intros key. destruct (decide (key ∈ settings_keys)) as [Hin|Hout].
  - destruct Sv, Sv2. unfold settings_keys in Hin. rewrite !elem_of_cons in Hin.
    destruct Hin as [->|[->|[->|[->|[->|[->|[->|[->|[->|[->|Hin]]]]]]]]]];
      try congruence.
    + destruct (settings_dialog_geometry s); congruence.
    + apply elem_of_nil in Hin. contradiction.
  - apply (save_settings_to_file_other _ _ _ _ H2 Hout).
Qed.

Lemma save_settings_to_file_idempotent_witness :
  exists st1,
    save_settings_to_file drafting foreign_store = Ok st1 /\
    save_settings_to_file drafting st1 = Ok st1.
Proof.
  destruct (save_settings_to_file drafting foreign_store) as [st1|e] eqn:E;
    [|vm_compute in E; discriminate E].
  exists st1. split; [reflexivity|].
  exact (save_settings_to_file_idempotent drafting foreign_store st1 E).
Defined.

(** ** The window across a restart *)

Lemma load_window_blobs (st : QSettings) (s s' : App) :
  load_window st s = Ok s' ->
  (forall r, value st "window_geometry" VNone = VBytes (GeometryBlob r) -> geometry s' = r) /\
  (forall k, value st "window_state" VNone = VBytes (StateBlob k) -> layout s' = k).
Proof.
  unfold load_window. cbv zeta. intros H.
  split; intros x Hx; rewrite Hx in H; cbn [truthy] in H;
    repeat inv_step; frame_all; open_app s; fields;
    cbn [restoreGeometry restoreState] in *; congruence.
Qed.

Lemma load_settings_blobs (s0 s : App) (st : QSettings) :
  load_settings s0 st = Ok s ->
  (forall r, value st "window_geometry" VNone = VBytes (GeometryBlob r) -> geometry s = r) /\
  (forall k, value st "window_state" VNone = VBytes (StateBlob k) -> layout s = k).
Proof.
  unfold load_settings. cbv zeta. intros H. inv_step. inv_step.
  exact (load_window_blobs _ _ _ H).
Qed.

(** [__init__] puts the window where the stored geometry says and lays it
    out as the stored state says. *)
Lemma init_window (n : nat) (st : QSettings) (s : App) :
  __init__ (S (S n)) st = Ok s ->
  (forall r, value st "window_geometry" VNone = VBytes (GeometryBlob r) -> geometry s = r) /\
  (forall k, value st "window_state" VNone = VBytes (StateBlob k) -> layout s = k).
Proof.
  intros H. cbv beta delta [__init__] in H. inv_step.
  pose proof (load_settings_blobs _ _ _ E) as B.
  apply load_settings_Ok in E as (size & w & g0 & l0 & c & _ & _ & _ & _ & _ & ->).
  cbv zeta in H. frame_all. inv_step.
  match type of E with
  | apply_theme _ None ?x = _ =>
      destruct (apply_theme_settles n None x) as (c' & k & Heq & _);
      rewrite Heq in E; clear Heq
  end.
  inv_step. inv_step.
  apply apply_font_Ok in E as (fam & ed & cf & _ & _ & _ & _ & ->).
  inv_step.
  apply setPlainText_Ok in E as (t & ed' & _ & _ & ->).
  inv_step. frame_all. fields_goal. destruct B as [B1 B2].
  split; intros x Hx; [exact (B1 x Hx) | exact (B2 x Hx)].
Qed.

Lemma closeEvent_Ok (s s1 : App) (st st1 : QSettings) :
  closeEvent s st = Ok (s1, st1) ->
  exists ed,
    text_area s = Some ed /\
    s1 = with_text_content (VStr (plain_text ed)) s /\
    save_settings_to_file s1 st = Ok st1.
Proof.
  unfold closeEvent. intros H.
  apply bind_Ok in H as (ed & Hta & H). cbv beta zeta in H.
  apply bind_Ok in H as (st2 & Hsv & H). injection H as <- <-.
  apply attr_Ok in Hta. eauto.
Qed.

Lemma closeEvent_total (s : App) (st : QSettings) :
  running s -> exists s1 st1, closeEvent s st = Ok (s1, st1).
Proof.
  intros [_ _ (w & Hw & _) _ Hta]. unfold closeEvent.
  destruct (text_area s) as [ed|] eqn:Eta; [|congruence].
  cbn [attr]. rewrite mbind_Ok. cbv beta zeta.
  destruct (save_settings_to_file_saved (with_text_content (VStr (plain_text ed)) s)
              st w ed) as (st1 & -> & _).
  - open_app s. exact Hw.
  - open_app s. exact Eta.
  - rewrite mbind_Ok. eauto.
Qed.

(** A store saved from a running program starts the program again. *)
Lemma saved_restarts (n : nat) (s : App) (w : Z) (ed : TextEdit) (st st' : QSettings) :
  running s -> saved s w ed st st' -> font_weight s = Some w ->
  exists s', __init__ (S (S n)) st' = Ok s'.
Proof.
  intros [[f Hf] Hs (w' & Hw' & Hwf) _ _] Sv Hw.
  assert (w' = w) by congruence. subst w'.
  destruct (init_total n st' f (font_size s) w (plain_text ed)) as (s' & H & _);
    [|eauto].
  exact (saved_loadable _ _ _ _ _ _ Sv Hf Hs Hwf).
Qed.

(** X7.  The window comes back where it was: closing the main window of a
    running program and starting the program again succeeds, and gives the
    window the geometry it had and the editor its text. *)
Theorem restart_restores_window (n : nat) (s : App) (st : QSettings) :
  running s ->
  exists s1 st1 s',
    closeEvent s st = Ok (s1, st1) /\
    __init__ (S (S n)) st1 = Ok s' /\
    geometry s' = geometry s /\
    plain_text <$> text_area s' = plain_text <$> text_area s.
Proof.
  intros R. destruct (closeEvent_total s st R) as (s1 & st1 & Hc).
  exists s1, st1. pose proof Hc as Hc0.
  apply closeEvent_Ok in Hc as (ed & Hta & -> & Hsv).
  apply save_settings_to_file_Ok in Hsv as (w & ed' & Hw & Hta' & Sv).
  assert (R1 : running (with_text_content (VStr (plain_text ed)) s)).
  { destruct R. open_app s. constructor; assumption. }
  destruct (saved_restarts n _ _ _ _ _ R1 Sv Hw) as (s' & Hi).
  exists s'. split; [exact Hc0|]. split; [exact Hi|].
  destruct (init_window n st1 s' Hi) as [Hg _].
  destruct (init_Ok n st1 s' Hi) as (f & size & w0 & t & L & St).
  unfold value in Hg.
  rewrite (sv_window_geometry _ _ _ _ _ Sv) in Hg.
  rewrite (Hg _ eq_refl).
  rewrite (st_text_area _ _ _ _ _ _ St), Hta.
  destruct L as [_ _ _ _ _ Lt _ _]. unfold value in Lt.
  rewrite (sv_text_content _ _ _ _ _ Sv) in Lt. cbn in Lt. injection Lt as <-.
  assert (ed' = ed) as ->.
  { clear - Hta Hta'. open_app s. cbn [text_area with_text_content] in *. congruence. }
  clear. open_app s. repeat split; reflexivity.
Qed.

(** The program with its draft, after the window has been moved and
    resized. *)
Definition drafting_moved : App :=
  with_geometry {| rx := 340; ry := 60; rw := 1024; rh := 700 |} drafting.

Lemma drafting_moved_running : running drafting_moved.
Proof.
  pose proof drafting_running as R. destruct R.
  unfold drafting_moved. constructor; assumption.
Qed.

Lemma restart_restores_window_witness :
  running drafting_moved /\
  exists s1 st1 s',
    closeEvent drafting_moved foreign_store = Ok (s1, st1) /\
    __init__ 2 st1 = Ok s' /\
    geometry s' = {| rx := 340; ry := 60; rw := 1024; rh := 700 |} /\
    plain_text <$> text_area s' = Some "draft".
Proof.
  split; [exact drafting_moved_running|].
  destruct (restart_restores_window 0 drafting_moved foreign_store drafting_moved_running)
    as (s1 & st1 & s' & Hc & Hi & Hg & Ht).
  exists s1, st1, s'. auto.
Defined.

(** ** The dialog's controls when it opens *)

Lemma open_settings_controls (placed : Rect) (s s' : App) (d : Dialog) :
  open_settings placed s = Ok (d, s') ->
  checked_id d = (if py_eq_str (theme_mode s) "Light" then 2 else 1) /\
  aot_checkbox d = always_on_top s /\
  font_name s = VStr (font_combo d) /\
  size_spin d = clamp 8 72 (font_size s) /\
  (exists w, font_weight s = Some w /\
             weight_combo d = default O (findData w weight_items O)) /\
  debug_checkbox d = show_debug s /\
  dialog_geometry d = match settings_dialog_geometry s with
                      | Some (VBytes (GeometryBlob r)) => r
                      | _ => placed
                      end.
Proof.
  unfold open_settings. intros H.
  apply bind_Ok in H as (r & Hr & H). cbv beta in H.
  assert (Hg : r = match settings_dialog_geometry s with
                   | Some (VBytes (GeometryBlob r)) => r
                   | _ => placed
                   end).
  { destruct (settings_dialog_geometry s) as [[| | | |[r0|k|b]]|];
      cbn in Hr; try destruct (negb _); try destruct b0; try destruct (negb _);
      cbn in Hr; congruence. }
  clear Hr.
  destruct (py_eq_str (theme_mode s) "Dark") eqn:ED;
    [apply py_eq_str_true in ED; rewrite ED in *; cbn [py_eq_str String.eqb Ascii.eqb Bool.eqb]
    |destruct (py_eq_str (theme_mode s) "Light")];
    apply bind_Ok in H as (fam & Hfam & H); cbv beta in H;
    apply bind_Ok in H as (size & Hsize & H); cbv beta in H;
    apply bind_Ok in H as (w & Hw & H); cbv beta in H;
    injection H as <- <-; cbn [checked_id aot_checkbox font_combo size_spin weight_combo
                               debug_checkbox dialog_geometry];
    frame_all; open_app s;
    cbn [font_name font_size font_weight always_on_top show_debug theme_mode
         settings_dialog_geometry with_debug_console] in *;
    apply c_int_Ok in Hsize as [-> _]; apply attr_Ok in Hw;
    (destruct fn; try discriminate Hfam; injection Hfam as ->);
    repeat split; try reflexivity; try assumption; eauto.
Qed.

Lemma currentData_findData (wt : QFont.Weight) :
  currentData (default O (findData (QFont.int wt) weight_items O)) = QFont.int wt.
Proof. destruct wt; reflexivity. Qed.

Lemma currentData_findData_none (w : Z) :
  (forall wt, w <> QFont.int wt) ->
  currentData (default O (findData w weight_items O)) = QFont.int QFont.Normal.
Proof.
  intros H. unfold weight_items. cbn [findData QFont.int].
  repeat match goal with
    | |- context [Z.eqb ?a w] =>
        destruct (Z.eqb_spec a w) as [E|_];
        [exfalso; subst w;
         first [apply (H QFont.Normal); reflexivity
               |apply (H QFont.Thin); reflexivity
               |apply (H QFont.ExtraLight); reflexivity
               |apply (H QFont.Light); reflexivity
               |apply (H QFont.Medium); reflexivity
               |apply (H QFont.DemiBold); reflexivity
               |apply (H QFont.Bold); reflexivity
               |apply (H QFont.ExtraBold); reflexivity
               |apply (H QFont.Black); reflexivity]|]
    end.
  reflexivity.
Qed.

(** ** What a click on Save leaves *)

Lemma click_save_Ok (n : nat) (d : Dialog) (s s' : App) (st st' : QSettings) :
  click_save (S (S n)) d s st = Ok (s', st') ->
  exists s0, dialog_saved d s0 s' st' /\ dialog_applied d s0 s' /\
             plain_text <$> text_area s0 = plain_text <$> text_area s.
Proof.
  unfold click_save. intros H. inv_step.
  pose proof (save_settings_Ok _ _ _ _ _ _ E) as D1.
  pose proof (save_settings_Ok _ _ _ _ _ _ H) as D.
  pose proof (save_settings_applied _ _ _ _ _ _ H) as A.
  eexists. split; [exact D|]. split; [exact A|].
  destruct (ds_text_area _ _ _ _ D1) as (ed & font & -> & Ha).
  clear - Ha. open_app a. cbn [text_area with_settings_dialog_geometry] in *.
  rewrite Ha. reflexivity.
Qed.

(** X8.  Save applies the dialog: after a click on Save the object holds what the
    controls show (Light if the second radio button is checked and Dark
    otherwise, the font family, the size of the spin box, the weight of the
    combo box, the two check boxes) and the geometry of the dialog, and the
    store holds the same settings. *)
Theorem save_applies_the_dialog (n : nat) (d : Dialog) (s s' : App) (st st' : QSettings) :
  click_save (S (S n)) d s st = Ok (s', st') ->
  ((checked_id d = 2 -> theme_mode s' = VStr "Light") /\
   (checked_id d <> 2 -> theme_mode s' = VStr "Dark") /\
   font_name s' = VStr (font_combo d) /\
   font_size s' = size_spin d /\
   font_weight s' = Some (currentData (weight_combo d)) /\
   always_on_top s' = aot_checkbox d /\
   show_debug s' = debug_checkbox d /\
   settings_dialog_geometry s' = Some (VBytes (GeometryBlob (dialog_geometry d)))) /\
  (entries st' !! "theme_mode" = Some (theme_mode s') /\
   entries st' !! "font_name" = Some (VStr (font_combo d)) /\
   py_int (value st' "font_size" (VInt 16)) = Ok (size_spin d) /\
   py_int (value st' "font_weight" (VInt (QFont.int QFont.Normal)))
   = Ok (currentData (weight_combo d)) /\
   entries st' !! "always_on_top"
   = Some (VStr (if aot_checkbox d then "true" else "false")) /\
   entries st' !! "show_debug"
   = Some (VStr (if debug_checkbox d then "true" else "false"))).
Proof.
  intros H. apply click_save_Ok in H as (s0 & D & A & _).
  destruct (ds_store _ _ _ _ D) as (st1 & Hsv).
  apply save_settings_to_file_Ok in Hsv as (w & ed & Hw & _ & Sv).
  rewrite (ds_font_weight _ _ _ _ D) in Hw. injection Hw as <-.
  pose proof (da_theme_mode _ _ _ A) as Ht. unfold value.
  split.
  - split; [intros E; rewrite Ht, E; reflexivity|].
    split; [intros E; rewrite Ht; apply Z.eqb_neq in E; rewrite E; reflexivity|].
    repeat split; apply D.
  - rewrite (sv_theme_mode _ _ _ _ _ Sv), (sv_font_name _ _ _ _ _ Sv),
      (sv_font_size _ _ _ _ _ Sv), (sv_font_weight _ _ _ _ _ Sv),
      (sv_always_on_top _ _ _ _ _ Sv), (sv_show_debug _ _ _ _ _ Sv).
    rewrite Ht, (ds_font_name _ _ _ _ D), (ds_font_size _ _ _ _ D),
      (ds_always_on_top _ _ _ _ D), (ds_show_debug _ _ _ _ D).
    cbn [default from_option id]. rewrite !py_int_to_storage.
    repeat split; reflexivity.
Qed.

(** The controls as the user left them before a click on Save. *)
Definition chosen : Dialog :=
  {| dialog_geometry := {| rx := 40; ry := 40; rw := 500; rh := 400 |};
     checked_id := 2; aot_checkbox := false; font_combo := "Courier";
     size_spin := 24; weight_combo := 6; debug_checkbox := true |}.

Lemma save_applies_the_dialog_witness :
  exists s' st',
    click_save 2 chosen drafting (empty_store IniFormat) = Ok (s', st') /\
    theme_mode s' = VStr "Light" /\ font_name s' = VStr "Courier" /\
    font_size s' = 24 /\ font_weight s' = Some 700 /\
    entries st' !! "show_debug" = Some (VStr "true").
Proof.
  destruct (click_save 2 chosen drafting (empty_store IniFormat)) as [[s' st']|e] eqn:E;
    [|vm_compute in E; discriminate E].
  exists s', st'. split; [reflexivity|].
  destruct (save_applies_the_dialog 0 chosen drafting s' _ st' E)
    as ((Ht & _ & Hf & Hs & Hw & _) & (_ & _ & _ & _ & _ & Hd)).
  split; [exact (Ht eq_refl)|]. auto.
Defined.

(** ** The preview of the dialog *)

(** Lines 589-594: the font shown in the preview pane, made from the three
    font controls. *)
Definition update_preview (d : Dialog) : Font :=
  {| family := font_combo d;
     point_size := size_spin d;
     weight := currentData (weight_combo d) |}.

(** X9.  The preview shows what Save applies: after a click on Save the font of
    the editor is the font the preview pane had, whatever the settings were
    before, and the text of the editor is what it was. *)
Theorem preview_is_what_save_applies (n : nat) (d : Dialog) (s s' : App)
        (st st' : QSettings) :
  click_save (S (S n)) d s st = Ok (s', st') ->
  text_font <$> text_area s' = Some (Some (update_preview d)) /\
  plain_text <$> text_area s' = plain_text <$> text_area s.
Proof.
  intros H. apply click_save_Ok in H as (s0 & _ & A & Hp).
  destruct (da_text_area _ _ _ A) as (ed & Hed & ->).
  rewrite <- Hp, Hed. split; reflexivity.
Qed.

Lemma preview_is_what_save_applies_witness :
  exists s' st',
    click_save 2 chosen drafting (empty_store IniFormat) = Ok (s', st') /\
    text_font <$> text_area s'
    = Some (Some {| family := "Courier"; point_size := 24; weight := 700 |}) /\
    plain_text <$> text_area s' = Some "draft".
Proof.
  destruct (click_save 2 chosen drafting (empty_store IniFormat)) as [[s' st']|e] eqn:E;
    [|vm_compute in E; discriminate E].
  exists s', st'. split; [reflexivity|].
  exact (preview_is_what_save_applies 0 chosen drafting s' _ st' E).
Defined.

(** ** Saving a dialog nobody touched *)

Lemma save_unedited (n : nat) (placed : Rect) (s s' : App) (st st' : QSettings) :
  handle (S (S n)) (SettingsSave placed []) s st = Ok (s', st') ->
  theme_mode s' = VStr (if py_eq_str (theme_mode s) "Light" then "Light" else "Dark") /\
  font_name s' = font_name s /\
  font_size s' = clamp 8 72 (font_size s) /\
  (exists w, font_weight s = Some w /\
             font_weight s'
             = Some (currentData (default O (findData w weight_items O)))) /\
  always_on_top s' = always_on_top s /\
  show_debug s' = show_debug s.
Proof.
  cbn [handle foldl]. intros H. apply bind_Ok in H as ([d s1] & Ho & H).
  cbv beta iota in H.
  apply open_settings_controls in Ho as (Hid & Haot & Hfn & Hsz & (w & Hw & Hwc) & Hdbg & _).
  apply click_save_Ok in H as (s0 & D & A & _).
  rewrite (da_theme_mode _ _ _ A), Hid.
  rewrite (ds_font_name _ _ _ _ D), (ds_font_size _ _ _ _ D), (ds_font_weight _ _ _ _ D),
    (ds_always_on_top _ _ _ _ D), (ds_show_debug _ _ _ _ D).
  split; [destruct (py_eq_str (theme_mode s) "Light"); reflexivity|].
  split; [symmetry; exact Hfn|]. split; [exact Hsz|].
  split; [exists w; rewrite Hwc; auto|]. auto.
Qed.

(** X10.  Opening the dialog and clicking Save without touching a control
    changes neither the theme, nor the font size, nor the font weight, nor
    the two flags, when the theme is one of the two, the font size is within
    the range of the spin box and the font weight is one of the nine the
    combo box offers.  The font family is left out: it becomes the family
    the font combo box shows. *)
Theorem save_without_edits_keeps_settings (n : nat) (placed : Rect) (s s' : App)
        (st st' : QSettings) (wt : QFont.Weight) :
  handle (S (S n)) (SettingsSave placed []) s st = Ok (s', st') ->
  theme_mode s = VStr "Dark" \/ theme_mode s = VStr "Light" ->
  8 <= font_size s <= 72 ->
  font_weight s = Some (QFont.int wt) ->
  theme_mode s' = theme_mode s /\
  font_size s' = font_size s /\ font_weight s' = font_weight s /\
  always_on_top s' = always_on_top s /\ show_debug s' = show_debug s.
Proof.
  intros H Ht Hs Hw.
  apply save_unedited in H as (Ht' & _ & Hs' & (w & Hw0 & Hw') & Ha & Hd).
  rewrite Hw in Hw0. injection Hw0 as <-. rewrite currentData_findData in Hw'.
  split; [destruct Ht as [E|E]; rewrite Ht', E; reflexivity|].
  split; [rewrite Hs'; unfold clamp; lia|].
  split; [congruence|]. auto.
Qed.

(** A running program with the Light theme, a bold font and its window kept
    on top. *)
Definition customised : App :=
  {| font_name := VStr "Arial"; font_size := 30; font_weight := Some 700;
     theme_mode := VStr "Light"; text_content := VStr "";
     show_debug := false; always_on_top := true;
     settings_dialog_geometry := Some VNone;
     debug_console := None; debug_dock := None;
     text_area := Some {| plain_text := "draft";
                          text_font := Some {| family := "Arial"; point_size := 30;
                                               weight := 700 |} |};
     style_sheet := light_window_style;
     geometry := {| rx := 100; ry := 100; rw := 800; rh := 600 |};
     layout := 0%N; stays_on_top := true; shown := true |}.

Lemma save_without_edits_keeps_settings_witness :
  exists s' st',
    handle 2 (SettingsSave {| rx := 0; ry := 0; rw := 500; rh := 400 |} [])
      customised (empty_store IniFormat) = Ok (s', st') /\
    theme_mode s' = VStr "Light" /\
    font_size s' = 30 /\ font_weight s' = Some 700 /\ always_on_top s' = true.
Proof.
  destruct (handle 2 (SettingsSave {| rx := 0; ry := 0; rw := 500; rh := 400 |} [])
              customised (empty_store IniFormat)) as [[s' st']|e] eqn:E;
    [|vm_compute in E; discriminate E].
  exists s', st'. split; [reflexivity|].
  destruct (save_without_edits_keeps_settings 0 _ customised s' _ st' QFont.Bold E)
    as (Ht & Hs & Hw & Ha & _);
    [right; reflexivity | cbn; lia | reflexivity |].
  auto.
Defined.

(** A program started on a store with a font size of 200 and a font weight
    of 450, neither of which the dialog can show. *)
Definition oversized : App :=
  {| font_name := VStr "Arial"; font_size := 200; font_weight := Some 450;
     theme_mode := VStr "Dark"; text_content := VStr "";
     show_debug := false; always_on_top := false;
     settings_dialog_geometry := Some VNone;
     debug_console := None; debug_dock := None;
     text_area := Some {| plain_text := "";
                          text_font := Some {| family := "Arial"; point_size := 200;
                                               weight := 450 |} |};
     style_sheet := dark_window_style;
     geometry := {| rx := 100; ry := 100; rw := 800; rh := 600 |};
     layout := 0%N; stays_on_top := false; shown := true |}.

(** X11.  Opening the dialog and clicking Save without touching a control brings
    a font size outside the range of the spin box to its nearest bound, and
    a font weight that is none of the nine of the combo box to Normal. *)
Theorem save_without_edits_normalises (n : nat) (placed : Rect) (s s' : App)
        (st st' : QSettings) :
  handle (S (S n)) (SettingsSave placed []) s st = Ok (s', st') ->
  (font_size s < 8 -> font_size s' = 8) /\
  (72 < font_size s -> font_size s' = 72) /\
  (forall w, font_weight s = Some w -> (forall wt, w <> QFont.int wt) ->
             font_weight s' = Some (QFont.int QFont.Normal)).
Proof.
  intros H.
  apply save_unedited in H as (_ & _ & Hs' & (w & Hw0 & Hw') & _).
  split; [rewrite Hs'; unfold clamp; lia|].
  split; [rewrite Hs'; unfold clamp; lia|].
  intros w0 Hw1 Hn. rewrite Hw0 in Hw1. injection Hw1 as <-.
  rewrite Hw', (currentData_findData_none w Hn). reflexivity.
Qed.

Lemma save_without_edits_normalises_witness :
  exists s' st',
    handle 2 (SettingsSave {| rx := 0; ry := 0; rw := 500; rh := 400 |} [])
      oversized (empty_store IniFormat) = Ok (s', st') /\
    font_size s' = 72 /\ font_weight s' = Some 400.
Proof.
  destruct (handle 2 (SettingsSave {| rx := 0; ry := 0; rw := 500; rh := 400 |} [])
              oversized (empty_store IniFormat)) as [[s' st']|e] eqn:E;
    [|vm_compute in E; discriminate E].
  exists s', st'. split; [reflexivity|].
  destruct (save_without_edits_normalises 0 _ oversized s' _ st' E) as (_ & Hs & Hw).
  split; [apply Hs; cbn; lia|].
  apply (Hw 450); [reflexivity|]. intros wt. destruct wt; discriminate.
Defined.

(** ** Where the dialog opens *)

Lemma open_settings_at (placed r : Rect) (s : App) :
  running s ->
  settings_dialog_geometry s = Some (VBytes (GeometryBlob r)) ->
  exists d s', open_settings placed s = Ok (d, s') /\ dialog_geometry d = r.
Proof.
  intros R Hg.
  destruct (open_settings_total placed s R) as (d & s' & Ho).
  { intros v Hv _. rewrite Hg in Hv. injection Hv as <-. eauto. }
  exists d, s'. split; [exact Ho|].
  apply open_settings_controls in Ho as (_ & _ & _ & _ & _ & _ & ->).
  rewrite Hg. reflexivity.
Qed.

(** A store saved from a running program whose dialog has been closed at
    [r] starts a program whose dialog opens at [r]. *)
Lemma saved_reopens (n : nat) (placed r : Rect) (s : App) (st st' : QSettings) :
  running s ->
  settings_dialog_geometry s = Some (VBytes (GeometryBlob r)) ->
  save_settings_to_file s st = Ok st' ->
  exists s' d s2,
    __init__ (S (S n)) st' = Ok s' /\
    open_settings placed s' = Ok (d, s2) /\ dialog_geometry d = r.
Proof.
  intros R Hg Hsv.
  apply save_settings_to_file_Ok in Hsv as (w & ed & Hw & _ & Sv).
  destruct (saved_restarts n _ _ _ _ _ R Sv Hw) as (s' & Hi).
  destruct (init_Ok n st' s' Hi) as (f & size & w0 & t & _ & St).
  destruct (open_settings_at placed r s' (init_running _ _ _ Hi)) as (d & s2 & Ho & Hd).
  { rewrite (st_dialog_geometry _ _ _ _ _ _ St). unfold value.
    rewrite (sv_dialog_geometry _ _ _ _ _ Sv), Hg. reflexivity. }
  exists s', d, s2. auto.
Qed.

(** X12.  The dialog reopens where it was: once the dialog of a running program
    has been closed, by its close button or by Save, the next
    [open_settings] succeeds and restores the geometry the dialog had when
    it closed, in the same run and after a restart on the store it left. *)
Theorem dialog_reopens_where_it_was (n : nat) (d : Dialog) (placed : Rect)
        (s s1 : App) (st st1 : QSettings) :
  running s ->
  close_event d s st = Ok (s1, st1) \/ click_save (S (S n)) d s st = Ok (s1, st1) ->
  (exists d1 s2,
     open_settings placed s1 = Ok (d1, s2) /\ dialog_geometry d1 = dialog_geometry d) /\
  (exists s' d1 s2,
     __init__ (S (S n)) st1 = Ok s' /\
     open_settings placed s' = Ok (d1, s2) /\ dialog_geometry d1 = dialog_geometry d).
Proof.
  intros R H.
  assert (exists st0,
             running s1 /\
             settings_dialog_geometry s1
             = Some (VBytes (GeometryBlob (dialog_geometry d))) /\
             save_settings_to_file s1 st0 = Ok st1) as (st0 & R1 & Hg & Hsv).
  { destruct H as [H|H].
    - apply close_event_Ok in H as [-> H]. exists st.
      split; [|split; [|exact H]].
      + destruct R. open_app s. constructor; assumption.
      + open_app s. reflexivity.
    - apply click_save_Ok in H as (s0 & D & _ & _).
      destruct (ds_store _ _ _ _ D) as (st0 & Hsv). exists st0.
      split; [exact (dialog_saved_running _ _ _ _ D)|]. split; [apply D | exact Hsv]. }
  split.
  - exact (open_settings_at placed _ s1 R1 Hg).
  - exact (saved_reopens n placed _ s1 st0 st1 R1 Hg Hsv).
Qed.

Lemma dialog_reopens_where_it_was_witness :
  running drafting /\
  exists s1 st1,
    close_event chosen drafting (empty_store IniFormat) = Ok (s1, st1) /\
    (exists d1 s2,
       open_settings {| rx := 0; ry := 0; rw := 500; rh := 400 |} s1 = Ok (d1, s2) /\
       dialog_geometry d1 = {| rx := 40; ry := 40; rw := 500; rh := 400 |}) /\
    (exists s' d1 s2,
       __init__ 2 st1 = Ok s' /\
       open_settings {| rx := 0; ry := 0; rw := 500; rh := 400 |} s' = Ok (d1, s2) /\
       dialog_geometry d1 = {| rx := 40; ry := 40; rw := 500; rh := 400 |}).
Proof.
  split; [exact drafting_running|].
  destruct (close_event chosen drafting (empty_store IniFormat)) as [[s1 st1]|e] eqn:E;
    [|vm_compute in E; discriminate E].
  exists s1, st1. split; [reflexivity|].
  exact (dialog_reopens_where_it_was 0 chosen _ drafting s1 _ st1
           drafting_running (or_introl E)).
Defined.

(** X13.  A dialog that was never closed opens where the window system places
    it: on a store without a dialog geometry, [open_settings] restores
    nothing. *)
Theorem dialog_first_opens_where_placed (n : nat) (placed : Rect) (st : QSettings)
        (s s' : App) (d : Dialog) :
  entries st !! "settings_dialog_geometry" = None ->
  __init__ (S (S n)) st = Ok s ->
  open_settings placed s = Ok (d, s') ->
  dialog_geometry d = placed.
Proof.
  intros Hk Hi Ho.
  destruct (init_Ok n st s Hi) as (f & size & w0 & t & _ & St).
  apply open_settings_controls in Ho as (_ & _ & _ & _ & _ & _ & ->).
  rewrite (st_dialog_geometry _ _ _ _ _ _ St). unfold value. rewrite Hk. reflexivity.
Qed.

Lemma dialog_first_opens_where_placed_witness :
  exists s d s',
    __init__ 2 light_store = Ok s /\
    open_settings {| rx := 7; ry := 9; rw := 500; rh := 400 |} s = Ok (d, s') /\
    dialog_geometry d = {| rx := 7; ry := 9; rw := 500; rh := 400 |}.
Proof.
  destruct (__init__ 2 light_store) as [s|e] eqn:Ei; [|vm_compute in Ei; discriminate Ei].
  destruct (open_settings {| rx := 7; ry := 9; rw := 500; rh := 400 |} s)
    as [[d s']|e] eqn:Eo.
  - exists s, d, s'. split; [reflexivity|]. split; [exact Eo|].
    exact (dialog_first_opens_where_placed 0 _ light_store s s' d eq_refl Ei Eo).
  - vm_compute in Ei. injection Ei as <-. vm_compute in Eo. discriminate Eo.
Defined.

(** ** No event raises *)

Lemma save_settings_total (n : nat) (d : Dialog) (s : App) (st : QSettings) :
  text_area s <> None -> 8 <= size_spin d <= 72 ->
  exists s' st', save_settings (S (S n)) d s st = Ok (s', st').
Proof.
  intros Hta Hd. destruct (text_area s) as [ed|] eqn:Eta; [clear Hta|congruence].
  cbv beta delta [save_settings]. cbv zeta. frame_all.
  match goal with
  | |- context [apply_theme _ None ?x] =>
      destruct (apply_theme_settles n None x) as (c' & k & Heq & _);
      rewrite Heq; clear Heq
  end.
  ok_step.
  match goal with
  | |- context [apply_font ?x] =>
      destruct (apply_font_total x (font_combo d) ed) as [sF HF];
        [ fields_goal; reflexivity
        | fields_goal; unfold fits_c_int; lia
        | fields_goal; intros w0 Hw0; injection Hw0 as <-;
          pose proof (currentData_range (weight_combo d)); unfold fits_c_int; lia
        | open_app s; fields_goal; exact Eta | ]
  end.
  rewrite HF. ok_step.
  apply apply_font_Ok in HF as (fam & ed1 & cf & _ & _ & _ & _ & ->).
  frame_all.
  match goal with
  | |- context [save_settings_to_file ?x st] =>
      destruct (save_settings_to_file_saved x st (currentData (weight_combo d))
                  {| plain_text := plain_text ed1;
                     text_font := Some {| family := fam;
                                          point_size := size_spin d;
                                          weight := currentData (weight_combo d) |} |})
        as (st1 & Hsv & _); [fields_goal; reflexivity | fields_goal; reflexivity |]
  end.
  rewrite Hsv. ok_step. frame_all.
  unfold close_event. cbv zeta.
  match goal with
  | |- context [save_settings_to_file ?x st1] =>
      destruct (save_settings_to_file_saved x st1 (currentData (weight_combo d))
                  {| plain_text := plain_text ed1;
                     text_font := Some {| family := fam;
                                          point_size := size_spin d;
                                          weight := currentData (weight_combo d) |} |})
        as (st2 & Hsv2 & _); [fields_goal; reflexivity | fields_goal; reflexivity |]
  end.
  rewrite Hsv2. ok_step. eauto.
Qed.

Lemma click_save_total (n : nat) (d : Dialog) (s : App) (st : QSettings) :
  text_area s <> None -> 8 <= size_spin d <= 72 ->
  exists s' st', click_save (S (S n)) d s st = Ok (s', st').
Proof.
  intros Hta Hd. unfold click_save.
  destruct (save_settings_total n d s st Hta Hd) as (s1 & st1 & H1).
  rewrite H1. ok_step.
  apply save_settings_total; [|exact Hd].
  apply save_settings_Ok in H1. destruct (ds_text_area _ _ _ _ H1) as (ed & font & _ & Ha).
  clear - Ha. open_app s1. cbn [text_area with_settings_dialog_geometry] in *.
  rewrite Ha. discriminate.
Qed.

(** A value [restoreGeometry] is never given, or takes: none, or a byte
    array. *)
Definition restorable (v : Value) : Prop := v = VNone \/ exists q, v = VBytes q.

Lemma restorable_blob_or_false (v : Value) : restorable v -> blob_or_false v.
Proof. intros [->|[q ->]] H; [discriminate H | eauto]. Qed.

Lemma restorable_to_storage (fmt : Format) (v : Value) :
  restorable v -> to_storage fmt v = v.
Proof. intros [->|[q ->]]; reflexivity. Qed.

(** The program runs, its stored dialog geometry can be restored, and the
    store can start the program again. *)
Record sound (s : App) (st : QSettings) : Prop := {
  so_running : running s;
  so_dialog : forall v, settings_dialog_geometry s = Some v -> restorable v;
  so_store : exists f size w t, loadable st f size w t;
  so_store_dialog : restorable (value st "settings_dialog_geometry" VNone)
}.

Lemma init_sound (n : nat) (st : QSettings) (s : App) :
  __init__ (S (S n)) st = Ok s ->
  restorable (value st "settings_dialog_geometry" VNone) ->
  sound s st.
Proof.
  intros Hi Hr. destruct (init_Ok n st s Hi) as (f & size & w & t & L & St).
  constructor.
  - exact (init_running _ _ _ Hi).
  - intros v Hv. rewrite (st_dialog_geometry _ _ _ _ _ _ St) in Hv.
    injection Hv as <-. exact Hr.
  - eauto.
  - exact Hr.
Qed.

Lemma saved_sound (s : App) (st st' : QSettings) :
  running s ->
  (forall v, settings_dialog_geometry s = Some v -> restorable v) ->
  restorable (value st "settings_dialog_geometry" VNone) ->
  save_settings_to_file s st = Ok st' ->
  (exists f size w t, loadable st' f size w t) /\
  restorable (value st' "settings_dialog_geometry" VNone).
Proof.
  intros [[f Hf] Hs (w' & Hw' & Hwf) _ _] Hd Hr Hsv.
  apply save_settings_to_file_Ok in Hsv as (w & ed & Hw & _ & Sv).
  assert (w' = w) by congruence. subst w'. split.
  - exists f, (font_size s), w, (plain_text ed).
    exact (saved_loadable _ _ _ _ _ _ Sv Hf Hs Hwf).
  - unfold value in *. rewrite (sv_dialog_geometry _ _ _ _ _ Sv).
    destruct (settings_dialog_geometry s) as [v|]; [|exact Hr].
    cbn [default from_option id]. rewrite restorable_to_storage; apply Hd; reflexivity.
Qed.

Lemma save_settings_to_file_total (s : App) (st : QSettings) :
  running s -> exists st', save_settings_to_file s st = Ok st'.
Proof.
  intros [_ _ (w & Hw & _) _ Hta].
  destruct (text_area s) as [ed|] eqn:Eta; [|congruence].
  destruct (save_settings_to_file_saved s st w ed Hw Eta) as (st' & H & _). eauto.
Qed.

Lemma handle_total (n : nat) (e : Event) (s : App) (st : QSettings) :
  sound s st ->
  exists s' st', handle (S (S n)) e s st = Ok (s', st') /\ sound s' st'.
Proof.
  intros [R Hd Hst Hsd].
  destruct e as [t|r|placed edits|placed edits| | |]; cbn [handle].
  - pose proof R as [Rf Rs Rw Rt Rta].
    destruct (text_area s) as [ed|] eqn:Eta; [|congruence].
    cbn [attr]. rewrite mbind_Ok. eexists _, _. split; [reflexivity|].
    constructor; try assumption.
    open_app s. constructor; try assumption. discriminate.
  - eexists _, _. split; [reflexivity|].
    constructor; try assumption.
    destruct R. open_app s. constructor; assumption.
  - destruct (open_settings_total placed s R) as (d & s1 & Ho).
    { intros v Hv. apply restorable_blob_or_false, Hd, Hv. }
    rewrite Ho, mbind_Ok. cbv beta iota.
    apply open_settings_Ok in Ho as [Hsp [c ->]].
    destruct (click_save_total n (foldl edit d edits) (with_debug_console c s) st)
      as (s' & st' & Hc).
    { destruct R. open_app s. assumption. }
    { apply foldl_edit_size_spin, Hsp. }
    exists s', st'. split; [exact Hc|].
    apply click_save_Ok in Hc as (s0 & D & _ & _).
    pose proof (dialog_saved_running _ _ _ _ D) as R'.
    destruct (ds_store _ _ _ _ D) as (st0 & Hsv).
    assert (Hd' : forall v, settings_dialog_geometry s' = Some v -> restorable v).
    { intros v Hv. rewrite (ds_dialog_geometry _ _ _ _ D) in Hv.
      injection Hv as <-. right. eauto. }
    apply save_settings_to_file_Ok in Hsv as (w & ed & Hw & _ & Sv).
    constructor; [exact R' | exact Hd' | |].
    + destruct R' as [[f Hf] Hs (w' & Hw' & Hwf) _ _].
      assert (w' = w) by congruence. subst w'.
      exists f, (font_size s'), w, (plain_text ed).
      exact (saved_loadable _ _ _ _ _ _ Sv Hf Hs Hwf).
    + unfold value. rewrite (sv_dialog_geometry _ _ _ _ _ Sv),
        (ds_dialog_geometry _ _ _ _ D). right. eexists. reflexivity.
  - destruct (open_settings_total placed s R) as (d & s1 & Ho).
    { intros v Hv. apply restorable_blob_or_false, Hd, Hv. }
    rewrite Ho, mbind_Ok. cbv beta iota.
    apply open_settings_Ok in Ho as [Hsp [c ->]].
    unfold close_event. cbv zeta.
    match goal with
    | |- context [save_settings_to_file ?x st] =>
        assert (R1 : running x) by (destruct R; open_app s; constructor; assumption);
        assert (Hd1 : forall v, settings_dialog_geometry x = Some v -> restorable v)
          by (intros v Hv; open_app s; injection Hv as <-; right; eauto);
        destruct (save_settings_to_file_total x st R1) as (st' & Hsv)
    end.
    rewrite Hsv, mbind_Ok. eexists _, _. split; [reflexivity|].
    destruct (saved_sound _ _ _ R1 Hd1 Hsd Hsv) as [L' Hr'].
    constructor; assumption.
  - destruct (debug_dock s) as [[|]|] eqn:Ed;
      try (exists s, st; split; [reflexivity | constructor; assumption]).
    unfold handle_debug_console_close. cbv zeta.
    assert (R1 : running (with_show_debug false s))
      by (destruct R; open_app s; constructor; assumption).
    assert (Hd1 : forall v, settings_dialog_geometry (with_show_debug false s) = Some v ->
                            restorable v)
      by (open_app s; exact Hd).
    destruct (save_settings_to_file_total _ st R1) as (st' & Hsv).
    rewrite Hsv, mbind_Ok. eexists _, _. split; [reflexivity|].
    destruct (saved_sound _ _ _ R1 Hd1 Hsd Hsv) as [L' Hr'].
    unfold dock_closed. cbn [debug_dock with_show_debug]. rewrite Ed.
    constructor; try assumption.
    destruct R. open_app s. constructor; assumption.
  - destruct (closeEvent_total s st R) as (s1 & st1 & Hc). rewrite Hc, mbind_Ok.
    cbv beta iota.
    apply closeEvent_Ok in Hc as (ed & Hta & -> & Hsv).
    assert (R1 : running (with_text_content (VStr (plain_text ed)) s))
      by (destruct R; open_app s; constructor; assumption).
    assert (Hd1 : forall v, settings_dialog_geometry
                              (with_text_content (VStr (plain_text ed)) s) = Some v ->
                            restorable v)
      by (open_app s; exact Hd).
    destruct (saved_sound _ _ _ R1 Hd1 Hsd Hsv) as [(f & size & w & t & L') Hr'].
    destruct (init_total n st1 f size w t L') as (s' & Hi & _).
    rewrite Hi, mbind_Ok. eexists _, _. split; [reflexivity|].
    exact (init_sound _ _ _ Hi Hr').
  - destruct Hst as (f & size & w & t & L).
    destruct (init_total n st f size w t L) as (s' & Hi & _).
    rewrite Hi, mbind_Ok. eexists _, _. split; [reflexivity|].
    exact (init_sound _ _ _ Hi Hsd).
Qed.

Lemma run_total (n : nat) (events : list Event) :
  forall s st, sound s st ->
  exists s' st', run (S (S n)) events s st = Ok (s', st') /\ sound s' st'.
Proof.
  induction events as [|e events IH]; intros s st So; cbn [run].
  - eauto.
  - destruct (handle_total n e s st So) as (s1 & st1 & -> & So1).
    rewrite mbind_Ok. cbv beta iota. apply IH, So1.
Qed.

(** X14.  Once started, the program takes every event: when [__init__] has
    returned on a store whose dialog geometry is absent or a byte array, no
    sequence of edits, moves, dialogs saved or closed, console closings and
    restarts raises, and the store it leaves starts the program again. *)
Theorem started_program_never_raises (n : nat) (st : QSettings) (s : App)
        (events : list Event) :
  __init__ (S (S n)) st = Ok s ->
  entries st !! "settings_dialog_geometry" = None \/
  (exists q, entries st !! "settings_dialog_geometry" = Some (VBytes q)) ->
  exists s' st',
    run (S (S n)) events s st = Ok (s', st') /\
    exists s'', __init__ (S (S n)) st' = Ok s''.
Proof.
  intros Hi Hg.
  assert (Hr : restorable (value st "settings_dialog_geometry" VNone)).
  { unfold value. destruct Hg as [-> | [q ->]]; [left | right; exists q]; reflexivity. }
  destruct (run_total n events s st (init_sound _ _ _ Hi Hr)) as (s' & st' & H & So).
  exists s', st'. split; [exact H|].
  destruct (so_store _ _ So) as (f & size & w & t & L).
  destruct (init_total n st' f size w t L) as (s'' & Hi' & _). eauto.
Qed.

Lemma started_program_never_raises_witness :
  exists s s' st',
    __init__ 2 light_store = Ok s /\
    run 2 busy_day s light_store = Ok (s', st') /\
    exists s'', __init__ 2 st' = Ok s''.
Proof.
  destruct (__init__ 2 light_store) as [s|e] eqn:Ei; [|vm_compute in Ei; discriminate Ei].
  destruct (started_program_never_raises 0 light_store s busy_day Ei (or_introl eq_refl))
    as (s' & st' & H & Hi).
  exists s, s', st'. auto.
Defined.

(** ** What [apply_theme] leaves alone *)

(** X15.  [apply_theme] styles and nothing else: whatever theme it is given, it
    returns, and it leaves the font, the text and the editor, the two flags
    and the window's own flag, the geometries and the dock as they were; it
    makes no console and removes none. *)
Theorem apply_theme_only_styles (n : nat) (theme : option Value) (s : App) :
  exists s' k,
    apply_theme (S (S n)) theme s = Ok (s', k) /\
    font_name s' = font_name s /\ font_size s' = font_size s /\
    font_weight s' = font_weight s /\ text_content s' = text_content s /\
    text_area s' = text_area s /\
    show_debug s' = show_debug s /\ always_on_top s' = always_on_top s /\
    stays_on_top s' = stays_on_top s /\ shown s' = shown s /\
    geometry s' = geometry s /\ layout s' = layout s /\
    settings_dialog_geometry s' = settings_dialog_geometry s /\
    debug_dock s' = debug_dock s /\
    (debug_console s' = None <-> debug_console s = None).
Proof.
  destruct (apply_theme_settles n theme s) as (c & k & -> & L).
  eexists _, k. split; [reflexivity|]. open_app s. fields.
  do 13 (split; [reflexivity|]).
  destruct c, dc; cbn in L; try discriminate L; split; congruence.
Qed.

(** ** Closing the debug console *)

(** X16.  A closed console stays closed: closing the dock of the debug console of
    a running program clears [show_debug], in the object and in the store,
    and the next start on that store builds no console and no dock. *)
Theorem closed_console_stays_closed (n : nat) (s s1 : App) (st st1 : QSettings) :
  running s ->
  handle_debug_console_close s st = Ok (s1, st1) ->
  show_debug s1 = false /\
  entries st1 !! "show_debug" = Some (VStr "false") /\
  exists s',
    __init__ (S (S n)) st1 = Ok s' /\
    show_debug s' = false /\ debug_console s' = None /\ debug_dock s' = None.
Proof.
  intros R H. unfold handle_debug_console_close in H. cbv zeta in H.
  apply bind_Ok in H as (st2 & Hsv & H). injection H as <- <-.
  assert (R1 : running (with_show_debug false s))
    by (destruct R; open_app s; constructor; assumption).
  apply save_settings_to_file_Ok in Hsv as (w & ed & Hw & _ & Sv).
  destruct (saved_restarts n _ _ _ _ _ R1 Sv Hw) as (s' & Hi).
  pose proof (sv_show_debug _ _ _ _ _ Sv) as Hs.
  split; [unfold dock_closed; destruct (debug_dock _); open_app s; reflexivity|].
  split; [rewrite Hs; open_app s; reflexivity|].
  exists s'. split; [exact Hi|].
  destruct (init_Ok n st2 s' Hi) as (f & size & w0 & t & _ & St).
  assert (Hd : show_debug s' = false).
  { rewrite (st_show_debug _ _ _ _ _ _ St). unfold value. rewrite Hs.
    open_app s. reflexivity. }
  destruct (init_console n st2 s' Hi) as (_ & _ & Hoff).
  destruct (Hoff Hd) as [-> ->]. auto.
Qed.

(** A running program with its debug console open. *)
Definition debugging : App :=
  {| font_name := VStr "Arial"; font_size := 16; font_weight := Some 400;
     theme_mode := VStr "Dark"; text_content := VStr "";
     show_debug := true; always_on_top := false;
     settings_dialog_geometry := Some VNone;
     debug_console := Some {| console_style := dark_console_style;
                              console_lines := [Log "Application started" []] |};
     debug_dock := Some true;
     text_area := Some {| plain_text := "draft"; text_font := None |};
     style_sheet := dark_window_style;
     geometry := {| rx := 100; ry := 100; rw := 800; rh := 600 |};
     layout := 0%N; stays_on_top := false; shown := true |}.

Lemma debugging_running : running debugging.
Proof.
  constructor; cbn; try (unfold fits_c_int; lia); eauto; try discriminate.
  eexists. split; [reflexivity|]. unfold fits_c_int. lia.
Qed.

Lemma closed_console_stays_closed_witness :
  running debugging /\
  exists s1 st1,
    handle_debug_console_close debugging light_store = Ok (s1, st1) /\
    show_debug s1 = false /\
    entries st1 !! "show_debug" = Some (VStr "false") /\
    exists s',
      __init__ 2 st1 = Ok s' /\
      show_debug s' = false /\ debug_console s' = None /\ debug_dock s' = None.
Proof.
  split; [exact debugging_running|].
  destruct (handle_debug_console_close debugging light_store) as [[s1 st1]|e] eqn:E;
    [|vm_compute in E; discriminate E].
  exists s1, st1. split; [reflexivity|].
  exact (closed_console_stays_closed 0 debugging s1 light_store st1 debugging_running E).
Defined.

(** ** What the debug console shows after a start *)

Lemma log_debug_off (message : LogLine) (s : App) :
  debug_console s = None -> log_debug message s = s.
Proof.
  open_app s. unfold log_debug. cbn [debug_console show_debug]. intros ->.
  destruct sd; reflexivity.
Qed.

Lemma log_debug_on (message : LogLine) (s : App) (c : Console) :
  show_debug s = true -> debug_console s = Some c ->
  log_debug message s
  = with_debug_console
      (Some {| console_style := console_style c;
               console_lines := console_lines c ++ [message] |}) s.
Proof.
  open_app s. unfold log_debug. cbn [debug_console show_debug]. intros -> ->.
  reflexivity.
Qed.

Lemma style_console_on (sheet : string) (s : App) (c : Console) :
  debug_console s = Some c ->
  style_console sheet s
  = with_debug_console
      (Some {| console_style := sheet; console_lines := console_lines c |}) s.
Proof.
  open_app s. unfold style_console. cbn [debug_console]. intros ->. reflexivity.
Qed.

(** The lines a method logs when it meets a theme it does not know. *)
Definition if_unknown (v : Value) (line : LogLine) : list LogLine :=
  if is_valid_theme v then [] else [line].

Lemma _init_debug_console_on (s : App) :
  show_debug s = true ->
  _init_debug_console s
  = with_debug_dock (Some true)
      (with_debug_console
         (Some {| console_style := console_style_of (theme_mode s);
                  console_lines :=
                    if_unknown (theme_mode s)
                      (Log "Unknown Theme '{}' Set, Defaulting To Dark Theme - Console"
                           [theme_mode s]) |}) s).
Proof.
  open_app s. cbn [show_debug theme_mode]. intros ->.
  unfold _init_debug_console, if_unknown, is_valid_theme, console_style_of. cbv zeta.
  cbn [theme_mode with_debug_console].
  destruct (py_eq_str tm "Dark") eqn:ED.
  - apply py_eq_str_true in ED as ->. reflexivity.
  - destruct (py_eq_str tm "Light"); reflexivity.
Qed.

Lemma apply_theme_on (n : nat) (s : App) (c : Console) :
  show_debug s = true -> debug_console s = Some c ->
  exists k,
    apply_theme (S (S n)) None s
    = Ok (with_debug_console
            (Some {| console_style := console_style_of (theme_mode s);
                     console_lines :=
                       console_lines c ++
                       if_unknown (theme_mode s)
                         (Log "Unknown Theme '{}' set, Defaulting To Dark Theme"
                              [theme_mode s]) |})
            (with_style_sheet (window_style_of (theme_mode s))
               (with_theme_mode (settled (theme_mode s)) s)), k).
Proof.
  open_app s. cbn [show_debug debug_console theme_mode]. intros -> ->.
  unfold if_unknown, is_valid_theme, console_style_of, window_style_of, settled.
  destruct (py_eq_str tm "Dark") eqn:ED.
  - apply py_eq_str_true in ED as ->. exists O.
    cbn [orb py_eq_str String.eqb Ascii.eqb Bool.eqb]. rewrite app_nil_r. reflexivity.
  - destruct (py_eq_str tm "Light") eqn:EL.
    + apply py_eq_str_true in EL as ->. exists O. cbn [orb]. rewrite app_nil_r.
      reflexivity.
    + exists 1%nat. cbn [orb].
      change (apply_theme (S (S n)) None
                (mkApp fn fs fw tm tc true aot sdg (Some c) dd ta ss g l sot sh))
        with (if py_eq_str tm "Dark"
              then Ok (style_console dark_console_style
                         (with_style_sheet dark_window_style
                            (mkApp fn fs fw tm tc true aot sdg (Some c) dd ta ss g l sot sh)),
                       O)
              else if py_eq_str tm "Light"
              then Ok (style_console light_console_style
                         (with_style_sheet light_window_style
                            (mkApp fn fs fw tm tc true aot sdg (Some c) dd ta ss g l sot sh)),
                       O)
              else '(s', k) ← apply_theme (S n) None
                                (with_theme_mode (VStr "Dark")
                                   (log_debug
                                      (Log "Unknown Theme '{}' set, Defaulting To Dark Theme"
                                           [tm])
                                      (mkApp fn fs fw tm tc true aot sdg (Some c) dd ta ss
                                             g l sot sh)));
                   Ok (s', S k)).
      rewrite ED, EL. reflexivity.
Qed.

Lemma apply_font_on (s s' : App) (c : Console) :
  apply_font s = Ok s' ->
  show_debug s = true -> debug_console s = Some c ->
  debug_console s'
  = Some {| console_style := console_style c;
            console_lines :=
              console_lines c ++
              [Log "Font-Family: {}, Font-Size: {}, Font-Weight: {}"
                   [font_name s; VInt (font_size s);
                    from_option VInt (VStr "Normal") (font_weight s)]] |}.
Proof.
  unfold apply_font. intros H Hs Hc.
  destruct (font_name s) as [| | |fam|] eqn:Ef; try discriminate.
  apply bind_Ok in H as (size & _ & H). cbv beta in H.
  apply bind_Ok in H as (w & _ & H). cbv beta in H.
  apply bind_Ok in H as (ed & _ & H). cbv beta zeta in H.
  injection H as <-.
  erewrite log_debug_on; [|open_app s; exact Hs | open_app s; exact Hc].
  open_app s. cbn in Ef. subst. reflexivity.
Qed.

Lemma set_always_on_top_on (enable : bool) (s : App) (c : Console) :
  show_debug s = true -> debug_console s = Some c ->
  debug_console (set_always_on_top enable s)
  = Some {| console_style := console_style c;
            console_lines :=
              console_lines c ++
              [Log (if enable then "Always On Top: Enabled"
                    else "Always On Top: Disabled") []] |}.
Proof.
  open_app s. cbn [show_debug debug_console]. intros -> ->.
  destruct enable; reflexivity.
Qed.

Lemma start_debug_console_on (s : App) :
  show_debug s = true ->
  start_debug_console s
  = with_debug_dock (Some true)
      (with_debug_console
         (Some {| console_style := console_style_of (theme_mode s);
                  console_lines :=
                    if_unknown (theme_mode s)
                      (Log "Unknown Theme '{}' Set, Defaulting To Dark Theme - Console"
                           [theme_mode s])
                    ++ [Log "Application started" [];
                        Log "Current Theme: {}" [theme_mode s]] |}) s).
Proof.
  intros Hs. unfold start_debug_console. rewrite Hs. cbv zeta.
  rewrite (_init_debug_console_on s Hs).
  open_app s. cbn in Hs. subst. cbn [theme_mode].
  unfold if_unknown. destruct (is_valid_theme tm); reflexivity.
Qed.

(** X17.  The log of a start: when the store has the debug console on, the
    console [__init__] leaves holds the lines "Application started" and
    "Current Theme", the line of [apply_font] and the line of
    [set_always_on_top], with a line of [_init_debug_console] before them
    and a line of [apply_theme] among them if the stored theme is unknown;
    what [load_settings] and line 44 log before the console exists is
    lost. *)
Theorem start_up_log (n : nat) (st : QSettings) (s : App) :
  __init__ (S (S n)) st = Ok s ->
  value st "show_debug" (VStr "false") = VStr "true" ->
  console_lines <$> debug_console s
  = Some
      (if_unknown (value st "theme_mode" (VStr "Dark"))
         (Log "Unknown Theme '{}' Set, Defaulting To Dark Theme - Console"
              [value st "theme_mode" (VStr "Dark")])
       ++ [Log "Application started" [];
           Log "Current Theme: {}" [value st "theme_mode" (VStr "Dark")]]
       ++ if_unknown (value st "theme_mode" (VStr "Dark"))
            (Log "Unknown Theme '{}' set, Defaulting To Dark Theme"
                 [value st "theme_mode" (VStr "Dark")])
       ++ [Log "Font-Family: {}, Font-Size: {}, Font-Weight: {}"
               [font_name s; VInt (font_size s);
                from_option VInt (VStr "Normal") (font_weight s)];
           Log (if always_on_top s then "Always On Top: Enabled"
                else "Always On Top: Disabled") []])%list.
Proof.
  intros H Hsd. cbv beta delta [__init__] in H.
  apply bind_Ok in H as (s0 & Hl & H). cbv beta zeta in H.
  pose proof (load_settings_console _ _ _ Hl) as L0.
  apply load_settings_Ok in Hl as (size & w & g0 & l0 & c & _ & _ & _ & _ & _ & ->).
  cbn in L0. destruct c as [c|]; [discriminate L0|]. clear L0.
  rewrite Hsd in H. cbn [py_eq_str String.eqb Ascii.eqb Bool.eqb] in H.
  match type of H with
  | context [log_debug ?m ?x] => rewrite (log_debug_off m x eq_refl) in H
  end.
  match type of H with
  | context [start_debug_console ?x] => rewrite (start_debug_console_on x eq_refl) in H
  end.
  fields.
  match type of H with
  | context [apply_theme _ None ?x] =>
      edestruct (apply_theme_on n x) as (k & Ht); [reflexivity | reflexivity |];
      rewrite Ht in H; clear Ht
  end.
  rewrite mbind_Ok in H. cbv beta iota in H. fields.
  apply bind_Ok in H as (s1 & Hf & H). cbv beta in H.
  epose proof (apply_font_on _ _ _ Hf eq_refl eq_refl) as Cf.
  apply apply_font_Ok in Hf as (fam & ed & cf & Hfam & _ & _ & _ & ->).
  fields. subst cf.
  apply bind_Ok in H as (s2 & Hp & H).
  apply setPlainText_Ok in Hp as (t & ed' & _ & _ & ->).
  injection H as <-.
  match goal with
  | |- context [set_always_on_top ?b ?x] =>
      epose proof (set_always_on_top_on b x _ eq_refl eq_refl) as Ca;
      destruct (set_always_on_top_frame b x) as [ca Ea];
      rewrite Ea in *; clear Ea
  end.
  fields. subst ca. cbn [fmap option_fmap option_map console_lines console_style].
  f_equal. rewrite <- !app_assoc. reflexivity.
Qed.

Definition teal_store : QSettings :=
  {| format := IniFormat;
     entries := <["theme_mode" := VStr "Teal"]> {["show_debug" := VStr "true"]} |}.

Lemma start_up_log_witness :
  exists s,
    __init__ 2 teal_store = Ok s /\
    console_lines <$> debug_console s
    = Some [Log "Unknown Theme '{}' Set, Defaulting To Dark Theme - Console" [VStr "Teal"];
            Log "Application started" [];
            Log "Current Theme: {}" [VStr "Teal"];
            Log "Unknown Theme '{}' set, Defaulting To Dark Theme" [VStr "Teal"];
            Log "Font-Family: {}, Font-Size: {}, Font-Weight: {}"
                [VStr "Arial"; VInt 16; VInt 400];
            Log "Always On Top: Disabled" []].
Proof.
  destruct (__init__ 2 teal_store) as [s|e] eqn:E; [|vm_compute in E; discriminate E].
  exists s. split; [reflexivity|].
  rewrite (start_up_log 0 teal_store s E eq_refl).
  vm_compute in E. injection E as <-. reflexivity.
Defined.

(** ** The two slots of the Save button *)

Lemma save_settings_store (n : nat) (d : Dialog) (s s' : App) (st st' : QSettings) :
  save_settings (S (S n)) d s st = Ok (s', st') ->
  format st' = format st /\
  forall key, key ∉ settings_keys -> entries st' !! key = entries st !! key.
Proof.
  intros H. cbv beta delta [save_settings] in H. cbv zeta in H.
  frame_all. inv_step.
  match type of E with
  | apply_theme _ None ?x = _ =>
      destruct (apply_theme_settles n None x) as (c' & k & Heq & _);
      rewrite Heq in E; clear Heq
  end.
  inv_step. inv_step.
  apply apply_font_Ok in E as (fam & ed & cf & _ & _ & _ & _ & ->).
  frame_all. inv_step.
  apply close_event_Ok in H as [-> H].
  split.
  - apply save_settings_to_file_Ok in E as (w1 & e1 & _ & _ & S1).
    apply save_settings_to_file_Ok in H as (w2 & e2 & _ & _ & S2).
    rewrite (sv_format _ _ _ _ _ S2). apply S1.
  - intros key Hk.
    rewrite (save_settings_to_file_other _ _ _ _ H Hk).
    apply (save_settings_to_file_other _ _ _ _ E Hk).
Qed.

(** X18.  The second slot changes nothing that is kept: a click on Save runs
    [save_settings] twice, and leaves the store, the settings, the editor
    and the style sheet as one run of [save_settings] leaves them. *)
Theorem second_save_changes_nothing (n : nat) (d : Dialog) (s s2 : App)
        (st st2 : QSettings) :
  click_save (S (S n)) d s st = Ok (s2, st2) ->
  exists s1,
    save_settings (S (S n)) d s st = Ok (s1, st2) /\
    theme_mode s2 = theme_mode s1 /\ font_name s2 = font_name s1 /\
    font_size s2 = font_size s1 /\ font_weight s2 = font_weight s1 /\
    always_on_top s2 = always_on_top s1 /\ show_debug s2 = show_debug s1 /\
    text_content s2 = text_content s1 /\ text_area s2 = text_area s1 /\
    style_sheet s2 = style_sheet s1 /\
    geometry s2 = geometry s1 /\ layout s2 = layout s1 /\
    settings_dialog_geometry s2 = settings_dialog_geometry s1.
Proof.
  unfold click_save. intros H.
  apply bind_Ok in H as ([s1 st1] & E1 & H). cbv beta iota zeta in H.
  pose proof (save_settings_Ok _ _ _ _ _ _ E1) as D1.
  pose proof (save_settings_applied _ _ _ _ _ _ E1) as A1.
  pose proof (save_settings_Ok _ _ _ _ _ _ H) as D2.
  pose proof (save_settings_applied _ _ _ _ _ _ H) as A2.
  destruct (save_settings_store _ _ _ _ _ _ H) as [Hfmt Hother].
  assert (Hta : text_area s2 = text_area s1).
  { destruct (da_text_area _ _ _ A1) as (e1 & _ & T1).
    destruct (da_text_area _ _ _ A2) as (e2 & T2 & T2').
    rewrite T2', T1. clear - T1 T2. open_app s1.
    cbn [text_area with_settings_dialog_geometry] in *.
    rewrite T1 in T2. injection T2 as <-. reflexivity. }
  assert (Hfields :
            theme_mode s2 = theme_mode s1 /\ font_name s2 = font_name s1 /\
            font_size s2 = font_size s1 /\ font_weight s2 = font_weight s1 /\
            always_on_top s2 = always_on_top s1 /\ show_debug s2 = show_debug s1 /\
            text_content s2 = text_content s1 /\ text_area s2 = text_area s1 /\
            style_sheet s2 = style_sheet s1 /\
            geometry s2 = geometry s1 /\ layout s2 = layout s1 /\
            settings_dialog_geometry s2 = settings_dialog_geometry s1).
  { assert (Ht : theme_mode s2 = theme_mode s1)
      by (rewrite (da_theme_mode _ _ _ A2), (da_theme_mode _ _ _ A1); reflexivity).
    split; [exact Ht|].
    split; [rewrite (ds_font_name _ _ _ _ D2), (ds_font_name _ _ _ _ D1); reflexivity|].
    split; [rewrite (ds_font_size _ _ _ _ D2), (ds_font_size _ _ _ _ D1); reflexivity|].
    split; [rewrite (ds_font_weight _ _ _ _ D2), (ds_font_weight _ _ _ _ D1); reflexivity|].
    split; [rewrite (ds_always_on_top _ _ _ _ D2), (ds_always_on_top _ _ _ _ D1);
            reflexivity|].
    split; [rewrite (ds_show_debug _ _ _ _ D2), (ds_show_debug _ _ _ _ D1); reflexivity|].
    split; [rewrite (ds_text_content _ _ _ _ D2); clear; open_app s1; reflexivity|].
    split; [exact Hta|].
    split; [rewrite (da_style_sheet _ _ _ A2), (da_style_sheet _ _ _ A1), Ht; reflexivity|].
    split; [rewrite (ds_geometry _ _ _ _ D2); clear; open_app s1; reflexivity|].
    split; [rewrite (ds_layout _ _ _ _ D2); clear; open_app s1; reflexivity|].
    rewrite (ds_dialog_geometry _ _ _ _ D2), (ds_dialog_geometry _ _ _ _ D1).
    reflexivity. }
  assert (st2 = st1) as ->.
  { destruct Hfields as (F1 & F2 & F3 & F4 & F5 & F6 & _ & F8 & _ & F10 & F11 & F12).
    destruct (ds_store _ _ _ _ D1) as (sx & Sx).
    destruct (ds_store _ _ _ _ D2) as (sy & Sy).
    apply save_settings_to_file_Ok in Sx as (w1 & e1 & Hw1 & He1 & S1).
    apply save_settings_to_file_Ok in Sy as (w2 & e2 & Hw2 & He2 & S2).
    assert (w2 = w1) by congruence. assert (e2 = e1) by congruence. subst w2 e2.
    assert (Hf : format sy = format sx).
    { rewrite <- (sv_format _ _ _ _ _ S2), <- (sv_format _ _ _ _ _ S1). exact Hfmt. }
    apply QSettings_eq; [exact Hfmt|].
    intros key. destruct (decide (key ∈ settings_keys)) as [Hin|Hout];
      [|exact (Hother key Hout)].
    destruct S1, S2. unfold settings_keys in Hin. rewrite !elem_of_cons in Hin.
    destruct Hin as [->|[->|[->|[->|[->|[->|[->|[->|[->|[->|Hin]]]]]]]]]];
      try congruence; try (rewrite ?F5, ?F6 in *; congruence).
    - pose proof (ds_dialog_geometry _ _ _ _ D1) as G1.
      rewrite F12, G1 in *. congruence.
    - apply elem_of_nil in Hin. contradiction. }
  exists s1. split; [exact E1 | exact Hfields].
Qed.

Lemma second_save_changes_nothing_witness :
  exists s1 s2 st2,
    click_save 2 chosen drafting (empty_store IniFormat) = Ok (s2, st2) /\
    save_settings 2 chosen drafting (empty_store IniFormat) = Ok (s1, st2) /\
    theme_mode s2 = theme_mode s1 /\ text_area s2 = text_area s1.
Proof.
  destruct (click_save 2 chosen drafting (empty_store IniFormat)) as [[s2 st2]|e] eqn:E;
    [|vm_compute in E; discriminate E].
  destruct (second_save_changes_nothing 0 chosen drafting s2 _ st2 E)
    as (s1 & H1 & Ht & _ & _ & _ & _ & _ & _ & Ha & _).
  exists s1, s2, st2. auto.
Defined.

(** ** A dialog geometry that cannot be restored *)

(** X19.  The dialog cannot open on a dialog geometry stored as text: when the
    store holds a non-empty text under the key of the dialog geometry, as a
    store edited by hand can, the program may start, but [open_settings]
    then raises: the text reaches [restoreGeometry], which takes a byte
    array only. *)
Theorem open_settings_rejects_text_geometry (n : nat) (placed : Rect)
        (st : QSettings) (s : App) (t : string) :
  __init__ (S (S n)) st = Ok s ->
  entries st !! "settings_dialog_geometry" = Some (VStr t) -> t <> "" ->
  open_settings placed s = Raise TypeError.
Proof.
  intros Hi Hk Ht.
  destruct (init_Ok n st s Hi) as (f & size & w0 & t0 & _ & St).
  unfold open_settings. rewrite (st_dialog_geometry _ _ _ _ _ _ St).
  unfold value. rewrite Hk. cbn [default from_option id truthy].
  apply String.eqb_neq in Ht. rewrite Ht. reflexivity.
Qed.

Definition edited_store : QSettings :=
  {| format := IniFormat;
     entries := {["settings_dialog_geometry" := VStr "0,0,500,400"]} |}.

Lemma open_settings_rejects_text_geometry_witness :
  exists s,
    __init__ 2 edited_store = Ok s /\
    open_settings {| rx := 0; ry := 0; rw := 500; rh := 400 |} s = Raise TypeError.
Proof.
  destruct (__init__ 2 edited_store) as [s|e] eqn:E; [|vm_compute in E; discriminate E].
  exists s. split; [reflexivity|].
  apply (open_settings_rejects_text_geometry 0 _ edited_store s "0,0,500,400" E).
  - reflexivity.
  - discriminate.
Defined.
